(** * Lumora: daily-challenge generator and local progress tracking

    A shallow embedding of the two service modules of the application,

    - [src/services/storageService.js]: the profile, the streak, the
      challenge history and the preferences kept in AsyncStorage;
    - the challenge generator ([AIChallengeGenerator], imported by the
      screens as [src/services/aiService]): template selection,
      personalisation, the per-day cache and the in-memory history;
    - the callers of the two: the start-up of [App.js] and the handlers
      of [src/screens/HomeScreen.js], over their component state;

    followed by the properties of the specification that concern them.

    Modelling conventions.

    - AsyncStorage is a finite map from keys to stored texts.  The program
      looks at a stored text in two ways only: its truthiness and
      [JSON.parse]; and it writes only [JSON.stringify v].  A text is
      therefore represented by what [JSON.parse] makes of it ([text]).
    - Every AsyncStorage call may fail.  The world carries a schedule
      [faults]: one boolean is consumed per call, [true] makes that call
      reject.  An exhausted schedule means no further failure.
    - [Math.random] is an oracle [entropy]: one natural number is consumed
      per call and reduced to the requested range, so that quantifying
      over the oracle covers every outcome of
      [Math.floor(Math.random() * n)].
    - The clock is read as one instant [now] (milliseconds since the
      epoch) for the duration of one operation.  ISO-8601 strings produced
      by [toISOString] are represented by the instant they denote.  The
      time-zone dependent views of an instant ([toDateString], [getHours],
      [getDay]) are parameters ([DateAPI]).
    - JavaScript numbers that count things ([currentStreak],
      [totalChallenges]) are modelled in [Z].  The model is exact on the
      safe integers (magnitude below 2^53), where adding 1 on doubles is
      exact; every statement that says what a counter becomes is made
      for counters in that range ([safe_integer]).
    - [async]/[await] is sequential composition here: the application has
      one thread of control and awaits every call. *)

From Stdlib Require Import ZArith List Bool Ascii String Lia QArith.
From stdpp Require Import base option list strings gmap fin_maps pretty.

Local Open Scope string_scope.
Local Open Scope list_scope.

(** ** Data model *)

Module Completion.
Record t := mk { id : string; completedAt : Z }.
End Completion.

Module Preferences.
Record t := mk {
  difficulty : string;
  categories : list string;
  notifications : option bool;
  reminderTime : option string
}.
End Preferences.

Module UserData.
Record t := mk {
  id : string;
  name : string;
  joinDate : Z;
  completedChallenges : list Completion.t;
  currentStreak : Z;
  totalChallenges : Z;
  preferences : Preferences.t
}.
End UserData.

(** What an entry of [recentCategories] holds: a count, or the string
    that [+] makes of an inherited function and [1] (see [bump]). *)
Inductive tally :=
  | Count (n : nat)
  | Concat.

Module Factors.
Record t := mk {
  timeOfDay : Z;
  dayOfWeek : Z;
  userDifficulty : string;
  recentCategories : list (string * tally);
  successRate : Q
}.
End Factors.

(** A generated challenge.  [None] in the three modifier fields stands for
    JavaScript's [undefined] (see [lookup_modifiers]). *)
Module Challenge.
Record t := mk {
  id : string;
  title : string;
  description : string;
  category : string;
  type : string;
  difficulty : string;
  estimatedTime : option Z;
  effortLevel : option Z;
  complexity : option Z;
  createdAt : Z;
  completed : bool;
  completedAt : option Z;
  userNotes : string;
  aiGenerated : bool;
  personalizationFactors : Factors.t
}.
End Challenge.

(** The JavaScript values that flow through the two services: what
    [JSON.parse] may return for a stored text and what the operations hand
    to their callers.  [VOpaque b] is any other JSON value that has none of
    the fields this program reads and is not iterable (a number, an object
    of another shape), known by its truthiness only.  A stored text that
    parses to a JSON string, which the program never writes, is outside
    the model. *)
Inductive value :=
  | VNull
  | VBool (b : bool)
  | VProfile (u : UserData.t)
  | VPrefs (p : Preferences.t)
  | VChallenges (cs : list Challenge.t)
  | VOpaque (truthy_ : bool).

Definition truthy (v : value) : bool :=
  match v with
  | VNull => false
  | VBool b => b
  | VProfile _ | VPrefs _ | VChallenges _ => true
  | VOpaque b => b
  end.

(** A stored string, by its parse. *)
Inductive text :=
  | Json (v : value)   (* a text that parses to [v], e.g. [JSON.stringify v] *)
  | Garbled            (* a non-empty text that is not JSON *)
  | Blank.             (* the empty string *)

Definition text_truthy (t : text) : bool :=
  match t with Blank => false | _ => true end.

(** ** Effects: exceptions, storage failures, randomness, the singleton *)

Inductive error := StorageError | SyntaxError | TypeError.

Inductive outcome (A : Type) :=
  | Ret (a : A)
  | Throw (e : error).
Arguments Ret {A} a.
Arguments Throw {A} e.

(** The module-level [aiChallengeGenerator] object. *)
Record Generator := mkGenerator {
  userPreferences : value;
  challengeHistory : value
}.

(** [constructor()]. *)
Definition new_generator : Generator :=
  {| userPreferences := VNull; challengeHistory := VChallenges [] |}.

Record World := mkWorld {
  storage : gmap string text;
  faults : list bool;
  entropy : list nat;
  generator : Generator;
  console : list string
}.

Definition M (A : Type) : Type := World -> outcome A * World.

Definition ret {A} (a : A) : M A := fun w => (Ret a, w).

Definition throw {A} (e : error) : M A := fun w => (Throw e, w).

Definition bind {A B} (m : M A) (k : A -> M B) : M B :=
  fun w =>
    match m w with
    | (Ret a, w') => k a w'
    | (Throw e, w') => (Throw e, w')
    end.

(** [try { body } catch (error) { handler }]: effects made before the throw
    stay. *)
Definition try_catch {A} (body : M A) (handler : error -> M A) : M A :=
  fun w =>
    match body w with
    | (Ret a, w') => (Ret a, w')
    | (Throw e, w') => handler e w'
    end.

Declare Scope js_scope.
Delimit Scope js_scope with js.
Notation "x <- c1 ;; c2" := (bind c1 (fun x => c2))
  (at level 100, c1 at next level, right associativity) : js_scope.
Notation "c1 ;; c2" := (bind c1 (fun _ => c2))
  (at level 100, right associativity) : js_scope.
Local Open Scope js_scope.

Definition set_storage (s : gmap string text) (w : World) : World :=
  mkWorld s (faults w) (entropy w) (generator w) (console w).

Definition set_faults (fs : list bool) (w : World) : World :=
  mkWorld (storage w) fs (entropy w) (generator w) (console w).

Definition set_entropy (rs : list nat) (w : World) : World :=
  mkWorld (storage w) (faults w) rs (generator w) (console w).

Definition set_generator (g : Generator) (w : World) : World :=
  mkWorld (storage w) (faults w) (entropy w) g (console w).

(** [console.error(msg, error)]. *)
Definition console_error (msg : string) : M unit :=
  fun w => (Ret tt,
            mkWorld (storage w) (faults w) (entropy w) (generator w)
                    (console w ++ [msg])).

(** Whether the next AsyncStorage call rejects. *)
Definition next_fault (w : World) : bool := hd false (faults w).

(** The world once one AsyncStorage call has been answered. *)
Definition after_call (w : World) : World := set_faults (tl (faults w)) w.

Module AsyncStorage.

Definition getItem (key : string) : M (option text) :=
  fun w =>
    if next_fault w then (Throw StorageError, after_call w)
    else (Ret (storage w !! key), after_call w).

Definition setItem (key : string) (t : text) : M unit :=
  fun w =>
    if next_fault w then (Throw StorageError, after_call w)
    else (Ret tt, set_storage (<[key := t]> (storage w)) (after_call w)).

Definition multiRemove (keys : list string) : M unit :=
  fun w =>
    if next_fault w then (Throw StorageError, after_call w)
    else (Ret tt,
          set_storage (foldr (fun k s => delete k s) (storage w) keys)
                      (after_call w)).

End AsyncStorage.

Module JSON.

Definition parse (t : text) : M value :=
  match t with
  | Json v => ret v
  | Garbled | Blank => throw SyntaxError
  end.

Definition stringify (v : value) : text := Json v.

End JSON.

(** [s ? JSON.parse(s) : dflt] for [s] the answer of [getItem]: [null] and
    the empty string are falsy. *)
Definition parse_or (dflt : value) (s : option text) : M value :=
  match s with
  | Some t => if text_truthy t then JSON.parse t else ret dflt
  | None => ret dflt
  end.

(** What the calendar views of an instant are in the device's time zone. *)
Record DateAPI := mkDateAPI {
  toDateString : Z -> string;
  getHours : Z -> Z;
  getDay : Z -> Z
}.

(** [24 * 60 * 60 * 1000]. *)
Definition day_ms : Z := 24 * 60 * 60 * 1000.

(** [a[i]] for a possibly negative index: [undefined] out of range. *)
Definition js_index {A} (a : list A) (i : Z) : option A :=
  if (i <? 0)%Z then None else a !! Z.to_nat i.

(** ** storageService.js *)

Definition saveUserData (userData : value) : M bool :=
  try_catch
    (AsyncStorage.setItem "userData" (JSON.stringify userData) ;;
     ret true)
    (fun _ => console_error "Error saving user data:" ;; ret false).

Definition loadUserData : M value :=
  try_catch
    (userData <- AsyncStorage.getItem "userData" ;;
     parse_or VNull userData)
    (fun _ => console_error "Error loading user data:" ;; ret (VBool false)).

Section Progress.

Context (date : DateAPI).

(** The body of [if (completed) { ... }] in [updateUserProgress], on a
    profile: the record is pushed first, so the record at index
    [length - 2] is the one that was last before this call.  The two
    [+ 1] are those of the source on counters that are safe integers. *)
Definition completed_branch (challengeId : string) (now : Z)
    (userData : UserData.t) : UserData.t :=
  let completedChallenges :=
    UserData.completedChallenges userData ++ [Completion.mk challengeId now] in
  let totalChallenges := (UserData.totalChallenges userData + 1)%Z in
  let today := toDateString date now in
  let lastCompleted :=
    js_index completedChallenges (Z.of_nat (length completedChallenges) - 2) in
  let currentStreak :=
    match lastCompleted with
    | Some lc =>
        let lastDate := toDateString date (Completion.completedAt lc) in
        let yesterday := toDateString date (now - day_ms) in
        if String.eqb lastDate yesterday
        then (UserData.currentStreak userData + 1)%Z
        else if negb (String.eqb lastDate today)
             then 1%Z
             else UserData.currentStreak userData
    | None => 1%Z
    end in
  UserData.mk (UserData.id userData) (UserData.name userData)
              (UserData.joinDate userData) completedChallenges currentStreak
              totalChallenges (UserData.preferences userData).

(** The same block on any truthy value: a value without a
    [completedChallenges] array makes [.push] a TypeError. *)
Definition apply_completed (challengeId : string) (now : Z)
    (userData : value) : M value :=
  match userData with
  | VProfile u => ret (VProfile (completed_branch challengeId now u))
  | _ => throw TypeError
  end.

Definition updateUserProgress (challengeId : string) (completed : bool)
    (now : Z) : M bool :=
  try_catch
    (userData <- loadUserData ;;
     if negb (truthy userData) then ret false
     else
       userData' <- (if completed
                     then apply_completed challengeId now userData
                     else ret userData) ;;
       saveUserData userData' ;;
       ret true)
    (fun _ => console_error "Error updating user progress:" ;; ret false).

End Progress.

(** [[...v]] for the values of this model: an array is copied, and
    [null], a boolean, a number or a plain object is not iterable. *)
Definition spread (v : value) : M (list Challenge.t) :=
  match v with
  | VChallenges cs => ret cs
  | _ => throw TypeError
  end.

Definition loadChallengeHistory : M value :=
  try_catch
    (history <- AsyncStorage.getItem "challengeHistory" ;;
     parse_or (VChallenges []) history)
    (fun _ => console_error "Error loading challenge history:" ;;
              ret (VChallenges [])).

(** [if (a.length > 100) a.splice(0, a.length - 100)]. *)
Definition keep_last_100 (updatedHistory : list Challenge.t)
    : list Challenge.t :=
  if (100 <? length updatedHistory)%nat
  then drop (length updatedHistory - 100)%nat updatedHistory
  else updatedHistory.

Definition saveChallengeHistory (challenges : list Challenge.t) : M bool :=
  try_catch
    (history <- loadChallengeHistory ;;
     h <- spread history ;;
     let updatedHistory := keep_last_100 (h ++ challenges) in
     AsyncStorage.setItem "challengeHistory"
       (JSON.stringify (VChallenges updatedHistory)) ;;
     ret true)
    (fun _ => console_error "Error saving challenge history:" ;; ret false).

Definition mark_one (challengeId : string) (now : Z) (challenge : Challenge.t)
    : Challenge.t :=
  if String.eqb (Challenge.id challenge) challengeId
  then Challenge.mk (Challenge.id challenge) (Challenge.title challenge)
         (Challenge.description challenge) (Challenge.category challenge)
         (Challenge.type challenge) (Challenge.difficulty challenge)
         (Challenge.estimatedTime challenge) (Challenge.effortLevel challenge)
         (Challenge.complexity challenge) (Challenge.createdAt challenge)
         true (Some now)
         (Challenge.userNotes challenge) (Challenge.aiGenerated challenge)
         (Challenge.personalizationFactors challenge)
  else challenge.

Definition markChallengeCompleted (date : DateAPI) (challengeId : string)
    (now : Z) : M bool :=
  try_catch
    (history <- loadChallengeHistory ;;
     h <- spread history ;;
     let updatedHistory := map (mark_one challengeId now) h in
     AsyncStorage.setItem "challengeHistory"
       (JSON.stringify (VChallenges updatedHistory)) ;;
     updateUserProgress date challengeId true now ;;
     ret true)
    (fun _ => console_error "Error marking challenge completed:" ;;
              ret false).

Definition saveUserPreferences (preferences : value) : M bool :=
  try_catch
    (AsyncStorage.setItem "userPreferences" (JSON.stringify preferences) ;;
     ret true)
    (fun _ => console_error "Error saving preferences:" ;; ret false).

Definition default_preferences : Preferences.t :=
  Preferences.mk "medium" ["personal"; "health"; "learning"]
                 (Some true) (Some "09:00").

Definition loadUserPreferences : M value :=
  try_catch
    (preferences <- AsyncStorage.getItem "userPreferences" ;;
     parse_or (VPrefs default_preferences) preferences)
    (fun _ => console_error "Error loading preferences:" ;; ret VNull).

Definition clear_keys : list string :=
  ["userData"; "challengeHistory"; "userPreferences"; "dailyChallenges"].

Definition clearAllData : M bool :=
  try_catch
    (AsyncStorage.multiRemove clear_keys ;; ret true)
    (fun _ => console_error "Error clearing data:" ;; ret false).

Module Snapshot.
Record t := mk {
  userData : value;
  challengeHistory : value;
  preferences : value;
  exportDate : Z;
  version : string
}.
End Snapshot.

(** [None] is the [null] of the catch block. *)
Definition exportUserData (now : Z) : M (option Snapshot.t) :=
  try_catch
    (userData <- loadUserData ;;
     challengeHistory <- loadChallengeHistory ;;
     preferences <- loadUserPreferences ;;
     ret (Some (Snapshot.mk userData challengeHistory preferences now
                            "1.0.0")))
    (fun _ => console_error "Error exporting data:" ;; ret None).

(** ** The challenge generator *)

(** *** JavaScript helpers *)

(** [obj[key]] on an object literal: an own property, a property found on
    [Object.prototype], or [undefined]. *)
Inductive property (A : Type) :=
  | Own (a : A)
  | Inherited
  | Absent.
Arguments Own {A} a.
Arguments Inherited {A}.
Arguments Absent {A}.

Definition object_prototype_keys : list string :=
  ["constructor"; "hasOwnProperty"; "isPrototypeOf"; "propertyIsEnumerable";
   "toLocaleString"; "toString"; "valueOf"; "__proto__";
   "__defineGetter__"; "__defineSetter__"; "__lookupGetter__";
   "__lookupSetter__"].

Fixpoint assoc {A} (own : list (string * A)) (key : string) : option A :=
  match own with
  | [] => None
  | (k, a) :: rest => if String.eqb k key then Some a else assoc rest key
  end.

Definition get_property {A} (own : list (string * A)) (key : string)
    : property A :=
  match assoc own key with
  | Some a => Own a
  | None =>
      if existsb (String.eqb key) object_prototype_keys
      then Inherited else Absent
  end.

(** [obj[key] = a] for a key other than ['__proto__']: the own property
    is replaced, or added after the others.  The properties of
    [Object.prototype] are writable, so an inherited name is shadowed by
    a new own property. *)
Fixpoint set_property {A} (own : list (string * A)) (key : string) (a : A)
    : list (string * A) :=
  match own with
  | [] => [(key, a)]
  | (k, b) :: rest =>
      if String.eqb k key then (k, a) :: rest
      else (k, b) :: set_property rest key a
  end.

(** The property key a possibly [undefined] value converts to. *)
Definition property_key (k : option string) : string :=
  match k with Some s => s | None => "undefined" end.

(** [s.replace(pat, rep)] with a string pattern: the first occurrence. *)
Fixpoint replace (pat rep s : string) : string :=
  if String.prefix pat s
  then rep +:+ substring (String.length pat)
                         (String.length s - String.length pat) s
  else match s with
       | EmptyString => EmptyString
       | String a s' => String a (replace pat rep s')
       end.

(** [s.split(' ')]. *)
Fixpoint split_space (s : string) : list string :=
  match s with
  | EmptyString => [EmptyString]
  | String a s' =>
      if Ascii.eqb a " "%char then EmptyString :: split_space s'
      else match split_space s' with
           | w :: ws => String a w :: ws
           | [] => [String a EmptyString]
           end
  end.

(** [Math.floor(Math.random() * n)]: one draw, a position below [n]
    (position 0 when [n] is 0). *)
Definition draw (n : nat) (rs : list nat) : nat :=
  match n with
  | O => O
  | S _ => hd O rs mod n
  end.

Definition random_index (n : nat) : M nat :=
  fun w => (Ret (draw n (entropy w)), set_entropy (tl (entropy w)) w).

(** *** Static tables *)

Module TemplateGroup.
Record t := mk { type : string; templates : list string }.
End TemplateGroup.

Definition CHALLENGE_TEMPLATES : list (string * list TemplateGroup.t) :=
  [ ("personal",
     [ TemplateGroup.mk "reflection"
         [ "Take 10 minutes to write about something you're grateful for today";
           "Reflect on a recent challenge and what you learned from it";
           "Write down three things you want to improve about yourself" ];
       TemplateGroup.mk "connection"
         [ "Reach out to someone you haven't talked to in a while";
           "Give a genuine compliment to three different people today";
           "Listen actively to someone without interrupting for 5 minutes" ] ]);
    ("health",
     [ TemplateGroup.mk "physical"
         [ "Do 20 push-ups or 10 minutes of stretching";
           "Take a 15-minute walk outside";
           "Drink 8 glasses of water today";
           "Try a new healthy recipe for dinner" ];
       TemplateGroup.mk "mental"
         [ "Practice deep breathing for 5 minutes";
           "Take a 10-minute break from all screens";
           "Do something that makes you laugh today";
           "Practice mindfulness while eating one meal" ] ]);
    ("learning",
     [ TemplateGroup.mk "skill"
         [ "Learn one new word in a language you're studying";
           "Watch a 10-minute educational video on a new topic";
           "Read 20 pages of a book you've been meaning to finish";
           "Practice a musical instrument for 15 minutes" ];
       TemplateGroup.mk "knowledge"
         [ "Research a topic you're curious about for 15 minutes";
           "Ask someone about their expertise or passion";
           "Try to solve a puzzle or brain teaser";
           "Learn about a historical event that happened on this date" ] ]) ].

Module Modifiers.
Record t := mk { time : Z; effort : Z; complexity : Z }.
End Modifiers.

Definition DIFFICULTY_MODIFIERS : list (string * Modifiers.t) :=
  [ ("easy", Modifiers.mk 5 1 1);
    ("medium", Modifiers.mk 15 2 2);
    ("hard", Modifiers.mk 30 3 3) ].

(** [DIFFICULTY_MODIFIERS[difficulty]]. *)
Definition lookup_modifiers (difficulty : string) : property Modifiers.t :=
  get_property DIFFICULTY_MODIFIERS difficulty.

(** [categoryEmojis[category] || '✨'].  The title is only ever built for a
    category that has templates, which are the three own keys. *)
Definition categoryEmojis : list (string * string) :=
  [ ("personal", "💭"); ("health", "💪"); ("learning", "🧠") ].

(** *** Methods of [AIChallengeGenerator] *)

Definition get_generator : M Generator := fun w => (Ret (generator w), w).

Definition put_generator (g : Generator) : M unit :=
  fun w => (Ret tt, set_generator g w).

(** [this.userPreferences.<field>]: anything but a preferences object
    ends in a TypeError (at once for [null], at the first use of the
    [undefined] field otherwise). *)
Definition this_preferences : M Preferences.t :=
  g <- get_generator ;;
  match userPreferences g with
  | VPrefs p => ret p
  | _ => throw TypeError
  end.

(** [this.challengeHistory] used as an array. *)
Definition this_history : M (list Challenge.t) :=
  g <- get_generator ;;
  spread (challengeHistory g).

Module AIChallengeGenerator.

Definition default_preferences : Preferences.t :=
  Preferences.mk "medium" ["personal"; "health"; "learning"] None None.

Definition loadUserPreferences : M unit :=
  try_catch
    (prefs <- AsyncStorage.getItem "userPreferences" ;;
     v <- parse_or (VPrefs default_preferences) prefs ;;
     g <- get_generator ;;
     put_generator (mkGenerator v (challengeHistory g)))
    (fun _ => console_error "Error loading preferences:").

Definition loadChallengeHistory : M unit :=
  try_catch
    (history <- AsyncStorage.getItem "challengeHistory" ;;
     v <- parse_or (VChallenges []) history ;;
     g <- get_generator ;;
     put_generator (mkGenerator (userPreferences g) v))
    (fun _ => console_error "Error loading history:").

Definition initialize : M unit :=
  loadUserPreferences ;; loadChallengeHistory.

(** First loop of [selectCategories]: at most three rounds, since
    [selected] starts empty and grows by one each round. *)
Fixpoint select_distinct (fuel : nat) (selected : list (option string))
    (categories : list string) : M (list (option string)) :=
  match fuel with
  | O => ret selected
  | S fuel' =>
      if (length selected <? 3)%nat && (0 <? length categories)%nat
      then
        randomIndex <- random_index (length categories) ;;
        select_distinct fuel' (selected ++ [categories !! randomIndex])
                        (delete randomIndex categories)
      else ret selected
  end.

(** Second loop: [availableCategories[i]] is [undefined] when the array is
    empty. *)
Fixpoint select_repeat (fuel : nat) (selected : list (option string))
    (availableCategories : list string) : M (list (option string)) :=
  match fuel with
  | O => ret selected
  | S fuel' =>
      if (length selected <? 3)%nat
      then
        i <- random_index (length availableCategories) ;;
        select_repeat fuel' (selected ++ [availableCategories !! i])
                      availableCategories
      else ret selected
  end.

Definition selectCategories (availableCategories : list string)
    : M (list (option string)) :=
  selected <- select_distinct 3 [] availableCategories ;;
  selected <- select_repeat 3 selected availableCategories ;;
  ret (take 3 selected).

Section Generation.

Context (date : DateAPI).

Definition personalizeChallenge (template category difficulty : string)
    (now : Z) : string :=
  let hour := getHours date now in
  let personalized :=
    if (hour <? 12)%Z then replace "today" "this morning" template
    else if (hour <? 17)%Z then replace "today" "this afternoon" template
    else replace "today" "this evening" template in
  if String.eqb difficulty "easy"
  then replace "20 push-ups" "10 push-ups"
         (replace "15 minutes" "5 minutes" personalized)
  else if String.eqb difficulty "hard"
  then replace "10 push-ups" "30 push-ups"
         (replace "5 minutes" "15 minutes" personalized)
  else personalized.

Definition generateTitle (challenge category : string) : string :=
  let emoji :=
    match assoc categoryEmojis category with
    | Some e => e
    | None => "✨"
    end in
  let words := String.concat " " (take 4 (split_space challenge)) in
  emoji +:+ " " +:+ words +:+ "...".

(** [(acc[k] || 0) + 1]: one more than a count, [1] when there is no
    such property, and a string when [acc[k]] is a function inherited from
    [Object.prototype] or the string an earlier round left. *)
Definition plus_one (p : property tally) : tally :=
  match p with
  | Own (Count n) => Count (S n)
  | Own Concat | Inherited => Concat
  | Absent => Count 1
  end.

(** [acc[k] = (acc[k] || 0) + 1] on the object that starts as [{}].  For
    ['__proto__'] the assignment goes to the setter of [Object.prototype],
    which ignores a string.  The entries are read by key only; their
    order carries no meaning. *)
Definition bump (k : string) (acc : list (string * tally))
    : list (string * tally) :=
  let v := plus_one (get_property acc k) in
  if String.eqb k "__proto__" then acc else set_property acc k v.

(** [a.slice(-10)]. *)
Definition last_10 {A} (a : list A) : list A := drop (length a - 10)%nat a.

Definition getRecentCategories (history : list Challenge.t)
    : list (string * tally) :=
  fold_left (fun acc challenge => bump (Challenge.category challenge) acc)
            (last_10 history) [].

(** The quotient of the two counts, as the rational it rounds; 0.8 for an
    empty history. *)
Definition calculateSuccessRate (history : list Challenge.t) : Q :=
  match length history with
  | O => (4 # 5)%Q
  | S _ =>
      let completed :=
        length (filter (fun c => Challenge.completed c = true) history) in
      (Z.of_nat completed # Pos.of_nat (length history))%Q
  end.

Definition getPersonalizationFactors (now : Z) : M Factors.t :=
  p <- this_preferences ;;
  history <- this_history ;;
  ret (Factors.mk (getHours date now) (getDay date now)
                  (Preferences.difficulty p)
                  (getRecentCategories history)
                  (calculateSuccessRate history)).

(** [templates[i]] for the value found at [CHALLENGE_TEMPLATES[category]].
    For an inherited property (a function, or [Object.prototype] itself)
    one random number is drawn and the element is [undefined], whose
    [.templates] is a TypeError; for [undefined] the TypeError comes
    first. *)
Definition pick_group (category : option string) : M TemplateGroup.t :=
  match get_property CHALLENGE_TEMPLATES (property_key category) with
  | Own templates =>
      i <- random_index (length templates) ;;
      match templates !! i with
      | Some templateGroup => ret templateGroup
      | None => throw TypeError
      end
  | Inherited => random_index 0 ;; throw TypeError
  | Absent => throw TypeError
  end.

Definition pick_template (templateGroup : TemplateGroup.t) : M string :=
  i <- random_index (length (TemplateGroup.templates templateGroup)) ;;
  match TemplateGroup.templates templateGroup !! i with
  | Some template => ret template
  | None => throw TypeError
  end.

Definition generateChallengeForCategory (category : option string)
    (index : nat) (now : Z) : M Challenge.t :=
  templateGroup <- pick_group category ;;
  template <- pick_template templateGroup ;;
  p <- this_preferences ;;
  let difficulty := Preferences.difficulty p in
  let category := property_key category in
  let personalizedChallenge :=
    personalizeChallenge template category difficulty now in
  modifiers <- match lookup_modifiers difficulty with
               | Own m => ret (Some (Modifiers.time m),
                               Some (Modifiers.effort m),
                               Some (Modifiers.complexity m))
               | Inherited => ret (None, None, None)
               | Absent => throw TypeError
               end ;;
  factors <- getPersonalizationFactors now ;;
  ret (Challenge.mk
         ("challenge_" +:+ pretty now +:+ "_" +:+ pretty index)
         (generateTitle personalizedChallenge category)
         personalizedChallenge
         category
         (TemplateGroup.type templateGroup)
         difficulty
         (modifiers.1.1) (modifiers.1.2) (modifiers.2)
         now false None "" true factors).

(** [selectedCategories.forEach((category, index) => ...push...)]. *)
Fixpoint for_each (selectedCategories : list (option string)) (index : nat)
    (now : Z) : M (list Challenge.t) :=
  match selectedCategories with
  | [] => ret []
  | category :: rest =>
      challenge <- generateChallengeForCategory category index now ;;
      challenges <- for_each rest (S index) now ;;
      ret (challenge :: challenges)
  end.

Definition generateDailyChallenges (now : Z) : M (list Challenge.t) :=
  p <- this_preferences ;;
  selectedCategories <- selectCategories (Preferences.categories p) ;;
  for_each selectedCategories 0 now.

Definition day_key (now : Z) : string :=
  "dailyChallenges_" +:+ toDateString date now.

Definition saveChallenges (challenges : list Challenge.t) (now : Z)
    : M bool :=
  try_catch
    (AsyncStorage.setItem (day_key now)
       (JSON.stringify (VChallenges challenges)) ;;
     history <- this_history ;;
     g <- get_generator ;;
     put_generator
       (mkGenerator (userPreferences g)
                    (VChallenges (history ++ challenges))) ;;
     AsyncStorage.setItem "challengeHistory"
       (JSON.stringify (VChallenges (history ++ challenges))) ;;
     ret true)
    (fun _ => console_error "Error saving challenges:" ;; ret false).

Definition getTodaysChallenges (now : Z) : M value :=
  try_catch
    (challenges <- AsyncStorage.getItem (day_key now) ;;
     match challenges with
     | Some t =>
         if text_truthy t then JSON.parse t
         else
           newChallenges <- generateDailyChallenges now ;;
           saveChallenges newChallenges now ;;
           ret (VChallenges newChallenges)
     | None =>
         newChallenges <- generateDailyChallenges now ;;
         saveChallenges newChallenges now ;;
         ret (VChallenges newChallenges)
     end)
    (fun _ => console_error "Error getting today's challenges:" ;;
              ret (VChallenges [])).

End Generation.

End AIChallengeGenerator.

(** The module's exports go through the singleton. *)
Definition initializeAIChallenges : M unit := AIChallengeGenerator.initialize.
Definition generateDailyChallenges :=
  AIChallengeGenerator.generateDailyChallenges.
Definition getTodaysChallenges := AIChallengeGenerator.getTodaysChallenges.
Definition saveChallenges := AIChallengeGenerator.saveChallenges.

(** ** Vocabulary of the properties *)

(** No failure is scheduled for the next [n] AsyncStorage calls. *)
Definition calm (n : nat) (w : World) : bool :=
  forallb negb (take n (faults w)).

(** The profile kept under ['userData'], when there is one. *)
Definition stored_profile (w : World) (u : UserData.t) : Prop :=
  storage w !! "userData" = Some (Json (VProfile u)).

Definition with_profile (u : UserData.t) (w : World) : World :=
  set_storage (<["userData" := Json (VProfile u)]> (storage w)) w.

Section Days.

Context (date : DateAPI).

Definition today (now : Z) : string := toDateString date now.

Definition yesterday (now : Z) : string := toDateString date (now - day_ms).

Definition day_of (r : Completion.t) : string :=
  toDateString date (Completion.completedAt r).

End Days.

(** [completedChallenges[completedChallenges.length - 2]]. *)
Definition second_to_last (u : UserData.t) : option Completion.t :=
  js_index (UserData.completedChallenges u)
           (Z.of_nat (length (UserData.completedChallenges u)) - 2).

(** What a completion does to the profile apart from the streak. *)
Definition completion_recorded (challengeId : string) (now : Z)
    (u u' : UserData.t) : Prop :=
  UserData.completedChallenges u'
  = UserData.completedChallenges u ++ [Completion.mk challengeId now]
  /\ UserData.totalChallenges u' = (UserData.totalChallenges u + 1)%Z.

(** [Number.isSafeInteger]: the integers on which the doubles of
    JavaScript add 1 exactly. *)
Definition safe_integer (z : Z) : Prop := (- 2 ^ 53 < z < 2 ^ 53)%Z.

(** The three streak cases, read on the records of the profile after the
    append: [r] is the record before the latest one, whatever precedes
    it; a profile whose only record is the latest one has no such
    record. *)
Definition streak_rule (date : DateAPI) (now : Z) (u u' : UserData.t)
    : Prop :=
  (forall older r latest,
     UserData.completedChallenges u' = older ++ [r; latest] ->
     (day_of date r = yesterday date now ->
      UserData.currentStreak u' = (UserData.currentStreak u + 1)%Z)
     /\ (day_of date r <> today date now ->
         day_of date r <> yesterday date now ->
         UserData.currentStreak u' = 1%Z))
  /\ (forall latest,
        UserData.completedChallenges u' = [latest] ->
        UserData.currentStreak u' = 1%Z).

(** *** A device set to UTC, for the examples *)

Definition weekday_names : list string :=
  ["Sun"; "Mon"; "Tue"; "Wed"; "Thu"; "Fri"; "Sat"].

Definition month_names : list string :=
  ["Jan"; "Feb"; "Mar"; "Apr"; "May"; "Jun";
   "Jul"; "Aug"; "Sep"; "Oct"; "Nov"; "Dec"].

(** Year, month (1..12) and day of the month of a day number counted from
    1970-01-01, in the proleptic Gregorian calendar. *)
Definition civil_from_days (days : Z) : Z * Z * Z :=
  let z := (days + 719468)%Z in
  let era := (z / 146097)%Z in
  let doe := (z - era * 146097)%Z in
  let yoe := ((doe - doe / 1460 + doe / 36524 - doe / 146096) / 365)%Z in
  let doy := (doe - (365 * yoe + yoe / 4 - yoe / 100))%Z in
  let mp := ((5 * doy + 2) / 153)%Z in
  let d := (doy - (153 * mp + 2) / 5 + 1)%Z in
  let m := if (mp <? 10)%Z then (mp + 3)%Z else (mp - 9)%Z in
  let y := (yoe + era * 400 + (if (m <=? 2)%Z then 1 else 0))%Z in
  (y, m, d).

Definition two_digits (n : Z) : string :=
  if (n <? 10)%Z then "0" +:+ pretty n else pretty n.

Definition utc_toDateString (t : Z) : string :=
  let days := (t / day_ms)%Z in
  let '(y, m, d) := civil_from_days days in
  default "" (weekday_names !! Z.to_nat ((days + 4) mod 7))
  +:+ " " +:+ default "" (month_names !! Z.to_nat (m - 1))
  +:+ " " +:+ two_digits d +:+ " " +:+ pretty y.

Definition utc : DateAPI :=
  mkDateAPI utc_toDateString
            (fun t => ((t mod day_ms) / 3600000)%Z)
            (fun t => ((t / day_ms + 4) mod 7)%Z).

(** 2024-01-01T00:00:00Z. *)
Definition jan_1_2024 : Z := 1704067200000.

Definition sample_preferences : Preferences.t :=
  AIChallengeGenerator.default_preferences.

(** A profile with one completion on the morning of 1 January 2024. *)
Definition sample_profile : UserData.t :=
  UserData.mk "1704067200000" "User" jan_1_2024
    [Completion.mk "challenge_1704067200000_0" (jan_1_2024 + 9 * 3600000)]
    1 1 sample_preferences.

Definition world_of (s : gmap string text) (fs : list bool) : World :=
  mkWorld s fs [] new_generator [].

Definition sample_world : World :=
  world_of {["userData" := Json (VProfile sample_profile)]} [].

Definition empty_world : World := world_of ∅ [].

(** 10:00 on 2 January 2024 and noon on 1 January 2024. *)
Definition jan_2_morning : Z := jan_1_2024 + day_ms + 10 * 3600000.
Definition jan_1_noon : Z := jan_1_2024 + 12 * 3600000.

(** The Challenge History Log as persisted under ['challengeHistory']. *)
Definition history_log (w : World) : list Challenge.t :=
  match storage w !! "challengeHistory" with
  | Some (Json (VChallenges h)) => h
  | _ => []
  end.

(** The state of the world after an operation, whatever it returned. *)
Definition exec {A} (m : M A) (w : World) : World := (m w).2.

(** The application opened once a day for [n] consecutive days, from the
    instant [start]: each day the home screen asks for today's
    challenges. *)
Fixpoint daily_use (date : DateAPI) (n : nat) (start : Z) : M unit :=
  match n with
  | O => ret tt
  | S n' =>
      getTodaysChallenges date start ;;
      daily_use date n' (start + day_ms)%Z
  end.

(** A fresh install: empty storage, the generator just initialised. *)
Definition fresh_install : World := exec initializeAIChallenges empty_world.

(** The world at noon of 1 January 2024, once the home screen has shown
    the day's challenges. *)
Definition first_day : World :=
  exec (getTodaysChallenges utc jan_1_noon) fresh_install.

(** The batch cached on the first day. *)
Definition first_batch : list Challenge.t :=
  match getTodaysChallenges utc jan_1_noon fresh_install with
  | (Ret (VChallenges cs), _) => cs
  | _ => []
  end.

(** The first day's world with a profile and preferences saved as well:
    every kind of key of the persisted layout is populated. *)
Definition populated_world : World :=
  exec (saveUserPreferences (VPrefs default_preferences))
       (exec (saveUserData (VProfile sample_profile)) first_day).

(** An operation that returns normally from every world. *)
Definition never_throws {A} (m : M A) : Prop :=
  forall w, exists a w', m w = (Ret a, w').

(** Between [w] and [w'] at least one AsyncStorage call was answered and
    one of the calls answered was rejected. *)
Definition storage_failed (w w' : World) : Prop :=
  exists n, In true (take n (faults w)) /\ faults w' = drop n (faults w).

(** An operation that answers every run in which storage failed with a
    value of the given fallback kind. *)
Definition absorbs_failures {A} (fallback : A -> Prop) (m : M A) : Prop :=
  forall w r w', m w = (r, w') -> storage_failed w w' ->
                 exists a, r = Ret a /\ fallback a.

(** An operation that makes exactly one AsyncStorage call, returns
    normally, and answers [fallback] when the call is rejected. *)
Definition one_call {A} (fallback : A) (m : M A) : Prop :=
  forall w, exists a w',
    m w = (Ret a, w') /\ faults w' = tl (faults w)
    /\ (next_fault w = true -> a = fallback).

(** A world whose only scheduled failure is the second storage call. *)
Definition write_fails_world : World :=
  world_of {["userData" := Json (VProfile sample_profile)]} [false; true].

(** A generator initialised while storage was failing. *)
Definition failed_init : World :=
  exec initializeAIChallenges (world_of ∅ [true]).

(** [w'] is [w] but for the random numbers consumed. *)
Definition only_entropy (w w' : World) : Prop :=
  w' = set_entropy (entropy w') w.

(** The category has an own entry in the template corpus. *)
Definition has_templates (category : string) : Prop :=
  is_Some (assoc CHALLENGE_TEMPLATES category).

(** [DIFFICULTY_MODIFIERS[difficulty]] is not [undefined]. *)
Definition has_modifiers (difficulty : string) : Prop :=
  lookup_modifiers difficulty <> Absent.

(** The generator holds preferences [p] and an array [h] as history. *)
Definition ready (w : World) (p : Preferences.t) (h : list Challenge.t)
    : Prop :=
  userPreferences (generator w) = VPrefs p
  /\ challengeHistory (generator w) = VChallenges h.

(** The preferences name only categories of the corpus and a difficulty
    the modifier table answers for. *)
Definition supported (p : Preferences.t) : Prop :=
  Forall has_templates (Preferences.categories p)
  /\ has_modifiers (Preferences.difficulty p).

(** What [selectCategories] may return for a non-empty array: entries
    drawn from distinct positions of the array ([picked], which together
    with the undrawn [rest] is the array up to order), as many as there
    are up to three, then entries drawn freely from the whole array
    ([padding]) up to a length of three. *)
Definition selection (availableCategories selected : list string) : Prop :=
  exists picked padding rest,
    selected = picked ++ padding
    /\ picked ++ rest ≡ₚ availableCategories
    /\ length picked = Nat.min 3 (length availableCategories)
    /\ Forall (fun c => In c availableCategories) padding
    /\ length selected = 3%nat.

(** The modifier fields of a challenge are those the table gives for its
    difficulty. *)
Definition modifiers_applied (difficulty : string) (c : Challenge.t) : Prop :=
  Challenge.difficulty c = difficulty
  /\ forall m, assoc DIFFICULTY_MODIFIERS difficulty = Some m ->
       Challenge.estimatedTime c = Some (Modifiers.time m)
       /\ Challenge.effortLevel c = Some (Modifiers.effort m)
       /\ Challenge.complexity c = Some (Modifiers.complexity m).

(** A world whose generator holds the given preferences and an empty
    history, with the given random numbers to come. *)
Definition prefs_world (p : Preferences.t) (rs : list nat) : World :=
  mkWorld ∅ [] rs (mkGenerator (VPrefs p) (VChallenges [])) [].

Definition health_only (difficulty : string) : Preferences.t :=
  Preferences.mk difficulty ["health"] None None.

(** Preferences naming a category the corpus has no templates for, a
    difficulty the modifier table has no entry for, and an array that
    repeats an entry. *)
Definition career_prefs : Preferences.t :=
  Preferences.mk "medium" ["career"] None None.

Definition extreme_prefs : Preferences.t :=
  Preferences.mk "extreme" ["health"] None None.

Definition repeated_prefs : Preferences.t :=
  Preferences.mk "medium" ["health"; "health"; "personal"; "learning"]
                 None None.

(** ** The screens *)

(** A component's handlers run over the component state [S] (the values
    of its [useState] hooks) and the world; a state update made before a
    throw stays. *)
Definition UI (S A : Type) : Type := S -> World -> outcome A * S * World.

Module React.

Section Hooks.

Context {S : Type}.

Definition ret {A} (a : A) : UI S A := fun s w => (Ret a, s, w).

Definition throw {A} (e : error) : UI S A := fun s w => (Throw e, s, w).

Definition bind {A B} (m : UI S A) (k : A -> UI S B) : UI S B :=
  fun s w =>
    match m s w with
    | (Ret a, s', w') => k a s' w'
    | (Throw e, s', w') => (Throw e, s', w')
    end.

(** [await m] for an operation of the services. *)
Definition await {A} (m : M A) : UI S A :=
  fun s w => let '(r, w') := m w in (r, s, w').

(** A state setter of [useState]. *)
Definition set (f : S -> S) : UI S unit := fun s w => (Ret tt, f s, w).

(** The state as the handler sees it. *)
Definition get : UI S S := fun s w => (Ret s, s, w).

(** [try { body } catch (error) { handler } finally { final }]. *)
Definition try_catch_finally {A} (body : UI S A) (handler : error -> UI S A)
    (final : UI S unit) : UI S A :=
  fun s w =>
    let '(r, s1, w1) :=
      match body s w with
      | (Ret a, s', w') => (Ret a, s', w')
      | (Throw e, s', w') => handler e s' w'
      end in
    match final s1 w1 with
    | (Ret _, s2, w2) => (r, s2, w2)
    | (Throw e, s2, w2) => (Throw e, s2, w2)
    end.

End Hooks.

End React.

Declare Scope ui_scope.
Delimit Scope ui_scope with ui.
Notation "x <- c1 ;; c2" := (React.bind c1 (fun x => c2))
  (at level 100, c1 at next level, right associativity) : ui_scope.
Notation "c1 ;; c2" := (React.bind c1 (fun _ => c2))
  (at level 100, right associativity) : ui_scope.

(** *** App.js *)

Module App.

(** [useState(true)] and [useState(null)]. *)
Record state := mkState { isLoading : bool; userData : value }.

Definition initial : state := mkState true VNull.

Definition setIsLoading (b : bool) : UI state unit :=
  React.set (fun s => mkState b (userData s)).

Definition setUserData (v : value) : UI state unit :=
  React.set (fun s => mkState (isLoading s) v).

(** The profile of a new user. *)
Definition newUserData (now : Z) : UserData.t :=
  UserData.mk (pretty now) "User" now [] 0 0
    (Preferences.mk "medium" ["personal"; "health"; "learning"] None None).

Definition initializeApp (now : Z) : UI state unit :=
  React.try_catch_finally
    (savedData <- React.await loadUserData ;;
     (if truthy savedData
      then setUserData savedData
      else
        setUserData (VProfile (newUserData now)) ;;
        React.await (saveUserData (VProfile (newUserData now))) ;;
        React.ret tt) ;;
     React.await initializeAIChallenges)%ui
    (fun _ => React.await (console_error "Error initializing app:"))
    (setIsLoading false).

End App.

(** *** HomeScreen.js *)

Module HomeScreen.

(** The four [useState] hooks, and the alerts shown so far. *)
Record state := mkState {
  challenges : value;
  loading : bool;
  refreshing : bool;
  completedCount : nat;
  alerts : list (string * string)
}.

Definition initial : state := mkState (VChallenges []) true false 0 [].

Definition setChallenges (v : value) : UI state unit :=
  React.set (fun s => mkState v (loading s) (refreshing s)
                              (completedCount s) (alerts s)).

Definition setLoading (b : bool) : UI state unit :=
  React.set (fun s => mkState (challenges s) b (refreshing s)
                              (completedCount s) (alerts s)).

Definition setRefreshing (b : bool) : UI state unit :=
  React.set (fun s => mkState (challenges s) (loading s) b
                              (completedCount s) (alerts s)).

Definition setCompletedCount (n : nat) : UI state unit :=
  React.set (fun s => mkState (challenges s) (loading s) (refreshing s)
                              n (alerts s)).

(** [Alert.alert(title, message)]. *)
Definition alert (title message : string) : UI state unit :=
  React.set (fun s => mkState (challenges s) (loading s) (refreshing s)
                              (completedCount s)
                              (alerts s ++ [(title, message)])).

(** [list.filter(challenge => challenge.completed).length]. *)
Definition count_completed (challengeList : list Challenge.t) : nat :=
  length (filter (fun c => Challenge.completed c = true) challengeList).

(** A value without [filter] (anything but an array) is a TypeError. *)
Definition updateCompletedCount (challengeList : value) : UI state unit :=
  match challengeList with
  | VChallenges cs => setCompletedCount (count_completed cs)
  | _ => React.throw TypeError
  end.

Definition loadTodaysChallenges (date : DateAPI) (now : Z)
    : UI state unit :=
  React.try_catch_finally
    (setLoading true ;;
     todaysChallenges <- React.await (getTodaysChallenges date now) ;;
     setChallenges todaysChallenges ;;
     updateCompletedCount todaysChallenges)%ui
    (fun _ =>
       (React.await (console_error "Error loading challenges:") ;;
        alert "Error" "Failed to load today's challenges")%ui)
    (setLoading false).

Definition onRefresh (date : DateAPI) (now : Z) : UI state unit :=
  (setRefreshing true ;;
   loadTodaysChallenges date now ;;
   setRefreshing false)%ui.

(** The object the [map] callback of [handleChallengeComplete] returns. *)
Definition toggle (challengeId : string) (now : Z) (challenge : Challenge.t)
    : Challenge.t :=
  if String.eqb (Challenge.id challenge) challengeId
  then Challenge.mk (Challenge.id challenge) (Challenge.title challenge)
         (Challenge.description challenge) (Challenge.category challenge)
         (Challenge.type challenge) (Challenge.difficulty challenge)
         (Challenge.estimatedTime challenge) (Challenge.effortLevel challenge)
         (Challenge.complexity challenge) (Challenge.createdAt challenge)
         (negb (Challenge.completed challenge))
         (if negb (Challenge.completed challenge) then Some now else None)
         (Challenge.userNotes challenge) (Challenge.aiGenerated challenge)
         (Challenge.personalizationFactors challenge)
  else challenge.

(** Nothing is saved: the handler only updates the component state. *)
Definition handleChallengeComplete (challengeId : string) (now : Z)
    : UI state unit :=
  (s <- React.get ;;
   match challenges s with
   | VChallenges cs =>
       let updatedChallenges := map (toggle challengeId now) cs in
       setChallenges (VChallenges updatedChallenges) ;;
       updateCompletedCount (VChallenges updatedChallenges)
   | _ => React.throw TypeError
   end)%ui.

Definition getGreeting (date : DateAPI) (now : Z) : string :=
  let hour := getHours date now in
  if (hour <? 12)%Z then "Good morning!"
  else if (hour <? 17)%Z then "Good afternoon!"
  else "Good evening!".

Definition messages : list string :=
  [ "Ready to conquer today's challenges?";
    "Every challenge is an opportunity to grow!";
    "You've got this! Let's make today amazing!";
    "Small steps lead to big changes!";
    "Today is your day to shine!" ].

(** [None] would be [undefined]. *)
Definition getMotivationalMessage : M (option string) :=
  i <- random_index (length messages) ;;
  ret (messages !! i).

End HomeScreen.

(** ** Vocabulary of the further properties *)

(** What the counters of a profile record: the total is the number of
    completion records, the streak lies between 0 and the total, and is
    at least 1 once there is a record. *)
Definition profile_ok (u : UserData.t) : Prop :=
  UserData.totalChallenges u
  = Z.of_nat (length (UserData.completedChallenges u))
  /\ (0 <= UserData.currentStreak u <= UserData.totalChallenges u)%Z
  /\ (UserData.completedChallenges u <> [] ->
      (1 <= UserData.currentStreak u)%Z).

(** One [updateUserProgress(id, true)] per entry, in order, each at its
    own instant. *)
Fixpoint complete_each (date : DateAPI) (events : list (string * Z))
    : M unit :=
  match events with
  | [] => ret tt
  | (challengeId, now) :: rest =>
      updateUserProgress date challengeId true now ;;
      complete_each date rest
  end.

(** Each instant falls on the day after the one before it: the day string
    of the instant less 24 hours is the day string of its predecessor. *)
Fixpoint day_after_day (date : DateAPI) (previous : Z)
    (events : list (string * Z)) : Prop :=
  match events with
  | [] => True
  | (_, now) :: rest =>
      yesterday date now = toDateString date previous
      /\ day_after_day date now rest
  end.

(** The fields a challenge leaves the generator with at instant [now] in
    slot [index]. *)
Definition just_generated (now : Z) (index : nat) (c : Challenge.t) : Prop :=
  Challenge.id c = "challenge_" +:+ pretty now +:+ "_" +:+ pretty index
  /\ Challenge.createdAt c = now
  /\ Challenge.completed c = false
  /\ Challenge.completedAt c = None
  /\ Challenge.userNotes c = ""
  /\ Challenge.aiGenerated c = true.

(** A challenge nobody has completed yet. *)
Definition uncompleted (c : Challenge.t) : Prop :=
  Challenge.completed c = false /\ Challenge.completedAt c = None.

(** A batch stored for day two of the examples, to be merged into the
    history by the storage service. *)
Definition second_batch : list Challenge.t :=
  match generateDailyChallenges utc (jan_1_noon + day_ms)%Z first_day with
  | (Ret cs, _) => cs
  | _ => []
  end.

(** A history entry [c] as [markChallengeCompleted] leaves it: untouched
    unless its id is the one asked for, else completed at [now]. *)
Definition marked (challengeId : string) (now : Z) (c c' : Challenge.t)
    : Prop :=
  Challenge.id c' = Challenge.id c
  /\ Challenge.title c' = Challenge.title c
  /\ Challenge.description c' = Challenge.description c
  /\ Challenge.category c' = Challenge.category c
  /\ (Challenge.id c <> challengeId -> c' = c)
  /\ (Challenge.id c = challengeId ->
      Challenge.completed c' = true /\ Challenge.completedAt c' = Some now).

(** A new user's profile stored, nothing else, storage never failing. *)
Definition new_user_world : World :=
  world_of {["userData" := Json (VProfile (App.newUserData jan_1_2024))]} [].

(** One completion at noon on each of the first three days of 2024. *)
Definition three_days : list (string * Z) :=
  [ ("challenge_1704067200000_0", jan_1_noon);
    ("challenge_1704153600000_0", (jan_1_noon + day_ms)%Z);
    ("challenge_1704240000000_0", (jan_1_noon + 2 * day_ms)%Z) ].

(** The progress shown on the home screen agrees with the challenges
    shown: the count is the number of completed ones, at most their
    number. *)
Definition count_shown (s : HomeScreen.state) : Prop :=
  forall cs, HomeScreen.challenges s = VChallenges cs ->
    HomeScreen.completedCount s = HomeScreen.count_completed cs
    /\ (HomeScreen.completedCount s <= length cs)%nat.

(** The component state a handler leaves. *)
Definition state_after {S A} (r : outcome A * S * World) : S := r.1.2.

(** The home screen once it has loaded the first day's batch. *)
Definition home_first_day : HomeScreen.state :=
  state_after (HomeScreen.loadTodaysChallenges utc jan_1_noon
                 HomeScreen.initial first_day).

(** What a load of the generator leaves in a field: the parsed text, the
    default when the key is missing or empty, and the old value when the
    text is not JSON. *)
Definition loaded_or (w : World) (key : string) (dflt old : value) : value :=
  match storage w !! key with
  | Some (Json v) => v
  | Some Garbled => old
  | Some Blank | None => dflt
  end.

(** What [getRecentCategories] holds under the key [k] when [n] of the
    entries it looked at have that category. *)
Definition recorded (k : string) (n : nat) : option tally :=
  if (n =? 0)%nat || String.eqb k "__proto__" then None
  else if existsb (String.eqb k) object_prototype_keys then Some Concat
  else Some (Count n).

(** * Properties *)

(** ** Running AsyncStorage calls *)

Lemma calm_S n w :
  calm (S n) w = true <-> next_fault w = false /\ calm n (after_call w) = true.
Proof.
  unfold calm, next_fault, after_call, set_faults; simpl.
  destruct (faults w) as [|b fs]; simpl.
  - rewrite take_nil. simpl. tauto.
  - rewrite andb_true_iff, negb_true_iff. tauto.
Qed.

Lemma calm_next n w : calm (S n) w = true -> next_fault w = false.
Proof. intros H. apply calm_S in H. tauto. Qed.

Lemma calm_after n w : calm (S n) w = true -> calm n (after_call w) = true.
Proof. intros H. apply calm_S in H. tauto. Qed.

Lemma getItem_ok key w :
  next_fault w = false ->
  AsyncStorage.getItem key w = (Ret (storage w !! key), after_call w).
Proof. unfold AsyncStorage.getItem. intros ->. reflexivity. Qed.

Lemma getItem_fails key w :
  next_fault w = true ->
  AsyncStorage.getItem key w = (Throw StorageError, after_call w).
Proof. unfold AsyncStorage.getItem. intros ->. reflexivity. Qed.

Lemma setItem_ok key t w :
  next_fault w = false ->
  AsyncStorage.setItem key t w
  = (Ret tt, set_storage (<[key := t]> (storage w)) (after_call w)).
Proof. unfold AsyncStorage.setItem. intros ->. reflexivity. Qed.

Lemma setItem_fails key t w :
  next_fault w = true ->
  AsyncStorage.setItem key t w = (Throw StorageError, after_call w).
Proof. unfold AsyncStorage.setItem. intros ->. reflexivity. Qed.

(** ** The progress tracker *)

Lemma loadUserData_stored w v :
  storage w !! "userData" = Some (Json v) ->
  next_fault w = false ->
  loadUserData w = (Ret v, after_call w).
Proof.
  intros Hs Hf. unfold loadUserData, try_catch, bind.
  rewrite (getItem_ok _ _ Hf), Hs. reflexivity.
Qed.

Lemma loadUserData_missing w :
  storage w !! "userData" = None ->
  exists v w', loadUserData w = (Ret v, w') /\ truthy v = false
               /\ storage w' = storage w.
Proof.
  intros Hs. unfold loadUserData, try_catch, bind.
  destruct (next_fault w) eqn:Hf.
  - rewrite (getItem_fails _ _ Hf). simpl. eauto.
  - rewrite (getItem_ok _ _ Hf), Hs. simpl. eauto.
Qed.

Lemma saveUserData_ok v w :
  next_fault w = false ->
  saveUserData v w
  = (Ret true,
     set_storage (<["userData" := Json v]> (storage w)) (after_call w)).
Proof.
  intros Hf. unfold saveUserData, try_catch, bind.
  rewrite (setItem_ok _ _ _ Hf). reflexivity.
Qed.

(** [saveUserData] never throws; it writes the value or nothing. *)
Lemma saveUserData_total v w :
  exists b w', saveUserData v w = (Ret b, w')
    /\ (storage w' = storage w
        \/ storage w' = <["userData" := Json v]> (storage w)).
Proof.
  unfold saveUserData, try_catch, bind.
  destruct (next_fault w) eqn:Hf.
  - rewrite (setItem_fails _ _ _ Hf). simpl. eauto.
  - rewrite (setItem_ok _ _ _ Hf). simpl. eauto.
Qed.

Lemma js_index_before_last {A} (l : list A) (x : A) :
  js_index (l ++ [x]) (Z.of_nat (length (l ++ [x])) - 2) = last l.
Proof.
  unfold js_index. rewrite length_app, Nat2Z.inj_add. cbn [length].
  induction l as [|r l _] using rev_ind.
  - reflexivity.
  - rewrite length_app, Nat2Z.inj_add, last_snoc. cbn [length].
    destruct (_ <? 0)%Z eqn:E; [apply Z.ltb_lt in E; lia|].
    replace (Z.to_nat _) with (length l) by lia.
    rewrite <- app_assoc, lookup_app_r by lia.
    rewrite Nat.sub_diag. reflexivity.
Qed.

Section ProgressFacts.

Context (date : DateAPI).

(** The record the streak is computed from is the one that was last
    before the call. *)
Lemma second_to_last_completed challengeId now u :
  second_to_last (completed_branch date challengeId now u)
  = last (UserData.completedChallenges u).
Proof. apply js_index_before_last. Qed.

Lemma completed_branch_streak challengeId now u :
  UserData.currentStreak (completed_branch date challengeId now u)
  = match last (UserData.completedChallenges u) with
    | Some r =>
        if String.eqb (day_of date r) (yesterday date now)
        then (UserData.currentStreak u + 1)%Z
        else if String.eqb (day_of date r) (today date now)
             then UserData.currentStreak u
             else 1%Z
    | None => 1%Z
    end.
Proof.
  unfold completed_branch. cbn [UserData.currentStreak].
  rewrite js_index_before_last.
  destruct (last _) as [r|]; [|reflexivity].
  unfold day_of, yesterday, today.
  destruct (String.eqb _ (toDateString date (now - day_ms))); [reflexivity|].
  destruct (String.eqb _ (toDateString date now)); reflexivity.
Qed.

Lemma updateUserProgress_completed_run challengeId now w u :
  stored_profile w u ->
  calm 2 w = true ->
  updateUserProgress date challengeId true now w
  = (Ret true,
     with_profile (completed_branch date challengeId now u)
                  (after_call (after_call w))).
Proof.
  intros Hs Hc.
  pose proof (calm_next _ _ Hc) as Hf1.
  pose proof (calm_next _ _ (calm_after _ _ Hc)) as Hf2.
  unfold updateUserProgress, try_catch, bind.
  rewrite (loadUserData_stored _ _ Hs Hf1). simpl.
  rewrite (saveUserData_ok _ _ Hf2). reflexivity.
Qed.

(** C3. On a stored profile whose counters are safe integers,
    [updateUserProgress(challengeId, true)] succeeds when storage
    answers, stores the profile with one more completion record and
    [totalChallenges] one higher, and sets the streak by the day of the
    second-to-last record: equal to yesterday's day string, the streak
    grows by one; different from both today's and yesterday's, the streak
    becomes 1; no such record, the streak is 1. *)
Theorem updateUserProgress_completed challengeId now w u :
  stored_profile w u ->
  calm 2 w = true ->
  safe_integer (UserData.totalChallenges u) ->
  safe_integer (UserData.currentStreak u) ->
  exists u',
    updateUserProgress date challengeId true now w
    = (Ret true, with_profile u' (after_call (after_call w)))
    /\ completion_recorded challengeId now u u'
    /\ streak_rule date now u u'.
Proof.
  intros Hs Hc _ _.
  exists (completed_branch date challengeId now u).
  split; [now apply updateUserProgress_completed_run|].
  split; [split; reflexivity|].
  unfold streak_rule. rewrite completed_branch_streak.
  cbn [completed_branch UserData.completedChallenges].
  split.
  - intros older r latest E.
    change (older ++ [r; latest]) with (older ++ [r] ++ [latest]) in E.
    rewrite app_assoc in E. apply app_inj_tail in E as [-> _].
    rewrite last_snoc. split.
    + intros Hy. apply String.eqb_eq in Hy. now rewrite Hy.
    + intros Ht Hy. apply String.eqb_neq in Ht, Hy. now rewrite Hy, Ht.
  - intros latest E.
    change [latest] with ([] ++ [latest]) in E.
    apply app_inj_tail in E as [-> _]. reflexivity.
Qed.

(** C9. When the most recent record is of today (and today's day string
    is not yesterday's) and the total is a safe integer, one more
    completion leaves the streak as it was; the record is appended and
    the total grows by one all the same. *)
Theorem updateUserProgress_same_day challengeId now w u r :
  stored_profile w u ->
  calm 2 w = true ->
  safe_integer (UserData.totalChallenges u) ->
  last (UserData.completedChallenges u) = Some r ->
  day_of date r = today date now ->
  day_of date r <> yesterday date now ->
  exists u',
    updateUserProgress date challengeId true now w
    = (Ret true, with_profile u' (after_call (after_call w)))
    /\ UserData.currentStreak u' = UserData.currentStreak u
    /\ completion_recorded challengeId now u u'.
Proof.
  intros Hs Hc _ Hl Ht Hy.
  exists (completed_branch date challengeId now u).
  split; [now apply updateUserProgress_completed_run|].
  split; [|split; reflexivity].
  rewrite completed_branch_streak, Hl.
  apply String.eqb_eq in Ht. apply String.eqb_neq in Hy.
  now rewrite Hy, Ht.
Qed.

(** C10. With [completed = false] a stored profile is written back as it
    is and the call returns [true]; with nothing stored under
    ['userData'] the call returns [false], whatever its arguments, and
    the store is untouched. *)
Theorem updateUserProgress_not_completed challengeId now w :
  (forall u, stored_profile w u -> next_fault w = false ->
     exists w',
       updateUserProgress date challengeId false now w = (Ret true, w')
       /\ storage w' = storage w /\ stored_profile w' u)
  /\ (storage w !! "userData" = None ->
      forall completed, exists w',
        updateUserProgress date challengeId completed now w = (Ret false, w')
        /\ storage w' = storage w).
Proof.
  split.
  - intros u Hs Hf.
    unfold updateUserProgress, try_catch, bind.
    rewrite (loadUserData_stored _ _ Hs Hf). simpl.
    destruct (saveUserData_total (VProfile u) (after_call w))
      as (b & w' & -> & Hw).
    exists w'. split; [reflexivity|].
    assert (storage w' = storage w) as E.
    { destruct Hw as [-> | ->]; [reflexivity|].
      simpl. now apply insert_id. }
    split; [exact E|]. unfold stored_profile. now rewrite E.
  - intros Hs completed.
    unfold updateUserProgress, try_catch, bind.
    destruct (loadUserData_missing w Hs) as (v & w' & -> & Hv & Hw).
    rewrite Hv. simpl. eauto.
Qed.

End ProgressFacts.

Lemma updateUserProgress_completed_witness :
  stored_profile sample_world sample_profile
  /\ calm 2 sample_world = true
  /\ exists u',
       updateUserProgress utc "challenge_1704153600000_0" true jan_2_morning
                          sample_world
       = (Ret true, with_profile u' (after_call (after_call sample_world)))
       /\ completion_recorded "challenge_1704153600000_0" jan_2_morning
                              sample_profile u'
       /\ streak_rule utc jan_2_morning sample_profile u'.
Proof.
  split; [vm_compute; reflexivity|].
  split; [reflexivity|].
  apply updateUserProgress_completed;
    [vm_compute; reflexivity|reflexivity
    |unfold safe_integer; cbn; lia|unfold safe_integer; cbn; lia].
Defined.

Lemma updateUserProgress_same_day_witness :
  exists u',
    updateUserProgress utc "challenge_1704067200000_1" true jan_1_noon
                       sample_world
    = (Ret true, with_profile u' (after_call (after_call sample_world)))
    /\ UserData.currentStreak u' = 1%Z
    /\ completion_recorded "challenge_1704067200000_1" jan_1_noon
                           sample_profile u'.
Proof.
  apply (updateUserProgress_same_day utc "challenge_1704067200000_1"
           jan_1_noon sample_world sample_profile
           (Completion.mk "challenge_1704067200000_0"
                          (jan_1_2024 + 9 * 3600000))).
  - vm_compute; reflexivity.
  - reflexivity.
  - unfold safe_integer; cbn; lia.
  - reflexivity.
  - vm_compute; reflexivity.
  - vm_compute; discriminate.
Defined.

Lemma updateUserProgress_not_completed_witness :
  (exists w',
     updateUserProgress utc "challenge_1704067200000_0" false jan_1_noon
                        sample_world = (Ret true, w')
     /\ storage w' = storage sample_world
     /\ stored_profile w' sample_profile)
  /\ (exists w',
        updateUserProgress utc "challenge_1704067200000_0" true jan_1_noon
                           empty_world = (Ret false, w')
        /\ storage w' = storage empty_world).
Proof.
  split.
  - apply (proj1 (updateUserProgress_not_completed utc
                    "challenge_1704067200000_0" jan_1_noon sample_world)).
    + vm_compute; reflexivity.
    + reflexivity.
  - apply (proj2 (updateUserProgress_not_completed utc
                    "challenge_1704067200000_0" jan_1_noon empty_world)).
    vm_compute; reflexivity.
Defined.

(** ** The per-day cache *)

Section CacheFacts.

Context (date : DateAPI).

Lemma getTodaysChallenges_cached_run now w v :
  storage w !! AIChallengeGenerator.day_key date now = Some (Json v) ->
  next_fault w = false ->
  getTodaysChallenges date now w = (Ret v, after_call w).
Proof.
  intros Hs Hf.
  unfold getTodaysChallenges, AIChallengeGenerator.getTodaysChallenges,
    try_catch, bind.
  rewrite (getItem_ok _ _ Hf), Hs. reflexivity.
Qed.

(** C1. On any day [D], when a batch is stored under the key of [D] and
    storage answers the read, [getTodaysChallenges] returns that batch;
    nothing is generated (no random draw, the generator untouched) and
    the store, hence the length of the history log, is as before. *)
Theorem getTodaysChallenges_cached D now w batch :
  toDateString date now = D ->
  storage w !! ("dailyChallenges_" +:+ D) = Some (Json (VChallenges batch)) ->
  next_fault w = false ->
  exists w',
    getTodaysChallenges date now w = (Ret (VChallenges batch), w')
    /\ entropy w' = entropy w
    /\ generator w' = generator w
    /\ storage w' = storage w
    /\ length (history_log w') = length (history_log w).
Proof.
  intros <- Hs Hf. exists (after_call w).
  split; [now apply getTodaysChallenges_cached_run|].
  repeat split; reflexivity.
Qed.

End CacheFacts.

Lemma getTodaysChallenges_cached_witness :
  exists w',
    getTodaysChallenges utc jan_1_noon first_day
    = (Ret (VChallenges first_batch), w')
    /\ entropy w' = entropy first_day
    /\ generator w' = generator first_day
    /\ storage w' = storage first_day
    /\ length (history_log w') = length (history_log first_day).
Proof.
  apply (getTodaysChallenges_cached utc "Mon Jan 01 2024").
  - vm_compute; reflexivity.
  - vm_compute; reflexivity.
  - reflexivity.
Defined.

(** ** Clearing *)

Lemma day_key_not_cleared date now :
  ~ In (AIChallengeGenerator.day_key date now) clear_keys.
Proof.
  unfold AIChallengeGenerator.day_key, clear_keys. simpl.
  intros [H|[H|[H|[H|[]]]]]; discriminate H.
Qed.

Lemma lookup_delete_all (s : gmap string text) keys k :
  ~ In k keys ->
  foldr (fun k s => delete k s) s keys !! k = s !! k.
Proof.
  induction keys as [|k' keys IH]; simpl; [reflexivity|].
  intros H. rewrite lookup_delete_ne by tauto. apply IH. tauto.
Qed.

(** [clearAllData] removes four fixed keys; the key of any day is none of
    them, so every cached batch stays. *)
Lemma clearAllData_keeps_day date now w :
  next_fault w = false ->
  exists w',
    clearAllData w = (Ret true, w')
    /\ storage w' !! AIChallengeGenerator.day_key date now
       = storage w !! AIChallengeGenerator.day_key date now.
Proof.
  intros Hf. unfold clearAllData, try_catch, bind, AsyncStorage.multiRemove.
  rewrite Hf. eexists. split; [reflexivity|].
  exact (lookup_delete_all (storage w) clear_keys _
           (day_key_not_cleared date now)).
Qed.

(** C7 fails on the code: in a store where all four kinds of key are
    populated, [clearAllData] succeeds, empties ['userData'],
    ['userPreferences'] and ['challengeHistory'], and leaves the batch of
    1 January 2024 under its per-day key. *)
Theorem clearAllData_leaves_daily_batch :
  storage populated_world !! "userData" = Some (Json (VProfile sample_profile))
  /\ storage populated_world !! "dailyChallenges_Mon Jan 01 2024"
     = Some (Json (VChallenges first_batch))
  /\ clearAllData populated_world
     = (Ret true, exec clearAllData populated_world)
  /\ storage (exec clearAllData populated_world) !! "userData" = None
  /\ storage (exec clearAllData populated_world) !! "userPreferences" = None
  /\ storage (exec clearAllData populated_world) !! "challengeHistory" = None
  /\ storage (exec clearAllData populated_world)
       !! "dailyChallenges_Mon Jan 01 2024"
     = Some (Json (VChallenges first_batch))
  /\ length first_batch = 3%nat.
Proof. vm_compute. repeat split; reflexivity. Qed.

(** ** The history log *)

Lemma keep_last_100_length (l : list Challenge.t) :
  (length (keep_last_100 l) <= 100)%nat.
Proof.
  unfold keep_last_100.
  destruct (100 <? length l)%nat eqn:E.
  - apply Nat.ltb_lt in E. rewrite length_drop. lia.
  - apply Nat.ltb_ge in E. exact E.
Qed.

Lemma keep_last_100_suffix (l : list Challenge.t) :
  exists evicted,
    l = evicted ++ keep_last_100 l
    /\ length evicted = (length l - 100)%nat.
Proof.
  unfold keep_last_100.
  destruct (100 <? length l)%nat eqn:E.
  - apply Nat.ltb_lt in E.
    exists (take (length l - 100) l). split.
    + symmetry. apply take_drop.
    + rewrite length_take. lia.
  - apply Nat.ltb_ge in E. exists []. split; [reflexivity|]. simpl. lia.
Qed.

Lemma loadChallengeHistory_stored w h :
  storage w !! "challengeHistory" = Some (Json (VChallenges h)) ->
  next_fault w = false ->
  loadChallengeHistory w = (Ret (VChallenges h), after_call w).
Proof.
  intros Hs Hf. unfold loadChallengeHistory, try_catch, bind.
  rewrite (getItem_ok _ _ Hf), Hs. reflexivity.
Qed.

(** X4. [saveChallengeHistory] of the storage service does what the
    specification says of the log: the stored log is the old one followed
    by the new challenges, cut to its last 100 entries. *)
Lemma saveChallengeHistory_capped w h challenges :
  storage w !! "challengeHistory" = Some (Json (VChallenges h)) ->
  calm 2 w = true ->
  exists w' evicted,
    saveChallengeHistory challenges w = (Ret true, w')
    /\ h ++ challenges = evicted ++ history_log w'
    /\ length evicted = (length (h ++ challenges) - 100)%nat
    /\ (length (history_log w') <= 100)%nat.
Proof.
  intros Hs Hc.
  pose proof (calm_next _ _ Hc) as Hf1.
  pose proof (calm_next _ _ (calm_after _ _ Hc)) as Hf2.
  destruct (keep_last_100_suffix (h ++ challenges)) as (evicted & E1 & E2).
  eexists; exists evicted. split.
  - unfold saveChallengeHistory, try_catch, bind.
    rewrite (loadChallengeHistory_stored _ _ Hs Hf1). simpl.
    rewrite (setItem_ok _ _ _ Hf2). reflexivity.
  - unfold history_log. simpl storage. rewrite lookup_insert_eq.
    unfold JSON.stringify.
    split; [exact E1|]. split; [exact E2|]. apply keep_last_100_length.
Qed.

(** [saveChallenges] of the generator writes its in-memory history with
    the new batch appended, whatever the length. *)
Lemma saveChallenges_appends date now w h challenges :
  challengeHistory (generator w) = VChallenges h ->
  calm 2 w = true ->
  exists w',
    saveChallenges date challenges now w = (Ret true, w')
    /\ history_log w' = h ++ challenges
    /\ challengeHistory (generator w') = VChallenges (h ++ challenges)
    /\ storage w' !! AIChallengeGenerator.day_key date now
       = Some (Json (VChallenges challenges))
    /\ faults w' = tl (tl (faults w)).
Proof.
  intros Hg Hc.
  pose proof (calm_next _ _ Hc) as Hf1.
  pose proof (calm_next _ _ (calm_after _ _ Hc)) as Hf2.
  eexists. split.
  - unfold saveChallenges, AIChallengeGenerator.saveChallenges,
      try_catch, bind.
    rewrite (setItem_ok _ _ _ Hf1).
    unfold this_history, get_generator, bind. simpl. rewrite Hg. simpl.
    unfold put_generator.
    match goal with
    | |- context [AsyncStorage.setItem ?k ?t ?w0] =>
        rewrite (setItem_ok k t w0 Hf2)
    end.
    reflexivity.
  - unfold history_log. simpl. rewrite lookup_insert_eq.
    repeat split.
    rewrite lookup_insert_ne, lookup_insert_eq; [reflexivity|].
    unfold AIChallengeGenerator.day_key. simpl. discriminate.
Qed.

(** C2 fails on the code: thirty-four days of use from a fresh install
    leave 102 entries under ['challengeHistory']; the generator's
    [saveChallenges] appends and never evicts. *)
Theorem history_log_exceeds_100 :
  history_log fresh_install = []
  /\ length (history_log (exec (daily_use utc 33 jan_1_noon) fresh_install))
     = 99%nat
  /\ length (history_log (exec (daily_use utc 34 jan_1_noon) fresh_install))
     = 102%nat.
Proof. vm_compute. repeat split; reflexivity. Qed.

(** ** Storage failures *)

Lemma console_error_never_throws msg : never_throws (console_error msg).
Proof. intros w. unfold console_error. eauto. Qed.

Lemma ret_never_throws {A} (a : A) : never_throws (ret a).
Proof. intros w. unfold ret. eauto. Qed.

Lemma bind_never_throws {A B} (m : M A) (k : A -> M B) :
  never_throws m -> (forall a, never_throws (k a)) -> never_throws (bind m k).
Proof.
  intros Hm Hk w. unfold bind.
  destruct (Hm w) as (a & w' & ->). apply Hk.
Qed.

Lemma try_catch_never_throws {A} (body : M A) (handler : error -> M A) :
  (forall e, never_throws (handler e)) -> never_throws (try_catch body handler).
Proof.
  intros Hh w. unfold try_catch.
  destruct (body w) as [[a|e] w']; [eauto|apply Hh].
Qed.

Lemma logged_fallback_never_throws {A} msg (a : A) :
  never_throws (console_error msg ;; ret a).
Proof.
  apply bind_never_throws;
    [apply console_error_never_throws|intros _; apply ret_never_throws].
Qed.

Create HintDb absorb.

#[local] Hint Resolve console_error_never_throws ret_never_throws
  logged_fallback_never_throws : absorb.

Ltac guarded :=
  apply try_catch_never_throws; intros _; auto with absorb.

Lemma loadUserData_never_throws : never_throws loadUserData.
Proof. unfold loadUserData. guarded. Qed.

Lemma loadChallengeHistory_never_throws : never_throws loadChallengeHistory.
Proof. unfold loadChallengeHistory. guarded. Qed.

Lemma loadUserPreferences_never_throws : never_throws loadUserPreferences.
Proof. unfold loadUserPreferences. guarded. Qed.

Lemma initialize_never_throws : never_throws initializeAIChallenges.
Proof.
  unfold initializeAIChallenges, AIChallengeGenerator.initialize.
  apply bind_never_throws; [|intros _];
    [unfold AIChallengeGenerator.loadUserPreferences
    |unfold AIChallengeGenerator.loadChallengeHistory]; guarded.
Qed.

(** The calls answered between two worlds are a prefix of the schedule:
    whichever count explains the remaining schedule, the rejected call is
    among them. *)
Lemma storage_failed_within w w' k :
  storage_failed w w' -> faults w' = drop k (faults w) ->
  In true (take k (faults w)).
Proof.
  intros (n & Hin & ->) Hk.
  assert (Hlen : (length (faults w) - n = length (faults w) - k)%nat)
    by (rewrite <- !length_drop, Hk; reflexivity).
  destruct (Nat.le_gt_cases (length (faults w)) n) as [Hn|Hn].
  - rewrite take_ge in Hin by lia. rewrite take_ge by lia. exact Hin.
  - replace k with n by lia. exact Hin.
Qed.

Lemma first_call_failed w w' :
  storage_failed w w' -> faults w' = tl (faults w) -> next_fault w = true.
Proof.
  intros Hf Hw. pose proof (storage_failed_within w w' 1 Hf) as H.
  unfold next_fault. destruct (faults w) as [|[] fs]; simpl in *;
    try reflexivity; exfalso.
  - destruct (H Hw).
  - destruct (H Hw) as [H'|[]]. discriminate H'.
Qed.

Lemma two_calls_failed w w' :
  storage_failed w w' -> faults w' = tl (tl (faults w)) ->
  next_fault w = true \/ next_fault (after_call w) = true.
Proof.
  intros Hf Hw. pose proof (storage_failed_within w w' 2 Hf) as H.
  unfold next_fault, after_call. simpl.
  destruct (faults w) as [|[] [|[] fs]]; simpl in *; auto; exfalso;
    specialize (H Hw); cbn in H; intuition discriminate.
Qed.

Lemma one_call_absorbs {A} (fallback : A) (m : M A) :
  one_call fallback m -> absorbs_failures (eq fallback) m.
Proof.
  intros Hm w r w' Hrun Hfail.
  destruct (Hm w) as (a & w1 & Hrun1 & Hfaults & Hfb).
  rewrite Hrun in Hrun1. injection Hrun1 as -> ->.
  exists a. split; [reflexivity|].
  symmetry. apply Hfb. eapply first_call_failed; eauto.
Qed.

Ltac one_call_run :=
  intros w;
  unfold try_catch, bind, AsyncStorage.getItem, AsyncStorage.setItem,
    AsyncStorage.multiRemove, parse_or;
  destruct (next_fault w) eqn:Hf; simpl;
  try match goal with
      | |- context [storage w !! ?k] =>
          destruct (storage w !! k) as [[?| |]|]; simpl
      end;
  eexists _, _; (split; [reflexivity|split; [reflexivity|]]);
  first [discriminate|reflexivity|intros _; reflexivity].

Lemma loadUserData_one_call : one_call (VBool false) loadUserData.
Proof. unfold loadUserData. one_call_run. Qed.

Lemma loadUserPreferences_one_call : one_call VNull loadUserPreferences.
Proof. unfold loadUserPreferences. one_call_run. Qed.

Lemma loadChallengeHistory_one_call :
  one_call (VChallenges []) loadChallengeHistory.
Proof. unfold loadChallengeHistory. one_call_run. Qed.

Lemma saveUserData_one_call v : one_call false (saveUserData v).
Proof. unfold saveUserData. one_call_run. Qed.

Lemma saveUserPreferences_one_call v : one_call false (saveUserPreferences v).
Proof. unfold saveUserPreferences. one_call_run. Qed.

Lemma clearAllData_one_call : one_call false clearAllData.
Proof. unfold clearAllData. one_call_run. Qed.

(** [saveChallenges] answers [true] only when both of its writes were
    accepted. *)
Lemma saveChallenges_absorbs date challenges now :
  absorbs_failures (eq false) (saveChallenges date challenges now).
Proof.
  intros w r w' Hrun Hfail.
  assert (Hcases : r = Ret false
                   \/ (faults w' = tl (tl (faults w))
                       /\ next_fault w = false
                       /\ next_fault (after_call w) = false)).
  { destruct w as [s fs e [up ch] c].
    unfold saveChallenges, AIChallengeGenerator.saveChallenges, try_catch,
      bind, AsyncStorage.setItem, this_history, get_generator, put_generator,
      spread, next_fault, after_call in *.
    destruct fs as [|[] [|[] fs]], ch; cbn -[insert] in Hrun |- *;
      injection Hrun as <- <-; auto. }
  destruct Hcases as [->|(Hw & Hf1 & Hf2)]; [eauto|].
  destruct (two_calls_failed w w' Hfail Hw); congruence.
Qed.

Lemma next_fault_after w w' :
  faults w' = tl (faults w) -> next_fault w' = next_fault (after_call w).
Proof. intros H. unfold next_fault, after_call. simpl. rewrite H. reflexivity. Qed.

(** The history is read by [loadChallengeHistory], which absorbs its own
    failure; it is the write that the guard of [saveChallengeHistory] and
    of [markChallengeCompleted] sees. *)
Lemma saveChallengeHistory_write_fails challenges w :
  next_fault (after_call w) = true ->
  (saveChallengeHistory challenges w).1 = Ret false.
Proof.
  intros Hf.
  destruct (loadChallengeHistory_one_call w) as (v & w1 & Hrun & Hw1 & _).
  apply next_fault_after in Hw1. rewrite Hf in Hw1.
  unfold saveChallengeHistory, try_catch, bind. rewrite Hrun.
  destruct v; simpl; try reflexivity.
  unfold AsyncStorage.setItem. rewrite Hw1. reflexivity.
Qed.

Lemma markChallengeCompleted_write_fails date challengeId now w :
  next_fault (after_call w) = true ->
  (markChallengeCompleted date challengeId now w).1 = Ret false.
Proof.
  intros Hf.
  destruct (loadChallengeHistory_one_call w) as (v & w1 & Hrun & Hw1 & _).
  apply next_fault_after in Hw1. rewrite Hf in Hw1.
  unfold markChallengeCompleted, try_catch, bind. rewrite Hrun.
  destruct v; simpl; try reflexivity.
  unfold AsyncStorage.setItem. rewrite Hw1. reflexivity.
Qed.

(** The three loaders of [exportUserData] each absorb their own failure,
    so its guard never fires. *)
Lemma exportUserData_snapshot now w :
  exists snapshot w',
    exportUserData now w = (Ret (Some snapshot), w')
    /\ Snapshot.exportDate snapshot = now
    /\ Snapshot.version snapshot = "1.0.0"
    /\ (next_fault w = true -> Snapshot.userData snapshot = VBool false)
    /\ (next_fault (after_call w) = true ->
        Snapshot.challengeHistory snapshot = VChallenges [])
    /\ (next_fault (after_call (after_call w)) = true ->
        Snapshot.preferences snapshot = VNull).
Proof.
  destruct (loadUserData_one_call w) as (u & w1 & Hu & Hw1 & Hfu).
  destruct (loadChallengeHistory_one_call w1) as (h & w2 & Hh & Hw2 & Hfh).
  destruct (loadUserPreferences_one_call w2) as (p & w3 & Hp & Hw3 & Hfp).
  unfold exportUserData, try_catch, bind. rewrite Hu, Hh, Hp. simpl.
  eexists _, _. split; [reflexivity|]. simpl.
  repeat split; auto.
  - intros Hf. apply Hfh. rewrite (next_fault_after _ _ Hw1). exact Hf.
  - intros Hf. apply Hfp. unfold next_fault in *. rewrite Hw2, Hw1. exact Hf.
Qed.

(** One run that failed and did not answer the fallback refutes
    [absorbs_failures]. *)
Lemma not_absorbed {A} (fallback : A -> Prop) (m : M A) w a :
  (m w).1 = Ret a -> storage_failed w (m w).2 -> ~ fallback a ->
  ~ absorbs_failures fallback m.
Proof.
  intros Hr Hf Hn H.
  destruct (H w (m w).1 (m w).2) as (b & Hb & Hfb); [apply surjective_pairing|exact Hf|].
  rewrite Hr in Hb. injection Hb as <-. exact (Hn Hfb).
Qed.

Section FailureFacts.

Context (date : DateAPI).

(** C6, as the code has it.  Every operation that touches storage returns
    normally from every world, whatever the stored texts and the failure
    schedule.  The three loaders, [saveUserData], [saveUserPreferences],
    [saveChallenges] and [clearAllData] answer their fallback ([false],
    [null], the empty array; [false] for the savers and the clear) in
    every run in which a storage call was rejected.  [getTodaysChallenges]
    answers the empty array and [updateUserProgress] answers [false] when
    their first call, the read, is rejected.  [saveChallengeHistory] and
    [markChallengeCompleted] answer [false] when their second call, the
    write of the history, is rejected.  [exportUserData] always answers a
    snapshot, never [null], stamped with the instant of the call and
    version 1.0.0; the field of a load whose call was rejected holds that
    loader's fallback. *)
Theorem storage_failures_absorbed now challengeId completed challenges v :
  (never_throws initializeAIChallenges
   /\ never_throws (getTodaysChallenges date now)
   /\ never_throws (saveChallenges date challenges now)
   /\ never_throws loadUserData
   /\ never_throws (saveUserData v)
   /\ never_throws (updateUserProgress date challengeId completed now)
   /\ never_throws loadUserPreferences
   /\ never_throws (saveUserPreferences v)
   /\ never_throws loadChallengeHistory
   /\ never_throws (saveChallengeHistory challenges)
   /\ never_throws (markChallengeCompleted date challengeId now)
   /\ never_throws clearAllData
   /\ never_throws (exportUserData now))
  /\ (absorbs_failures (eq (VBool false)) loadUserData
      /\ absorbs_failures (eq VNull) loadUserPreferences
      /\ absorbs_failures (eq (VChallenges [])) loadChallengeHistory
      /\ absorbs_failures (eq false) (saveUserData v)
      /\ absorbs_failures (eq false) (saveUserPreferences v)
      /\ absorbs_failures (eq false) (saveChallenges date challenges now)
      /\ absorbs_failures (eq false) clearAllData)
  /\ (forall w, next_fault w = true ->
        (getTodaysChallenges date now w).1 = Ret (VChallenges [])
        /\ (updateUserProgress date challengeId completed now w).1 = Ret false)
  /\ (forall w, next_fault (after_call w) = true ->
        (saveChallengeHistory challenges w).1 = Ret false
        /\ (markChallengeCompleted date challengeId now w).1 = Ret false)
  /\ (forall w, exists snapshot w',
        exportUserData now w = (Ret (Some snapshot), w')
        /\ Snapshot.exportDate snapshot = now
        /\ Snapshot.version snapshot = "1.0.0"
        /\ (next_fault w = true ->
            Snapshot.userData snapshot = VBool false)
        /\ (next_fault (after_call w) = true ->
            Snapshot.challengeHistory snapshot = VChallenges [])
        /\ (next_fault (after_call (after_call w)) = true ->
            Snapshot.preferences snapshot = VNull)).
Proof.
  split; [|split; [|split; [|split]]].
  - repeat split;
      try (first [apply initialize_never_throws
                 |apply loadUserData_never_throws
                 |apply loadUserPreferences_never_throws
                 |apply loadChallengeHistory_never_throws]);
      unfold getTodaysChallenges, AIChallengeGenerator.getTodaysChallenges,
        saveChallenges, AIChallengeGenerator.saveChallenges, saveUserData,
        updateUserProgress, saveUserPreferences, saveChallengeHistory,
        markChallengeCompleted, clearAllData, exportUserData;
      guarded.
  - repeat split;
      first [apply saveChallenges_absorbs
            |apply one_call_absorbs;
             first [apply loadUserData_one_call
                   |apply loadUserPreferences_one_call
                   |apply loadChallengeHistory_one_call
                   |apply saveUserData_one_call
                   |apply saveUserPreferences_one_call
                   |apply clearAllData_one_call]].
  - intros w Hf.
    unfold getTodaysChallenges, AIChallengeGenerator.getTodaysChallenges,
      updateUserProgress, loadUserData, try_catch, bind,
      AsyncStorage.getItem.
    rewrite Hf. simpl. split; reflexivity.
  - intros w Hf. split;
      [apply saveChallengeHistory_write_fails
      |apply markChallengeCompleted_write_fails]; exact Hf.
  - intros w. apply exportUserData_snapshot.
Qed.

End FailureFacts.

Lemma storage_failures_absorbed_witness :
  (storage_failed (world_of ∅ [true]) (exec loadUserData (world_of ∅ [true]))
   /\ exists a, (loadUserData (world_of ∅ [true])).1 = Ret a
                /\ VBool false = a)
  /\ (next_fault (world_of ∅ [true]) = true
      /\ (getTodaysChallenges utc jan_1_noon (world_of ∅ [true])).1
         = Ret (VChallenges [])
      /\ (updateUserProgress utc "challenge_1704067200000_0" true jan_1_noon
            (world_of ∅ [true])).1 = Ret false)
  /\ (next_fault (after_call write_fails_world) = true
      /\ (saveChallengeHistory [] write_fails_world).1 = Ret false).
Proof.
  pose proof (storage_failures_absorbed utc jan_1_noon
                "challenge_1704067200000_0" true [] VNull)
    as (_ & (Hload & _) & Hfirst & Hsecond & _).
  assert (Hfail : storage_failed (world_of ∅ [true])
                    (exec loadUserData (world_of ∅ [true]))).
  { exists 1%nat. vm_compute. split; [tauto|reflexivity]. }
  split; [split; [exact Hfail|]|split].
  - destruct (Hload (world_of ∅ [true]) _ _ (surjective_pairing _) Hfail)
      as (a & Ha & Hfb).
    exists a. split; [exact Ha|exact Hfb].
  - split; [reflexivity|]. apply (Hfirst (world_of ∅ [true]) eq_refl).
  - split; [reflexivity|]. apply (Hsecond write_fails_world eq_refl).
Defined.

(** C6 as stated fails on the code, because a failure is absorbed by the
    innermost guard and the operation around it goes on.
    [updateUserProgress] answers [true] when the profile was read and its
    write was rejected (the result of [saveUserData] is not looked at);
    [saveChallengeHistory] answers [true] when the read of the history was
    rejected and the write accepted; [getTodaysChallenges] answers the
    batch it generated when the writes of [saveChallenges] are rejected;
    [exportUserData] answers a snapshot, not [null].  And
    [generateDailyChallenges], which has no guard of its own, throws a
    TypeError once [initialize] ran against a failing storage, because the
    preferences are then still [null]. *)
Lemma fallback_claim_counterexample :
  ~ absorbs_failures (eq false)
      (updateUserProgress utc "challenge_1704153600000_0" true jan_2_morning)
  /\ ~ absorbs_failures (eq false) (saveChallengeHistory first_batch)
  /\ ~ absorbs_failures (eq (VChallenges []))
         (getTodaysChallenges utc jan_1_noon)
  /\ ~ absorbs_failures (eq None) (exportUserData jan_1_noon)
  /\ storage_failed (world_of ∅ [true]) failed_init
  /\ generateDailyChallenges utc jan_1_noon failed_init
     = (Throw TypeError, failed_init).
Proof.
  split; [|split; [|split; [|split; [|split]]]].
  - apply (not_absorbed _ _ write_fails_world true).
    + vm_compute; reflexivity.
    + exists 2%nat. vm_compute. split; [tauto|reflexivity].
    + discriminate.
  - apply (not_absorbed _ _ (set_faults [true] first_day) true).
    + vm_compute; reflexivity.
    + exists 1%nat. vm_compute. split; [tauto|reflexivity].
    + discriminate.
  - apply (not_absorbed _ _ (set_faults [false; true] fresh_install)
             (VChallenges first_batch)).
    + vm_compute; reflexivity.
    + exists 2%nat. vm_compute. split; [tauto|reflexivity].
    + discriminate.
  - destruct (exportUserData_snapshot jan_1_noon (world_of ∅ [true]))
      as (snapshot & w' & Hrun & _).
    apply (not_absorbed _ _ (world_of ∅ [true]) (Some snapshot)).
    + rewrite Hrun. reflexivity.
    + exists 1%nat. vm_compute. split; [tauto|reflexivity].
    + discriminate.
  - exists 1%nat. vm_compute. split; [tauto|reflexivity].
  - vm_compute; reflexivity.
Qed.

(** ** Category selection *)

Lemma only_entropy_refl w : only_entropy w w.
Proof. unfold only_entropy. now destruct w. Qed.

Lemma only_entropy_trans w1 w2 w3 :
  only_entropy w1 w2 -> only_entropy w2 w3 -> only_entropy w1 w3.
Proof. unfold only_entropy. intros H1 H2. rewrite H2, H1. reflexivity. Qed.

Lemma only_entropy_set rs w : only_entropy w (set_entropy rs w).
Proof. reflexivity. Qed.

Lemma only_entropy_generator w w' :
  only_entropy w w' -> generator w' = generator w.
Proof. intros ->. reflexivity. Qed.

Lemma draw_lt n rs : (0 < n)%nat -> (draw n rs < n)%nat.
Proof.
  destruct n as [|n]; [lia|]. intros _. unfold draw.
  apply Nat.mod_upper_bound. lia.
Qed.

Lemma draw_lookup {A} (l : list A) rs :
  l <> [] -> exists x, l !! draw (length l) rs = Some x.
Proof.
  intros Hl. apply lookup_lt_is_Some, draw_lt.
  destruct l; [congruence|simpl; lia].
Qed.

Lemma select_distinct_spec fuel :
  forall selected categories w,
  exists picked rest w',
    AIChallengeGenerator.select_distinct fuel selected categories w
    = (Ret (selected ++ map Some picked), w')
    /\ only_entropy w w'
    /\ picked ++ rest ≡ₚ categories
    /\ length picked
       = Nat.min fuel (Nat.min (3 - length selected) (length categories)).
Proof.
  induction fuel as [|fuel IH]; intros selected categories w.
  - exists [], categories, w. simpl. rewrite app_nil_r.
    repeat split; [apply only_entropy_refl|reflexivity].
  - cbn [AIChallengeGenerator.select_distinct].
    destruct ((length selected <? 3)%nat && (0 <? length categories)%nat)
      eqn:Hc.
    + apply andb_true_iff in Hc as [H3 Hn].
      apply Nat.ltb_lt in H3, Hn.
      destruct (draw_lookup categories (entropy w)) as [c Hi].
      { destruct categories; [simpl in Hn; lia|congruence]. }
      unfold bind at 1, random_index at 1. rewrite Hi.
      destruct (IH (selected ++ [Some c])
                   (delete (draw (length categories) (entropy w)) categories)
                   (set_entropy (tl (entropy w)) w))
        as (picked & rest & w' & -> & Hw & Hp & Hl).
      exists (c :: picked), rest, w'. split; [|split; [|split]].
      * simpl. now rewrite <- app_assoc.
      * eapply only_entropy_trans; [apply only_entropy_set|exact Hw].
      * simpl. rewrite Hp. symmetry. now apply delete_Permutation.
      * cbn [length]. rewrite Hl, length_app, length_delete by eauto.
        cbn [length]. lia.
    + exists [], categories, w. cbn [map length app]. rewrite app_nil_r.
      repeat split; [apply only_entropy_refl|reflexivity|].
      apply andb_false_iff in Hc as [Hc|Hc]; apply Nat.ltb_ge in Hc; lia.
Qed.

Lemma select_repeat_spec fuel :
  forall selected availableCategories w,
  availableCategories <> [] ->
  exists padding w',
    AIChallengeGenerator.select_repeat fuel selected availableCategories w
    = (Ret (selected ++ map Some padding), w')
    /\ only_entropy w w'
    /\ Forall (fun c => In c availableCategories) padding
    /\ length padding = Nat.min fuel (3 - length selected).
Proof.
  induction fuel as [|fuel IH]; intros selected available w Ha.
  - exists [], w. simpl. rewrite app_nil_r.
    repeat split; [apply only_entropy_refl|constructor].
  - cbn [AIChallengeGenerator.select_repeat].
    destruct (length selected <? 3)%nat eqn:H3.
    + apply Nat.ltb_lt in H3.
      destruct (draw_lookup available (entropy w) Ha) as [c Hi].
      unfold bind at 1, random_index at 1. rewrite Hi.
      destruct (IH (selected ++ [Some c]) available
                   (set_entropy (tl (entropy w)) w) Ha)
        as (padding & w' & -> & Hw & Hp & Hl).
      exists (c :: padding), w'. split; [|split; [|split]].
      * simpl. now rewrite <- app_assoc.
      * eapply only_entropy_trans; [apply only_entropy_set|exact Hw].
      * constructor; [|exact Hp].
        apply list_elem_of_In. eapply list_elem_of_lookup_2, Hi.
      * cbn [length]. rewrite Hl, length_app. cbn [length]. lia.
    + apply Nat.ltb_ge in H3. exists [], w. cbn [map length app].
      rewrite app_nil_r.
      repeat split; [apply only_entropy_refl|constructor|lia].
Qed.

(** [selectCategories] always returns, with three entries chosen as
    [selection] says. *)
Lemma selectCategories_spec availableCategories w :
  availableCategories <> [] ->
  exists selected w',
    AIChallengeGenerator.selectCategories availableCategories w
    = (Ret (map Some selected), w')
    /\ only_entropy w w'
    /\ selection availableCategories selected.
Proof.
  intros Ha. unfold AIChallengeGenerator.selectCategories, bind.
  destruct (select_distinct_spec 3 [] availableCategories w)
    as (picked & rest & w1 & -> & Hw1 & Hp & Hl1).
  simpl app.
  destruct (select_repeat_spec 3 (map Some picked) availableCategories w1 Ha)
    as (padding & w2 & -> & Hw2 & Hpad & Hl2).
  rewrite length_map in Hl2. cbn [length] in Hl1.
  assert (length (picked ++ padding) = 3%nat) as H3.
  { rewrite length_app. destruct availableCategories; [congruence|].
    cbn [length] in *. lia. }
  exists (picked ++ padding), w2. split; [|split].
  - unfold ret. rewrite <- map_app, take_ge by (rewrite length_map; lia).
    reflexivity.
  - eapply only_entropy_trans; eassumption.
  - exists picked, padding, rest. repeat split; try assumption. lia.
Qed.

(** The two loops have ended when their three rounds are over: more
    rounds change nothing. *)
Lemma select_distinct_fuel fuel :
  forall selected categories w,
  (3 - length selected <= fuel)%nat ->
  AIChallengeGenerator.select_distinct (S fuel) selected categories w
  = AIChallengeGenerator.select_distinct fuel selected categories w.
Proof.
  induction fuel as [|fuel IH]; intros selected categories w Hf.
  - cbn [AIChallengeGenerator.select_distinct].
    replace (length selected <? 3)%nat with false; [reflexivity|].
    symmetry. apply Nat.ltb_ge. lia.
  - cbn [AIChallengeGenerator.select_distinct].
    destruct ((length selected <? 3)%nat && (0 <? length categories)%nat);
      [|reflexivity].
    unfold bind, random_index.
    apply (IH (selected
               ++ [categories !! draw (length categories) (entropy w)])).
    rewrite length_app. simpl. lia.
Qed.

Lemma select_repeat_fuel fuel :
  forall selected availableCategories w,
  (3 - length selected <= fuel)%nat ->
  AIChallengeGenerator.select_repeat (S fuel) selected availableCategories w
  = AIChallengeGenerator.select_repeat fuel selected availableCategories w.
Proof.
  induction fuel as [|fuel IH]; intros selected available w Hf.
  - cbn [AIChallengeGenerator.select_repeat].
    replace (length selected <? 3)%nat with false; [reflexivity|].
    symmetry. apply Nat.ltb_ge. lia.
  - cbn [AIChallengeGenerator.select_repeat].
    destruct (length selected <? 3)%nat; [|reflexivity].
    unfold bind, random_index.
    apply (IH (selected ++ [available !! draw (length available) (entropy w)])).
    rewrite length_app. simpl. lia.
Qed.

Lemma selection_In availableCategories selected :
  selection availableCategories selected ->
  Forall (fun c => In c availableCategories) selected.
Proof.
  intros (picked & padding & rest & -> & Hp & _ & Hpad & _).
  apply Forall_app. split; [|exact Hpad].
  apply Forall_forall. intros c Hc.
  apply list_elem_of_In. rewrite <- Hp.
  apply elem_of_app. left. exact Hc.
Qed.

(** With at least three configured entries, the three selected come from
    three different positions: they are pairwise distinct when the
    configured entries are. *)
Lemma selection_NoDup availableCategories selected :
  selection availableCategories selected ->
  (3 <= length availableCategories)%nat ->
  NoDup availableCategories ->
  NoDup selected
  /\ exists rest, selected ++ rest ≡ₚ availableCategories.
Proof.
  intros (picked & padding & rest & -> & Hp & Hl & _ & H3) Hn Hd.
  rewrite length_app in H3.
  assert (padding = []) as ->
    by (destruct padding; [reflexivity|simpl in H3; lia]).
  rewrite app_nil_r. split; [|now exists rest].
  rewrite <- Hp in Hd. now apply NoDup_app in Hd as [Hd _].
Qed.

(** With fewer than three configured entries, every entry is selected
    once and the selection is filled up to three from the whole array. *)
Lemma selection_padded availableCategories selected :
  selection availableCategories selected ->
  (length availableCategories < 3)%nat ->
  exists picked padding,
    selected = picked ++ padding
    /\ picked ≡ₚ availableCategories
    /\ length padding = (3 - length availableCategories)%nat
    /\ Forall (fun c => In c availableCategories) padding.
Proof.
  intros (picked & padding & rest & -> & Hp & Hl & Hpad & H3) Hn.
  exists picked, padding.
  pose proof (Permutation_length Hp) as Hlen.
  rewrite !length_app in *.
  assert (rest = []) as -> by (destruct rest; [reflexivity|simpl in Hlen; lia]).
  rewrite app_nil_r in Hp.
  repeat split; try assumption. lia.
Qed.

(** ** Challenge synthesis *)

Lemma corpus_groups category groups :
  assoc CHALLENGE_TEMPLATES category = Some groups ->
  groups <> []
  /\ Forall (fun g => TemplateGroup.templates g <> []) groups.
Proof.
  unfold CHALLENGE_TEMPLATES. cbn [assoc].
  repeat (destruct (String.eqb _ category));
    intros [= <-]; (split; [discriminate|repeat constructor; discriminate]).
Qed.

Lemma this_preferences_ok w p :
  userPreferences (generator w) = VPrefs p ->
  this_preferences w = (Ret p, w).
Proof.
  intros H. unfold this_preferences, bind, get_generator. now rewrite H.
Qed.

Lemma this_preferences_inv w p w' :
  this_preferences w = (Ret p, w') ->
  w' = w /\ userPreferences (generator w) = VPrefs p.
Proof.
  unfold this_preferences, bind, get_generator.
  destruct (userPreferences (generator w)); cbn; intros [= <- <-]; auto.
Qed.

Lemma this_history_ok w h :
  challengeHistory (generator w) = VChallenges h ->
  this_history w = (Ret h, w).
Proof.
  intros H. unfold this_history, bind, get_generator. now rewrite H.
Qed.

Lemma this_history_inv w h w' :
  this_history w = (Ret h, w') ->
  w' = w /\ challengeHistory (generator w) = VChallenges h.
Proof.
  unfold this_history, bind, get_generator.
  destruct (challengeHistory (generator w)); cbn; intros [= <- <-]; auto.
Qed.

Lemma ready_only_entropy w w' p h :
  only_entropy w w' -> ready w p h -> ready w' p h.
Proof.
  intros Hw [Hp Hh]. unfold ready.
  now rewrite (only_entropy_generator _ _ Hw).
Qed.

Section SynthesisFacts.

Context (date : DateAPI).

Lemma pick_group_ok category w :
  has_templates category ->
  exists g w',
    AIChallengeGenerator.pick_group (Some category) w = (Ret g, w')
    /\ only_entropy w w'
    /\ TemplateGroup.templates g <> [].
Proof.
  intros [groups Hg]. unfold AIChallengeGenerator.pick_group, get_property.
  cbn [property_key]. rewrite Hg.
  destruct (corpus_groups _ _ Hg) as [Hne Hall].
  destruct (draw_lookup groups (entropy w) Hne) as [g Hi].
  unfold bind, random_index. rewrite Hi.
  exists g. eexists. split; [reflexivity|]. split; [apply only_entropy_set|].
  rewrite Forall_forall in Hall. apply Hall.
  eapply list_elem_of_lookup_2, Hi.
Qed.

Lemma pick_group_inv category w g w' :
  AIChallengeGenerator.pick_group category w = (Ret g, w') ->
  exists c, category = Some c /\ has_templates c /\ only_entropy w w'.
Proof.
  unfold AIChallengeGenerator.pick_group, get_property.
  destruct (assoc CHALLENGE_TEMPLATES (property_key category))
    as [groups|] eqn:Hg.
  - unfold bind, random_index.
    destruct (groups !! _); cbn; intros [= <- <-].
    destruct category as [c|]; [|discriminate Hg].
    exists c. split; [reflexivity|]. split; [|apply only_entropy_set].
    now exists groups.
  - destruct (existsb _ _); cbn; discriminate.
Qed.

Lemma pick_template_ok g w :
  TemplateGroup.templates g <> [] ->
  exists template,
    AIChallengeGenerator.pick_template g w
    = (Ret template, set_entropy (tl (entropy w)) w).
Proof.
  intros Hne. unfold AIChallengeGenerator.pick_template, bind, random_index.
  destruct (draw_lookup _ (entropy w) Hne) as [t ->]. now exists t.
Qed.

Lemma pick_template_inv g w template w' :
  AIChallengeGenerator.pick_template g w = (Ret template, w') ->
  only_entropy w w'.
Proof.
  unfold AIChallengeGenerator.pick_template, bind, random_index.
  destruct (_ !! _); cbn; intros [= <- <-]. apply only_entropy_set.
Qed.

Lemma getPersonalizationFactors_ok now w p h :
  ready w p h ->
  exists factors,
    AIChallengeGenerator.getPersonalizationFactors date now w
    = (Ret factors, w).
Proof.
  intros [Hp Hh]. unfold AIChallengeGenerator.getPersonalizationFactors, bind.
  rewrite (this_preferences_ok _ _ Hp), (this_history_ok _ _ Hh).
  eexists. reflexivity.
Qed.

Lemma getPersonalizationFactors_inv now w factors w' :
  AIChallengeGenerator.getPersonalizationFactors date now w
  = (Ret factors, w') ->
  w' = w.
Proof.
  unfold AIChallengeGenerator.getPersonalizationFactors, bind.
  destruct (this_preferences w) as [[p|e] w1] eqn:E1; [|discriminate].
  apply this_preferences_inv in E1 as [-> _].
  destruct (this_history w) as [[h|e] w2] eqn:E2; [|discriminate].
  apply this_history_inv in E2 as [-> _].
  cbn. now intros [= _ <-].
Qed.

Lemma modifiers_own difficulty m :
  lookup_modifiers difficulty = Own m <->
  assoc DIFFICULTY_MODIFIERS difficulty = Some m.
Proof.
  unfold lookup_modifiers, get_property.
  destruct (assoc DIFFICULTY_MODIFIERS difficulty).
  - split; congruence.
  - destruct (existsb _ _); split; discriminate.
Qed.

Lemma generateChallengeForCategory_ok category index now w p h :
  has_templates category ->
  ready w p h ->
  has_modifiers (Preferences.difficulty p) ->
  exists challenge w',
    AIChallengeGenerator.generateChallengeForCategory date (Some category)
      index now w = (Ret challenge, w').
Proof.
  intros Hc Hr Hm.
  unfold AIChallengeGenerator.generateChallengeForCategory, bind.
  destruct (pick_group_ok category w Hc) as (g & w1 & -> & Hw1 & Hg).
  destruct (pick_template_ok g w1 Hg) as (t & ->).
  assert (only_entropy w (set_entropy (tl (entropy w1)) w1)) as Hw2
    by (eapply only_entropy_trans; [exact Hw1|apply only_entropy_set]).
  pose proof (ready_only_entropy _ _ _ _ Hw2 Hr) as Hr2.
  rewrite (this_preferences_ok _ _ (proj1 Hr2)).
  destruct (getPersonalizationFactors_ok now _ _ _ Hr2) as (f & Hf).
  unfold has_modifiers in Hm.
  destruct (lookup_modifiers (Preferences.difficulty p));
    [| |congruence]; cbn; rewrite Hf; eauto.
Qed.

Lemma generateChallengeForCategory_inv category index now w challenge w' :
  AIChallengeGenerator.generateChallengeForCategory date category index now w
  = (Ret challenge, w') ->
  only_entropy w w'
  /\ category = Some (Challenge.category challenge)
  /\ forall p, userPreferences (generator w) = VPrefs p ->
       modifiers_applied (Preferences.difficulty p) challenge.
Proof.
  unfold AIChallengeGenerator.generateChallengeForCategory, bind.
  destruct (AIChallengeGenerator.pick_group category w)
    as [[g|e] w1] eqn:E1; [|discriminate].
  apply pick_group_inv in E1 as (c & -> & _ & Hw1).
  destruct (AIChallengeGenerator.pick_template g w1)
    as [[t|e] w2] eqn:E2; [|discriminate].
  apply pick_template_inv in E2.
  destruct (this_preferences w2) as [[p|e] w3] eqn:E3; [|discriminate].
  apply this_preferences_inv in E3 as [-> Hp].
  assert (only_entropy w w2) as Hw2 by (eapply only_entropy_trans; eassumption).
  rewrite (only_entropy_generator _ _ Hw2) in Hp.
  destruct (lookup_modifiers (Preferences.difficulty p)) as [m| |] eqn:Em;
    cbn; [| |discriminate].
  - destruct (AIChallengeGenerator.getPersonalizationFactors date now w2)
      as [[f|e] w4] eqn:E4; [|discriminate].
    apply getPersonalizationFactors_inv in E4 as ->.
    intros [= <- <-]. split; [exact Hw2|]. split; [reflexivity|].
    intros p' Hp'. rewrite Hp in Hp'. injection Hp' as <-.
    split; [reflexivity|].
    intros m' Hm'. apply modifiers_own in Em. rewrite Em in Hm'.
    injection Hm' as <-. cbn. auto.
  - destruct (AIChallengeGenerator.getPersonalizationFactors date now w2)
      as [[f|e] w4] eqn:E4; [|discriminate].
    apply getPersonalizationFactors_inv in E4 as ->.
    intros [= <- <-]. split; [exact Hw2|]. split; [reflexivity|].
    intros p' Hp'. rewrite Hp in Hp'. injection Hp' as <-.
    split; [reflexivity|].
    intros m' Hm'. apply modifiers_own in Hm'. congruence.
Qed.

End SynthesisFacts.

(** ** The daily batch *)

Lemma map_Some_inj {A} (l1 l2 : list A) :
  map Some l1 = map Some l2 -> l1 = l2.
Proof.
  revert l2. induction l1 as [|x l1 IH]; intros [|y l2]; simpl;
    intros [=]; [reflexivity|]. subst. f_equal. now apply IH.
Qed.

Section BatchFacts.

Context (date : DateAPI).

Lemma for_each_inv now selected :
  forall index w challenges w',
  AIChallengeGenerator.for_each date selected index now w
  = (Ret challenges, w') ->
  only_entropy w w'
  /\ selected = map Some (map Challenge.category challenges)
  /\ forall p, userPreferences (generator w) = VPrefs p ->
       Forall (modifiers_applied (Preferences.difficulty p)) challenges.
Proof.
  induction selected as [|category rest IH]; intros index w cs w'.
  - cbn. intros [= <- <-].
    split; [apply only_entropy_refl|]. split; [reflexivity|]. constructor.
  - cbn [AIChallengeGenerator.for_each]. unfold bind at 1.
    destruct (AIChallengeGenerator.generateChallengeForCategory
                date category index now w) as [[c|e] w1] eqn:E1;
      [|discriminate].
    apply generateChallengeForCategory_inv in E1 as (Hw1 & -> & Hc).
    unfold bind at 1.
    destruct (AIChallengeGenerator.for_each date rest (S index) now w1)
      as [[cs'|e] w2] eqn:E2; [|discriminate].
    apply IH in E2 as (Hw2 & -> & Hcs).
    cbn. intros [= <- <-].
    split; [eapply only_entropy_trans; eassumption|].
    split; [reflexivity|].
    intros p Hp. constructor; [now apply Hc|].
    apply Hcs. now rewrite (only_entropy_generator _ _ Hw1).
Qed.

Lemma for_each_ok now p h categories :
  forall index w,
  Forall has_templates categories ->
  ready w p h ->
  has_modifiers (Preferences.difficulty p) ->
  exists challenges w',
    AIChallengeGenerator.for_each date (map Some categories) index now w
    = (Ret challenges, w').
Proof.
  induction categories as [|c rest IH]; intros index w Hall Hr Hm.
  - cbn. eauto.
  - apply Forall_cons in Hall as [Hc Hall].
    cbn [map AIChallengeGenerator.for_each]. unfold bind at 1.
    destruct (generateChallengeForCategory_ok date c index now w p h Hc Hr Hm)
      as (ch & w1 & E1).
    rewrite E1.
    apply generateChallengeForCategory_inv in E1 as (Hw1 & _).
    destruct (IH (S index) w1 Hall (ready_only_entropy _ _ _ _ Hw1 Hr) Hm)
      as (cs & w2 & E2).
    unfold bind. rewrite E2. cbn. eauto.
Qed.

(** Whatever [generateDailyChallenges] returns is a batch of three whose
    categories were selected from the configured ones and whose modifier
    fields are those of the configured difficulty; only random numbers
    were consumed. *)
Lemma generateDailyChallenges_inv now w p challenges w' :
  userPreferences (generator w) = VPrefs p ->
  Preferences.categories p <> [] ->
  generateDailyChallenges date now w = (Ret challenges, w') ->
  only_entropy w w'
  /\ length challenges = 3%nat
  /\ selection (Preferences.categories p)
               (map Challenge.category challenges)
  /\ Forall (modifiers_applied (Preferences.difficulty p)) challenges.
Proof.
  intros Hp Hne.
  unfold generateDailyChallenges, AIChallengeGenerator.generateDailyChallenges.
  unfold bind at 1. rewrite (this_preferences_ok _ _ Hp).
  unfold bind at 1.
  destruct (selectCategories_spec (Preferences.categories p) w Hne)
    as (selected & w1 & -> & Hw1 & Hsel).
  intros E. apply for_each_inv in E as (Hw2 & Hcats & Hmods).
  apply map_Some_inj in Hcats. subst selected.
  split; [eapply only_entropy_trans; eassumption|].
  split; [|split; [exact Hsel|]].
  - destruct Hsel as (_ & _ & _ & _ & _ & _ & _ & H3).
    now rewrite length_map in H3.
  - apply Hmods. now rewrite (only_entropy_generator _ _ Hw1).
Qed.

(** With supported preferences and an array as history,
    [generateDailyChallenges] does return. *)
Lemma generateDailyChallenges_ok now w p h :
  ready w p h ->
  Preferences.categories p <> [] ->
  supported p ->
  exists challenges w',
    generateDailyChallenges date now w = (Ret challenges, w').
Proof.
  intros Hr Hne [Hall Hm].
  unfold generateDailyChallenges, AIChallengeGenerator.generateDailyChallenges.
  unfold bind at 1. rewrite (this_preferences_ok _ _ (proj1 Hr)).
  unfold bind at 1.
  destruct (selectCategories_spec (Preferences.categories p) w Hne)
    as (selected & w1 & -> & Hw1 & Hsel).
  apply (for_each_ok now p h); [|now apply (ready_only_entropy w)|exact Hm].
  apply selection_In in Hsel.
  rewrite Forall_forall in Hall. rewrite Forall_forall. intros c Hc.
  rewrite Forall_forall in Hsel. apply Hall, list_elem_of_In, Hsel, Hc.
Qed.

(** C4. Every challenge [generateDailyChallenges] produces carries one of
    the configured categories; with supported preferences three are
    produced; and with ['health'] as the only configured category, three
    challenges are produced and each is of category ['health']. *)
Theorem generated_categories_configured now w p :
  userPreferences (generator w) = VPrefs p ->
  Preferences.categories p <> [] ->
  (forall challenges w',
     generateDailyChallenges date now w = (Ret challenges, w') ->
     Forall (fun c => In (Challenge.category c) (Preferences.categories p))
            challenges)
  /\ (forall h, challengeHistory (generator w) = VChallenges h ->
      supported p ->
      exists challenges w',
        generateDailyChallenges date now w = (Ret challenges, w')
        /\ length challenges = 3%nat)
  /\ (forall h, challengeHistory (generator w) = VChallenges h ->
      Preferences.categories p = ["health"] ->
      has_modifiers (Preferences.difficulty p) ->
      exists c0 c1 c2 w',
        generateDailyChallenges date now w = (Ret [c0; c1; c2], w')
        /\ Challenge.category c0 = "health"
        /\ Challenge.category c1 = "health"
        /\ Challenge.category c2 = "health").
Proof.
  intros Hp Hne.
  assert (forall challenges w',
            generateDailyChallenges date now w = (Ret challenges, w') ->
            Forall (fun c => In (Challenge.category c)
                                (Preferences.categories p)) challenges) as HA.
  { intros cs w' E.
    apply (generateDailyChallenges_inv now w p) in E as (_ & _ & Hsel & _);
      [|assumption..].
    apply selection_In in Hsel.
    rewrite Forall_forall in Hsel. rewrite Forall_forall.
    intros c Hc. apply Hsel.
    apply list_elem_of_In, in_map, list_elem_of_In, Hc. }
  split; [exact HA|]. split.
  - intros h Hh Hs.
    destruct (generateDailyChallenges_ok now w p h (conj Hp Hh) Hne Hs)
      as (cs & w' & E).
    exists cs, w'. split; [exact E|].
    now apply (generateDailyChallenges_inv now w p) in E as (_ & H3 & _).
  - intros h Hh Hcat Hm.
    assert (supported p) as Hs.
    { split; [|exact Hm]. rewrite Hcat. constructor; [|constructor].
      unfold has_templates. cbn. eauto. }
    destruct (generateDailyChallenges_ok now w p h (conj Hp Hh) Hne Hs)
      as (cs & w' & E).
    pose proof (HA _ _ E) as Hin.
    apply (generateDailyChallenges_inv now w p) in E as E'; [|assumption..].
    destruct E' as (_ & H3 & _).
    destruct cs as [|c0 [|c1 [|c2 [|c3 cs]]]]; try discriminate H3.
    exists c0, c1, c2, w'. split; [exact E|].
    rewrite Hcat in Hin.
    apply Forall_cons in Hin as [H0 Hin].
    apply Forall_cons in Hin as [H1 Hin].
    apply Forall_cons in Hin as [H2 _].
    cbn in H0, H1, H2. intuition congruence.
Qed.

(** C5, as the code has it.  With supported preferences (every configured
    category has templates, the difficulty has modifiers) and a non-empty
    array of categories, [generateDailyChallenges] returns exactly three
    challenges, whose categories are a [selection] of the array: drawn
    from different positions while positions remain, hence pairwise
    distinct when the array has three or more entries without repeats;
    and, when the array has fewer than three entries, all of them once,
    followed by entries drawn from the whole array up to three. *)
Theorem generateDailyChallenges_three now w p h :
  ready w p h ->
  Preferences.categories p <> [] ->
  supported p ->
  exists challenges w',
    generateDailyChallenges date now w = (Ret challenges, w')
    /\ length challenges = 3%nat
    /\ selection (Preferences.categories p)
                 (map Challenge.category challenges)
    /\ ((3 <= length (Preferences.categories p))%nat ->
        NoDup (Preferences.categories p) ->
        NoDup (map Challenge.category challenges))
    /\ ((length (Preferences.categories p) < 3)%nat ->
        exists picked padding,
          map Challenge.category challenges = picked ++ padding
          /\ picked ≡ₚ Preferences.categories p
          /\ length padding = (3 - length (Preferences.categories p))%nat
          /\ Forall (fun c => In c (Preferences.categories p)) padding).
Proof.
  intros Hr Hne Hs.
  destruct (generateDailyChallenges_ok now w p h Hr Hne Hs) as (cs & w' & E).
  exists cs, w'. split; [exact E|].
  apply (generateDailyChallenges_inv now w p) in E as (_ & H3 & Hsel & _);
    [|exact (proj1 Hr)|exact Hne].
  split; [exact H3|]. split; [exact Hsel|]. split.
  - intros Hn Hd. now apply (selection_NoDup _ _ Hsel Hn Hd).
  - intros Hn. now apply selection_padded.
Qed.

(** C8. The modifier table is easy 5/1/1, medium 15/2/2, hard 30/3/3, and
    every challenge [generateDailyChallenges] produces has the configured
    difficulty and the table's entry for it in [estimatedTime],
    [effortLevel] and [complexity]: 5 minutes under easy, 30 under hard.
    With supported preferences three challenges are produced. *)
Theorem generated_modifiers now w p :
  userPreferences (generator w) = VPrefs p ->
  Preferences.categories p <> [] ->
  (lookup_modifiers "easy" = Own (Modifiers.mk 5 1 1)
   /\ lookup_modifiers "medium" = Own (Modifiers.mk 15 2 2)
   /\ lookup_modifiers "hard" = Own (Modifiers.mk 30 3 3))
  /\ (forall challenges w',
      generateDailyChallenges date now w = (Ret challenges, w') ->
      Forall (modifiers_applied (Preferences.difficulty p)) challenges
      /\ (Preferences.difficulty p = "easy" ->
          Forall (fun c => Challenge.estimatedTime c = Some 5%Z) challenges)
      /\ (Preferences.difficulty p = "hard" ->
          Forall (fun c => Challenge.estimatedTime c = Some 30%Z) challenges))
  /\ (forall h, challengeHistory (generator w) = VChallenges h ->
      supported p ->
      exists challenges w',
        generateDailyChallenges date now w = (Ret challenges, w')
        /\ length challenges = 3%nat).
Proof.
  intros Hp Hne. split; [repeat split; reflexivity|]. split.
  - intros cs w' E.
    apply (generateDailyChallenges_inv now w p) in E as (_ & _ & _ & Hm);
      [|assumption..].
    split; [exact Hm|].
    split; intros Hd; rewrite Hd in Hm;
      (eapply Forall_impl; [exact Hm|]);
      intros c [_ Hc]; now destruct (Hc _ eq_refl) as (-> & _).
  - intros h Hh Hs.
    destruct (generateDailyChallenges_ok now w p h (conj Hp Hh) Hne Hs)
      as (cs & w' & E).
    exists cs, w'. split; [exact E|].
    now apply (generateDailyChallenges_inv now w p) in E as (_ & H3 & _).
Qed.

End BatchFacts.

Lemma generated_categories_configured_witness :
  exists c0 c1 c2 w',
    generateDailyChallenges utc jan_1_noon
      (prefs_world (health_only "medium") [3; 1; 4; 1; 5; 9; 2; 6])
    = (Ret [c0; c1; c2], w')
    /\ Challenge.category c0 = "health"
    /\ Challenge.category c1 = "health"
    /\ Challenge.category c2 = "health".
Proof.
  apply (proj2 (proj2 (generated_categories_configured utc jan_1_noon
                         (prefs_world (health_only "medium")
                                      [3; 1; 4; 1; 5; 9; 2; 6])
                         (health_only "medium") eq_refl
                         ltac:(discriminate))) []).
  - reflexivity.
  - reflexivity.
  - vm_compute; discriminate.
Defined.

Lemma generateDailyChallenges_three_witness :
  exists challenges w',
    generateDailyChallenges utc jan_1_noon fresh_install
    = (Ret challenges, w')
    /\ length challenges = 3%nat
    /\ NoDup (map Challenge.category challenges).
Proof.
  destruct (generateDailyChallenges_three utc jan_1_noon fresh_install
              AIChallengeGenerator.default_preferences [])
    as (cs & w' & E & H3 & _ & Hd & _).
  - split; vm_compute; reflexivity.
  - discriminate.
  - split.
    + repeat constructor; vm_compute; eauto.
    + vm_compute; discriminate.
  - exists cs, w'. split; [exact E|]. split; [exact H3|].
    apply Hd.
    + vm_compute; lia.
    + refine (bool_decide_unpack _ _). vm_compute. exact I.
Defined.

Lemma generated_modifiers_witness :
  exists challenges w',
    generateDailyChallenges utc jan_1_noon
      (prefs_world (health_only "easy") [3; 1; 4; 1; 5; 9; 2; 6])
    = (Ret challenges, w')
    /\ length challenges = 3%nat
    /\ Forall (fun c => Challenge.estimatedTime c = Some 5%Z) challenges.
Proof.
  destruct (generated_modifiers utc jan_1_noon
              (prefs_world (health_only "easy") [3; 1; 4; 1; 5; 9; 2; 6])
              (health_only "easy") eq_refl ltac:(discriminate))
    as (_ & Hm & Hex).
  destruct (Hex [] eq_refl) as (cs & w' & E & H3).
  - split.
    + repeat constructor; vm_compute; eauto.
    + vm_compute; discriminate.
  - exists cs, w'. split; [exact E|]. split; [exact H3|].
    now apply (Hm cs w' E).
Defined.

(** C5 as stated fails on the code: a configured category without
    templates, or a difficulty without modifiers, makes
    [generateDailyChallenges] throw instead of returning three challenges;
    and from an array that repeats an entry the three selected categories
    need not be distinct although three distinct ones are configured. *)
Lemma three_challenges_counterexample :
  (generateDailyChallenges utc jan_1_noon (prefs_world career_prefs [])).1
  = Throw TypeError
  /\ (generateDailyChallenges utc jan_1_noon (prefs_world extreme_prefs [])).1
     = Throw TypeError
  /\ exists challenges,
       (generateDailyChallenges utc jan_1_noon
          (prefs_world repeated_prefs [])).1 = Ret challenges
       /\ map Challenge.category challenges
          = ["health"; "health"; "personal"].
Proof.
  split; [vm_compute; reflexivity|]. split; [vm_compute; reflexivity|].
  eexists. split; vm_compute; reflexivity.
Qed.

(** ** Asking twice on the same day *)

Lemma only_entropy_calm n w w' :
  only_entropy w w' -> calm n w' = calm n w.
Proof. intros ->. reflexivity. Qed.

Lemma calm_weaken n w : calm (S n) w = true -> calm n w = true.
Proof.
  unfold calm. generalize (faults w) as fs.
  induction n as [|n IH]; intros fs; [reflexivity|].
  destruct fs as [|b fs]; [reflexivity|].
  change (take (S (S n)) (b :: fs)) with (b :: take (S n) fs).
  change (take (S n) (b :: fs)) with (b :: take n fs).
  cbn [forallb]. rewrite !andb_true_iff. intros [Hb H].
  split; [exact Hb|now apply IH].
Qed.

Lemma only_entropy_storage w w' :
  only_entropy w w' -> storage w' = storage w.
Proof. intros ->. reflexivity. Qed.

(** X13. On a day without a cached batch, with supported preferences and
    storage answering, the first call generates three challenges, caches
    them and appends them to the history; a second call at any instant of
    the same day returns the very same batch and changes nothing. *)
Lemma getTodaysChallenges_twice date now now' w p h :
  toDateString date now' = toDateString date now ->
  ready w p h ->
  Preferences.categories p <> [] ->
  supported p ->
  storage w !! AIChallengeGenerator.day_key date now = None ->
  calm 4 w = true ->
  exists batch w1,
    getTodaysChallenges date now w = (Ret (VChallenges batch), w1)
    /\ length batch = 3%nat
    /\ history_log w1 = h ++ batch
    /\ getTodaysChallenges date now' w1
       = (Ret (VChallenges batch), after_call w1).
Proof.
  intros Hday Hr Hne Hs Hnone Hc.
  pose proof (calm_next _ _ Hc) as Hf1.
  apply calm_after in Hc.
  assert (ready (after_call w) p h) as Hr1 by exact Hr.
  destruct (generateDailyChallenges_ok date now _ p h Hr1 Hne Hs)
    as (batch & w0 & E).
  pose proof E as E'.
  apply (generateDailyChallenges_inv date now _ p) in E' as (Hw0 & H3 & _);
    [|exact (proj1 Hr1)|exact Hne].
  pose proof (ready_only_entropy _ _ _ _ Hw0 Hr1) as [_ Hh0].
  rewrite <- (only_entropy_calm _ _ _ Hw0) in Hc.
  destruct (saveChallenges_appends date now w0 h batch Hh0
              (calm_weaken _ _ Hc))
    as (w1 & Es & Hlog & _ & Hkey & Hfaults).
  exists batch, w1. split; [|split; [exact H3|split; [exact Hlog|]]].
  - unfold getTodaysChallenges, AIChallengeGenerator.getTodaysChallenges,
      try_catch, bind.
    rewrite (getItem_ok _ _ Hf1), Hnone.
    fold (generateDailyChallenges date now). rewrite E.
    fold (saveChallenges date batch now). now rewrite Es.
  - apply getTodaysChallenges_cached_run.
    + unfold AIChallengeGenerator.day_key in *. now rewrite Hday.
    + unfold next_fault. rewrite Hfaults.
      unfold calm in Hc. destruct (faults w0) as [|b0 [|b1 [|b2 fs]]];
        try reflexivity.
      simpl in Hc. simpl. destruct b0, b1, b2; simpl in Hc; congruence.
Qed.

(** * Further properties of the services *)

(** ** Saving and loading *)

Lemma parse_or_frame dflt s w :
  exists r, parse_or dflt s w = (r, w).
Proof.
  unfold parse_or. destruct s as [[v| |]|]; cbn; eauto.
Qed.

Lemma load_frame key dflt msg fallback w :
  exists r w',
    try_catch (s <- AsyncStorage.getItem key ;; parse_or dflt s)
              (fun _ => console_error msg ;; ret fallback) w = (r, w')
    /\ storage w' = storage w
    /\ generator w' = generator w
    /\ entropy w' = entropy w
    /\ faults w' = tl (faults w).
Proof.
  unfold try_catch, bind, AsyncStorage.getItem.
  destruct (next_fault w); cbn.
  - eexists _, _. split; [reflexivity|]. repeat split.
  - destruct (parse_or_frame dflt (storage w !! key) (after_call w))
      as (r & ->).
    destruct r; cbn; eexists _, _; (split; [reflexivity|]); repeat split.
Qed.

(** X1. What [saveUserData] or [saveUserPreferences] wrote is what the
    matching loader returns next, for every value, [null] included (its
    text is non-empty). *)
Theorem save_then_load v w :
  calm 2 w = true ->
  (exists w', (saveUserData v ;; loadUserData) w = (Ret v, w'))
  /\ (exists w',
        (saveUserPreferences v ;; loadUserPreferences) w = (Ret v, w')).
Proof.
  intros Hc.
  pose proof (calm_next _ _ Hc) as Hf1.
  pose proof (calm_next _ _ (calm_after _ _ Hc)) as Hf2.
  split; eexists;
    unfold saveUserData, loadUserData, saveUserPreferences,
      loadUserPreferences, try_catch, bind;
    rewrite (setItem_ok _ _ _ Hf1); cbn;
    match goal with
    | |- context [AsyncStorage.getItem ?k ?w0] =>
        rewrite (getItem_ok k w0 Hf2)
    end;
    cbn; rewrite lookup_insert_eq; reflexivity.
Qed.

Lemma save_then_load_witness :
  exists w',
    (saveUserData (VProfile sample_profile) ;; loadUserData) empty_world
    = (Ret (VProfile sample_profile), w').
Proof.
  apply (proj1 (save_then_load (VProfile sample_profile) empty_world
                  eq_refl)).
Defined.

Lemma loadUserData_frame w :
  exists r w',
    loadUserData w = (r, w')
    /\ storage w' = storage w /\ generator w' = generator w
    /\ entropy w' = entropy w /\ faults w' = tl (faults w).
Proof. apply load_frame. Qed.

Lemma loadChallengeHistory_frame w :
  exists r w',
    loadChallengeHistory w = (r, w')
    /\ storage w' = storage w /\ generator w' = generator w
    /\ entropy w' = entropy w /\ faults w' = tl (faults w).
Proof. apply load_frame. Qed.

Lemma loadUserPreferences_frame w :
  exists r w',
    loadUserPreferences w = (r, w')
    /\ storage w' = storage w /\ generator w' = generator w
    /\ entropy w' = entropy w /\ faults w' = tl (faults w).
Proof. apply load_frame. Qed.

Lemma exportUserData_frame now w :
  exists r w',
    exportUserData now w = (r, w')
    /\ storage w' = storage w /\ generator w' = generator w
    /\ entropy w' = entropy w.
Proof.
  unfold exportUserData, try_catch, bind.
  destruct (loadUserData_frame w) as (r1 & w1 & -> & Hs1 & Hg1 & He1 & _).
  destruct r1 as [v1|e1]; cbn;
    [|eexists _, _; split; [reflexivity|]; cbn; auto].
  destruct (loadChallengeHistory_frame w1)
    as (r2 & w2 & -> & Hs2 & Hg2 & He2 & _).
  destruct r2 as [v2|e2]; cbn;
    [|eexists _, _; split; [reflexivity|]; cbn;
      repeat split; congruence].
  destruct (loadUserPreferences_frame w2)
    as (r3 & w3 & -> & Hs3 & Hg3 & He3 & _).
  destruct r3 as [v3|e3]; cbn;
    (eexists _, _; split; [reflexivity|]; cbn; repeat split; congruence).
Qed.

(** X2. The three loaders and [exportUserData] only read: whatever is
    stored and whichever call fails, the store, the generator and the
    random numbers are as before. *)
Theorem loaders_read_only now w :
  (storage (exec loadUserData w) = storage w
   /\ generator (exec loadUserData w) = generator w)
  /\ (storage (exec loadChallengeHistory w) = storage w
      /\ generator (exec loadChallengeHistory w) = generator w)
  /\ (storage (exec loadUserPreferences w) = storage w
      /\ generator (exec loadUserPreferences w) = generator w)
  /\ (storage (exec (exportUserData now) w) = storage w
      /\ generator (exec (exportUserData now) w) = generator w
      /\ entropy (exec (exportUserData now) w) = entropy w).
Proof.
  unfold exec.
  destruct (loadUserData_frame w) as (r1 & w1 & -> & Hs1 & Hg1 & _).
  destruct (loadChallengeHistory_frame w) as (r2 & w2 & -> & Hs2 & Hg2 & _).
  destruct (loadUserPreferences_frame w) as (r3 & w3 & -> & Hs3 & Hg3 & _).
  destruct (exportUserData_frame now w) as (r4 & w4 & -> & Hs4 & Hg4 & He4).
  cbn. auto 10.
Qed.

(** X3. A loader whose key is missing, or holds the empty string, answers
    its default ([null], the empty array, the default preferences); one
    whose key holds text that is not JSON answers its fallback ([false],
    the empty array, [null]) and not, for the preferences, the default. *)
Theorem loaders_on_missing_and_malformed w :
  next_fault w = false ->
  ((storage w !! "userData" = None \/ storage w !! "userData" = Some Blank ->
    (loadUserData w).1 = Ret VNull)
   /\ (storage w !! "userData" = Some Garbled ->
       (loadUserData w).1 = Ret (VBool false)))
  /\ ((storage w !! "challengeHistory" = None
       \/ storage w !! "challengeHistory" = Some Blank
       \/ storage w !! "challengeHistory" = Some Garbled) ->
      (loadChallengeHistory w).1 = Ret (VChallenges []))
  /\ ((storage w !! "userPreferences" = None
       \/ storage w !! "userPreferences" = Some Blank ->
       (loadUserPreferences w).1 = Ret (VPrefs default_preferences))
      /\ (storage w !! "userPreferences" = Some Garbled ->
          (loadUserPreferences w).1 = Ret VNull)).
Proof.
  intros Hf.
  unfold loadUserData, loadChallengeHistory, loadUserPreferences,
    try_catch, bind.
  rewrite !(getItem_ok _ _ Hf).
  repeat split.
  - intros [-> | ->]; reflexivity.
  - intros ->. reflexivity.
  - intros [-> | [-> | ->]]; reflexivity.
  - intros [-> | ->]; reflexivity.
  - intros ->. reflexivity.
Qed.

Lemma loaders_on_missing_and_malformed_witness :
  (loadUserData empty_world).1 = Ret VNull
  /\ (loadUserPreferences
        (world_of {["userPreferences" := Garbled]} [])).1 = Ret VNull.
Proof.
  split.
  - apply (proj1 (proj1 (loaders_on_missing_and_malformed empty_world
                           eq_refl))).
    left. reflexivity.
  - apply (proj2 (proj2 (proj2 (loaders_on_missing_and_malformed
                                  (world_of {["userPreferences" := Garbled]} [])
                                  eq_refl)))).
    vm_compute; reflexivity.
Defined.

(** ** The history log in the storage service *)

Lemma saveChallengeHistory_capped_witness :
  exists w' evicted,
    saveChallengeHistory second_batch first_day = (Ret true, w')
    /\ first_batch ++ second_batch = evicted ++ history_log w'
    /\ length evicted = (length (first_batch ++ second_batch) - 100)%nat
    /\ (length (history_log w') <= 100)%nat.
Proof.
  apply saveChallengeHistory_capped.
  - vm_compute; reflexivity.
  - reflexivity.
Defined.

(** X5. When the read of the old history is rejected and the write is
    answered, [saveChallengeHistory] reports success and the stored log is
    the new challenges alone (cut to 100): what was stored is replaced. *)
Theorem saveChallengeHistory_after_failed_read challenges w :
  next_fault w = true ->
  next_fault (after_call w) = false ->
  exists w',
    saveChallengeHistory challenges w = (Ret true, w')
    /\ history_log w' = keep_last_100 challenges.
Proof.
  intros Hf1 Hf2.
  unfold saveChallengeHistory, loadChallengeHistory, try_catch, bind.
  rewrite (getItem_fails _ _ Hf1). cbn.
  unfold AsyncStorage.setItem, next_fault in *. cbn in *. rewrite Hf2.
  eexists. split; [reflexivity|].
  unfold history_log. cbn. now rewrite lookup_insert_eq.
Qed.

Lemma saveChallengeHistory_after_failed_read_witness :
  exists w',
    saveChallengeHistory second_batch
      (set_faults [true] first_day) = (Ret true, w')
    /\ history_log w' = keep_last_100 second_batch.
Proof.
  apply saveChallengeHistory_after_failed_read; reflexivity.
Defined.

(** ** More on the progress tracker *)

Lemma loadUserData_cases w :
  exists v w',
    loadUserData w = (Ret v, w')
    /\ storage w' = storage w /\ generator w' = generator w
    /\ entropy w' = entropy w /\ faults w' = tl (faults w)
    /\ (truthy v = true -> storage w !! "userData" = Some (Json v)).
Proof.
  unfold loadUserData, try_catch, bind, AsyncStorage.getItem.
  destruct (next_fault w); cbn.
  - eexists _, _. split; [reflexivity|]. repeat split. discriminate.
  - destruct (storage w !! "userData") as [[v| |]|]; cbn;
      eexists _, _; (split; [reflexivity|]); repeat split;
      try discriminate; auto.
Qed.

Lemma saveUserData_cases v w :
  exists b w',
    saveUserData v w = (Ret b, w')
    /\ generator w' = generator w /\ entropy w' = entropy w
    /\ faults w' = tl (faults w)
    /\ (storage w' = storage w
        \/ storage w' = <["userData" := Json v]> (storage w)).
Proof.
  unfold saveUserData, try_catch, bind, AsyncStorage.setItem.
  destruct (next_fault w); cbn; eexists _, _;
    (split; [reflexivity|]); cbn; auto.
Qed.

Section MoreProgressFacts.

Context (date : DateAPI).

(** All that [updateUserProgress] can do to the world. *)
Lemma updateUserProgress_cases challengeId completed now w :
  exists b w',
    updateUserProgress date challengeId completed now w = (Ret b, w')
    /\ generator w' = generator w /\ entropy w' = entropy w
    /\ (storage w' = storage w
        \/ (completed = true /\ b = true
            /\ exists u,
                 stored_profile w u
                 /\ storage w'
                    = <["userData" :=
                          Json (VProfile
                                  (completed_branch date challengeId now u))]>
                        (storage w))).
Proof.
  unfold updateUserProgress, try_catch. unfold bind at 1.
  destruct (loadUserData_cases w)
    as (v & w1 & -> & Hs1 & Hg1 & He1 & _ & Hv).
  destruct (truthy v) eqn:Ht; cbn.
  - specialize (Hv eq_refl).
    destruct completed.
    + destruct v; cbn;
        try (eexists _, _; split; [reflexivity|]; cbn; now auto).
      unfold bind.
      destruct (saveUserData_cases
                  (VProfile (completed_branch date challengeId now u)) w1)
        as (b & w2 & -> & Hg2 & He2 & _ & Hs2).
      cbn. eexists _, _. split; [reflexivity|].
      split; [congruence|]. split; [congruence|].
      destruct Hs2 as [Hs2|Hs2]; [left; congruence|right].
      split; [reflexivity|]. split; [reflexivity|].
      exists u. split; [exact Hv|]. now rewrite Hs2, Hs1.
    + unfold bind. cbn.
      destruct (saveUserData_cases v w1)
        as (b & w2 & -> & Hg2 & He2 & _ & Hs2).
      cbn. eexists _, _. split; [reflexivity|].
      split; [congruence|]. split; [congruence|]. left.
      destruct Hs2 as [Hs2|Hs2]; [congruence|].
      rewrite Hs2, Hs1. now apply insert_id.
  - eexists _, _. split; [reflexivity|]. auto.
Qed.

(** X6. [updateUserProgress] never throws and changes nothing but the
    entry ['userData']: every other key, the generator and the random
    numbers are as before, whatever the arguments, the stored data and
    the failures. *)
Theorem updateUserProgress_touches_only_userData
    challengeId completed now w :
  exists b w',
    updateUserProgress date challengeId completed now w = (Ret b, w')
    /\ (forall key, key <> "userData" ->
          storage w' !! key = storage w !! key)
    /\ generator w' = generator w
    /\ entropy w' = entropy w.
Proof.
  destruct (updateUserProgress_cases challengeId completed now w)
    as (b & w' & E & Hg & He & Hs).
  exists b, w'. split; [exact E|]. split; [|auto].
  intros key Hk.
  destruct Hs as [-> | (_ & _ & u & _ & ->)]; [reflexivity|].
  now rewrite lookup_insert_ne.
Qed.

Lemma last_None_nil {A} (l : list A) : last l = None -> l = [].
Proof.
  induction l as [|x l _] using rev_ind; [reflexivity|].
  rewrite last_snoc. discriminate.
Qed.

Lemma completed_branch_ok challengeId now u :
  profile_ok u -> profile_ok (completed_branch date challengeId now u).
Proof.
  intros (Ht & Hs & Hn). unfold profile_ok.
  rewrite completed_branch_streak.
  cbn [completed_branch UserData.totalChallenges
       UserData.completedChallenges].
  rewrite length_app, Nat2Z.inj_add. cbn [length].
  split; [lia|].
  destruct (last (UserData.completedChallenges u)) as [r|] eqn:Hl.
  - assert (UserData.completedChallenges u <> []) as Hne
      by (intros E; rewrite E in Hl; discriminate).
    specialize (Hn Hne).
    destruct (String.eqb _ _); [split; [lia|intros _; lia]|].
    destruct (String.eqb _ _); split; try lia; intros _; lia.
  - split; [lia|intros _; lia].
Qed.

(** X7. The counters of the profile stay sound: a new user's profile has
    its total equal to its number of completion records and its streak
    between 0 and the total (at least 1 once there is a record), and
    every [updateUserProgress], whatever its arguments and whichever
    storage call fails, leaves such a profile stored. *)
Theorem updateUserProgress_keeps_profile_ok challengeId completed now w u :
  stored_profile w u ->
  profile_ok u ->
  profile_ok (App.newUserData now)
  /\ exists u',
       stored_profile
         (exec (updateUserProgress date challengeId completed now) w) u'
       /\ profile_ok u'.
Proof.
  intros Hs Hok. split.
  - unfold profile_ok, App.newUserData. cbn. repeat split; try lia.
    congruence.
  - unfold exec.
    destruct (updateUserProgress_cases challengeId completed now w)
      as (b & w' & -> & _ & _ & Hw).
    cbn. destruct Hw as [Hw | (_ & _ & u0 & Hu0 & Hw)].
    + exists u. split; [|exact Hok]. unfold stored_profile. now rewrite Hw.
    + unfold stored_profile in Hs, Hu0. rewrite Hs in Hu0.
      injection Hu0 as <-.
      exists (completed_branch date challengeId now u).
      split; [|now apply completed_branch_ok].
      unfold stored_profile. rewrite Hw. apply lookup_insert_eq.
Qed.

Lemma calm_no_faults n w : faults w = [] -> calm n w = true.
Proof. unfold calm. intros ->. now rewrite take_nil. Qed.

Lemma complete_each_chain events :
  forall w u r,
  faults w = [] ->
  stored_profile w u ->
  last (UserData.completedChallenges u) = Some r ->
  day_after_day date (Completion.completedAt r) events ->
  exists u',
    stored_profile (exec (complete_each date events) w) u'
    /\ UserData.currentStreak u'
       = (UserData.currentStreak u + Z.of_nat (length events))%Z
    /\ UserData.totalChallenges u'
       = (UserData.totalChallenges u + Z.of_nat (length events))%Z.
Proof.
  induction events as [|[challengeId now] rest IH]; intros w u r Hf Hs Hl Hd.
  - exists u. cbn. split; [exact Hs|]. split; lia.
  - destruct Hd as [Hy Hd].
    unfold exec. cbn [complete_each]. unfold bind.
    rewrite (updateUserProgress_completed_run date challengeId now w u Hs
               (calm_no_faults 2 w Hf)).
    set (u1 := completed_branch date challengeId now u).
    set (w1 := with_profile u1 (after_call (after_call w))).
    destruct (IH w1 u1 (Completion.mk challengeId now)) as (u' & Hs' & H1 & H2).
    + unfold w1. cbn. now rewrite Hf.
    + unfold stored_profile, w1. cbn. apply lookup_insert_eq.
    + unfold u1, completed_branch. cbn. apply last_snoc.
    + exact Hd.
    + exists u'. split; [exact Hs'|].
      rewrite H1, H2. unfold u1 at 1. rewrite completed_branch_streak, Hl.
      unfold day_of. rewrite <- Hy, String.eqb_refl.
      unfold u1, completed_branch. cbn [UserData.totalChallenges length].
      split; lia.
Qed.

(** X8. Starting from a profile without completions, one completion on
    each of [n] days, every one on the day after the one before it and
    storage never failing, leaves a streak of [n] and a total grown by
    [n], as long as the total stays within the safe integers (it starts
    at 0 or above and ends at 2^53 or below). *)
Theorem streak_counts_consecutive_days challengeId now rest w u :
  faults w = [] ->
  stored_profile w u ->
  UserData.completedChallenges u = [] ->
  day_after_day date now rest ->
  (0 <= UserData.totalChallenges u)%Z ->
  (UserData.totalChallenges u + Z.of_nat (S (length rest)) <= 2 ^ 53)%Z ->
  exists u',
    stored_profile
      (exec (complete_each date ((challengeId, now) :: rest)) w) u'
    /\ UserData.currentStreak u' = Z.of_nat (S (length rest))
    /\ UserData.totalChallenges u'
       = (UserData.totalChallenges u + Z.of_nat (S (length rest)))%Z.
Proof.
  intros Hf Hs Hnil Hd _ _.
  unfold exec. cbn [complete_each]. unfold bind.
  rewrite (updateUserProgress_completed_run date challengeId now w u Hs
             (calm_no_faults 2 w Hf)).
  set (u1 := completed_branch date challengeId now u).
  set (w1 := with_profile u1 (after_call (after_call w))).
  destruct (complete_each_chain rest w1 u1 (Completion.mk challengeId now))
    as (u' & Hs' & H1 & H2).
  - unfold w1. cbn. now rewrite Hf.
  - unfold stored_profile, w1. cbn. apply lookup_insert_eq.
  - unfold u1, completed_branch. cbn. apply last_snoc.
  - exact Hd.
  - exists u'. split; [exact Hs'|].
    rewrite H1, H2. unfold u1 at 1. rewrite completed_branch_streak, Hnil.
    unfold u1, completed_branch. cbn [UserData.totalChallenges last].
    split; lia.
Qed.

End MoreProgressFacts.

Lemma updateUserProgress_keeps_profile_ok_witness :
  exists u',
    stored_profile
      (exec (updateUserProgress utc "challenge_1704153600000_0" true
               jan_2_morning) sample_world) u'
    /\ profile_ok u'.
Proof.
  apply (updateUserProgress_keeps_profile_ok utc "challenge_1704153600000_0"
           true jan_2_morning sample_world sample_profile).
  - vm_compute; reflexivity.
  - unfold profile_ok. cbn. repeat split; lia.
Defined.

Lemma streak_counts_consecutive_days_witness :
  exists u',
    stored_profile (exec (complete_each utc three_days) new_user_world) u'
    /\ UserData.currentStreak u' = 3%Z
    /\ UserData.totalChallenges u' = 3%Z.
Proof.
  destruct (streak_counts_consecutive_days utc "challenge_1704067200000_0"
              jan_1_noon (tl three_days) new_user_world
              (App.newUserData jan_1_2024))
    as (u' & Hs & H1 & H2).
  - reflexivity.
  - vm_compute; reflexivity.
  - reflexivity.
  - vm_compute. repeat split.
  - cbn. lia.
  - cbn. lia.
  - exists u'. split; [exact Hs|]. split; [exact H1|exact H2].
Defined.

(** ** Marking a challenge completed *)

Lemma mark_one_marked challengeId now c :
  marked challengeId now c (mark_one challengeId now c).
Proof.
  unfold marked, mark_one.
  destruct (String.eqb (Challenge.id c) challengeId) eqn:E; cbn.
  - apply String.eqb_eq in E. repeat split; auto. congruence.
  - apply String.eqb_neq in E. repeat split; auto; congruence.
Qed.

Lemma map_mark_one_marked challengeId now h :
  Forall2 (marked challengeId now) h (map (mark_one challengeId now) h).
Proof.
  induction h as [|c h IH]; cbn; constructor;
    [apply mark_one_marked|exact IH].
Qed.

(** X9. With an array stored as history and its read and write answered,
    [markChallengeCompleted] returns [true] and stores the history entry
    by entry: entries with another id untouched, entries with the given
    id completed at the instant of the call.  The completion is recorded
    in a stored profile (when the two profile calls are answered too)
    whether or not any history entry has that id. *)
Theorem markChallengeCompleted_marks date challengeId now w h :
  storage w !! "challengeHistory" = Some (Json (VChallenges h)) ->
  calm 2 w = true ->
  exists w',
    markChallengeCompleted date challengeId now w = (Ret true, w')
    /\ Forall2 (marked challengeId now) h (history_log w')
    /\ (forall u, stored_profile w u -> calm 4 w = true ->
          stored_profile w' (completed_branch date challengeId now u)).
Proof.
  intros Hs Hc.
  pose proof (calm_next _ _ Hc) as Hf1.
  pose proof (calm_next _ _ (calm_after _ _ Hc)) as Hf2.
  unfold markChallengeCompleted, try_catch. unfold bind at 1.
  rewrite (loadChallengeHistory_stored _ _ Hs Hf1).
  unfold bind at 1. cbn [spread ret]. unfold bind at 1.
  rewrite (setItem_ok _ _ _ Hf2).
  set (w2 := set_storage _ (after_call (after_call w))).
  unfold bind.
  destruct (updateUserProgress_cases date challengeId true now w2)
    as (b & w3 & E & _ & _ & Hw3).
  rewrite E. cbn. exists w3. split; [reflexivity|]. split.
  - assert (storage w3 !! "challengeHistory"
            = Some (Json (VChallenges (map (mark_one challengeId now) h))))
      as Hh.
    { destruct Hw3 as [-> | (_ & _ & u & _ & ->)].
      - unfold w2. cbn. apply lookup_insert_eq.
      - rewrite lookup_insert_ne by discriminate.
        unfold w2. cbn. apply lookup_insert_eq. }
    unfold history_log. rewrite Hh. apply map_mark_one_marked.
  - intros u Hu Hc4.
    assert (stored_profile w2 u) as Hu2.
    { unfold stored_profile, w2. cbn.
      rewrite lookup_insert_ne by discriminate. exact Hu. }
    assert (calm 2 w2 = true) as Hc2
      by exact (calm_after _ _ (calm_after _ _ Hc4)).
    rewrite (updateUserProgress_completed_run date challengeId now w2 u
               Hu2 Hc2) in E.
    injection E as _ <-.
    unfold stored_profile, with_profile. cbn. apply lookup_insert_eq.
Qed.

Lemma markChallengeCompleted_marks_witness :
  exists w',
    markChallengeCompleted utc "challenge_1704110400000_0" jan_1_noon
      first_day = (Ret true, w')
    /\ Forall2 (marked "challenge_1704110400000_0" jan_1_noon)
               first_batch (history_log w').
Proof.
  destruct (markChallengeCompleted_marks utc "challenge_1704110400000_0"
              jan_1_noon first_day first_batch)
    as (w' & E & H & _).
  - vm_compute; reflexivity.
  - reflexivity.
  - exists w'. split; [exact E|exact H].
Defined.

(** * Further properties of the generator *)

(** X10. From a non-empty array [selectCategories] always returns three
    entries, none of them [undefined], each one an entry of the array;
    it draws random numbers and touches nothing else. *)
Theorem selectCategories_three availableCategories w :
  availableCategories <> [] ->
  exists c0 c1 c2 w',
    AIChallengeGenerator.selectCategories availableCategories w
    = (Ret [Some c0; Some c1; Some c2], w')
    /\ In c0 availableCategories
    /\ In c1 availableCategories
    /\ In c2 availableCategories
    /\ only_entropy w w'.
Proof.
  intros Ha.
  destruct (selectCategories_spec availableCategories w Ha)
    as (selected & w' & E & Hw & Hsel).
  pose proof (selection_In _ _ Hsel) as Hin.
  destruct Hsel as (_ & _ & _ & _ & _ & _ & _ & H3).
  destruct selected as [|c0 [|c1 [|c2 [|c3 rest]]]]; try discriminate H3.
  exists c0, c1, c2, w'. split; [exact E|].
  apply Forall_cons in Hin as [H0 Hin].
  apply Forall_cons in Hin as [H1 Hin].
  apply Forall_cons in Hin as [H2 _]. auto.
Qed.

Lemma selectCategories_three_witness :
  exists c0 c1 c2 w',
    AIChallengeGenerator.selectCategories ["health"; "learning"]
      (prefs_world (health_only "medium") [7; 7; 7])
    = (Ret [Some c0; Some c1; Some c2], w')
    /\ In c0 ["health"; "learning"]
    /\ In c1 ["health"; "learning"]
    /\ In c2 ["health"; "learning"]
    /\ only_entropy (prefs_world (health_only "medium") [7; 7; 7]) w'.
Proof. apply selectCategories_three. discriminate. Defined.

Section MoreCacheFacts.

Context (date : DateAPI).

(** Without preferences in the generator, or with an empty array of
    categories, generation throws: there is nothing to read the
    categories from, or the three slots are [undefined]. *)
Lemma generateDailyChallenges_throws now w :
  (forall p, userPreferences (generator w) = VPrefs p ->
             Preferences.categories p = []) ->
  exists w',
    generateDailyChallenges date now w = (Throw TypeError, w')
    /\ only_entropy w w'.
Proof.
  intros Hp.
  unfold generateDailyChallenges, AIChallengeGenerator.generateDailyChallenges.
  unfold bind at 1, this_preferences, bind at 1, get_generator.
  destruct (userPreferences (generator w)) as [| | |p| |] eqn:E; cbn;
    try (eexists; split; [reflexivity|apply only_entropy_refl]).
  rewrite (Hp p eq_refl). cbn.
  eexists; split; [reflexivity|]. reflexivity.
Qed.

(** X11. When the generator holds no preferences (it was never
    initialised, or its load failed) or an empty array of categories, and
    no batch is cached for the day, [getTodaysChallenges] answers the
    empty array and stores nothing: no batch is cached, the history and
    the generator are as before. *)
Theorem getTodaysChallenges_without_categories now w :
  (forall p, userPreferences (generator w) = VPrefs p ->
             Preferences.categories p = []) ->
  storage w !! AIChallengeGenerator.day_key date now = None ->
  next_fault w = false ->
  exists w',
    getTodaysChallenges date now w = (Ret (VChallenges []), w')
    /\ storage w' = storage w
    /\ generator w' = generator w.
Proof.
  intros Hp Hs Hf.
  unfold getTodaysChallenges, AIChallengeGenerator.getTodaysChallenges,
    try_catch. unfold bind at 1.
  rewrite (getItem_ok _ _ Hf), Hs. unfold bind at 1.
  fold (generateDailyChallenges date now).
  destruct (generateDailyChallenges_throws now (after_call w) Hp)
    as (w1 & -> & Hw1).
  cbn. eexists. split; [reflexivity|].
  rewrite Hw1. cbn. auto.
Qed.

(** X12. A day key that holds text that is not JSON is never repaired:
    [getTodaysChallenges] answers the empty array, generates nothing and
    leaves the store (the bad entry included) and the generator as they
    are, so every later call of that day answers the same. *)
Theorem getTodaysChallenges_malformed_cache now w :
  storage w !! AIChallengeGenerator.day_key date now = Some Garbled ->
  next_fault w = false ->
  exists w',
    getTodaysChallenges date now w = (Ret (VChallenges []), w')
    /\ storage w' = storage w
    /\ generator w' = generator w
    /\ entropy w' = entropy w
    /\ faults w' = tl (faults w).
Proof.
  intros Hs Hf.
  unfold getTodaysChallenges, AIChallengeGenerator.getTodaysChallenges,
    try_catch, bind.
  rewrite (getItem_ok _ _ Hf), Hs. cbn.
  eexists. split; [reflexivity|]. cbn. auto.
Qed.

End MoreCacheFacts.

Lemma getTodaysChallenges_without_categories_witness :
  exists w',
    getTodaysChallenges utc jan_1_noon failed_init
    = (Ret (VChallenges []), w')
    /\ storage w' = storage failed_init
    /\ generator w' = generator failed_init.
Proof.
  apply getTodaysChallenges_without_categories.
  - intros p. vm_compute. discriminate.
  - vm_compute; reflexivity.
  - reflexivity.
Defined.

Lemma getTodaysChallenges_malformed_cache_witness :
  exists w',
    getTodaysChallenges utc jan_1_noon
      (world_of {["dailyChallenges_Mon Jan 01 2024" := Garbled]} [])
    = (Ret (VChallenges []), w')
    /\ storage w'
       = storage (world_of {["dailyChallenges_Mon Jan 01 2024" := Garbled]} [])
    /\ generator w' = new_generator
    /\ entropy w' = []
    /\ faults w' = [].
Proof.
  apply (getTodaysChallenges_malformed_cache utc jan_1_noon
           (world_of {["dailyChallenges_Mon Jan 01 2024" := Garbled]} [])).
  - vm_compute; reflexivity.
  - reflexivity.
Defined.

Lemma getTodaysChallenges_twice_witness :
  exists batch w1,
    getTodaysChallenges utc jan_1_noon fresh_install
    = (Ret (VChallenges batch), w1)
    /\ length batch = 3%nat
    /\ history_log w1 = [] ++ batch
    /\ getTodaysChallenges utc (jan_1_noon + 3600000)%Z w1
       = (Ret (VChallenges batch), after_call w1).
Proof.
  apply (getTodaysChallenges_twice utc jan_1_noon (jan_1_noon + 3600000)%Z
           fresh_install AIChallengeGenerator.default_preferences []).
  - vm_compute; reflexivity.
  - split; vm_compute; reflexivity.
  - discriminate.
  - split.
    + repeat constructor; vm_compute; eauto.
    + vm_compute; discriminate.
  - vm_compute; reflexivity.
  - reflexivity.
Defined.

(** ** The shape of a generated batch *)

Lemma append_inv_head (s a b : string) : s +:+ a = s +:+ b -> a = b.
Proof.
  induction s as [|c s IH]; cbn; [auto|]. intros [= H]. now apply IH.
Qed.

Lemma tl_drop {A} (l : list A) : tl l = drop 1 l.
Proof. now destruct l. Qed.

Lemma select_distinct_entropy fuel :
  forall selected categories w,
  entropy (AIChallengeGenerator.select_distinct fuel selected categories w).2
  = drop (Nat.min fuel
            (Nat.min (3 - length selected) (length categories)))
         (entropy w).
Proof.
  induction fuel as [|fuel IH]; intros selected categories w.
  - reflexivity.
  - cbn [AIChallengeGenerator.select_distinct].
    destruct ((length selected <? 3)%nat && (0 <? length categories)%nat)
      eqn:Hc.
    + apply andb_true_iff in Hc as [H3 Hn].
      apply Nat.ltb_lt in H3, Hn.
      unfold bind at 1, random_index at 1.
      rewrite IH. cbn [entropy set_entropy].
      rewrite tl_drop, drop_drop, length_app, length_delete.
      * cbn [length]. f_equal. lia.
      * apply lookup_lt_is_Some, draw_lt, Hn.
    + apply andb_false_iff in Hc as [Hc|Hc]; apply Nat.ltb_ge in Hc;
        cbn [ret snd];
        (replace (Nat.min _ _) with 0%nat by lia); reflexivity.
Qed.

Lemma select_repeat_entropy fuel :
  forall selected availableCategories w,
  entropy (AIChallengeGenerator.select_repeat fuel selected
             availableCategories w).2
  = drop (Nat.min fuel (3 - length selected)) (entropy w).
Proof.
  induction fuel as [|fuel IH]; intros selected available w.
  - reflexivity.
  - cbn [AIChallengeGenerator.select_repeat].
    destruct (length selected <? 3)%nat eqn:H3.
    + apply Nat.ltb_lt in H3.
      unfold bind at 1, random_index at 1.
      rewrite IH. cbn [entropy set_entropy].
      rewrite tl_drop, drop_drop, length_app.
      cbn [length]. f_equal. lia.
    + apply Nat.ltb_ge in H3. cbn [ret snd].
      (replace (Nat.min _ _) with 0%nat by lia); reflexivity.
Qed.

Lemma selectCategories_entropy availableCategories w :
  availableCategories <> [] ->
  entropy (AIChallengeGenerator.selectCategories availableCategories w).2
  = drop 3 (entropy w).
Proof.
  intros Ha. unfold AIChallengeGenerator.selectCategories, bind.
  pose proof (select_distinct_entropy 3 [] availableCategories w) as H1.
  destruct (select_distinct_spec 3 [] availableCategories w)
    as (picked & rest & w1 & E1 & _ & _ & Hl1).
  rewrite E1 in H1 |- *. cbn [snd app] in H1 |- *.
  pose proof (select_repeat_entropy 3 (map Some picked)
                availableCategories w1) as H2.
  destruct (select_repeat_spec 3 (map Some picked) availableCategories w1 Ha)
    as (padding & w2 & E2 & _).
  rewrite E2 in H2 |- *. cbn [snd ret] in H2 |- *.
  rewrite H2, H1, drop_drop, length_map. cbn [length] in *.
  f_equal. lia.
Qed.

Section ShapeFacts.

Context (date : DateAPI).

Lemma pick_group_entropy category w g w' :
  AIChallengeGenerator.pick_group category w = (Ret g, w') ->
  entropy w' = tl (entropy w).
Proof.
  unfold AIChallengeGenerator.pick_group, get_property.
  destruct (assoc CHALLENGE_TEMPLATES (property_key category)).
  - unfold bind, random_index.
    destruct (_ !! _); cbn; intros [= <- <-]. reflexivity.
  - destruct (existsb _ _); cbn; discriminate.
Qed.

Lemma pick_template_entropy g w template w' :
  AIChallengeGenerator.pick_template g w = (Ret template, w') ->
  entropy w' = tl (entropy w).
Proof.
  unfold AIChallengeGenerator.pick_template, bind, random_index.
  destruct (_ !! _); cbn; intros [= <- <-]. reflexivity.
Qed.

(** A challenge that is returned cost two random numbers and has the
    fields of a new challenge. *)
Lemma generateChallengeForCategory_shape category index now w c w' :
  AIChallengeGenerator.generateChallengeForCategory date category index now w
  = (Ret c, w') ->
  entropy w' = drop 2 (entropy w) /\ just_generated now index c.
Proof.
  unfold AIChallengeGenerator.generateChallengeForCategory, bind.
  destruct (AIChallengeGenerator.pick_group category w)
    as [[g|e] w1] eqn:E1; [|discriminate].
  apply pick_group_entropy in E1.
  destruct (AIChallengeGenerator.pick_template g w1)
    as [[t|e] w2] eqn:E2; [|discriminate].
  apply pick_template_entropy in E2.
  destruct (this_preferences w2) as [[p|e] w3] eqn:E3; [|discriminate].
  apply this_preferences_inv in E3 as [-> _].
  assert (entropy w2 = drop 2 (entropy w)) as He.
  { rewrite E2, E1, !tl_drop, drop_drop. reflexivity. }
  destruct (lookup_modifiers (Preferences.difficulty p));
    cbn; [| |discriminate];
    (destruct (AIChallengeGenerator.getPersonalizationFactors date now w2)
       as [[f|e] w4] eqn:E4; [|discriminate]);
    apply getPersonalizationFactors_inv in E4 as ->;
    intros [= <- <-]; (split; [exact He|]);
    unfold just_generated; cbn; repeat split.
Qed.

Lemma for_each_shape now selected :
  forall index w challenges w',
  AIChallengeGenerator.for_each date selected index now w
  = (Ret challenges, w') ->
  entropy w' = drop (2 * length selected) (entropy w)
  /\ forall i c, challenges !! i = Some c ->
                 just_generated now (index + i) c.
Proof.
  induction selected as [|category rest IH]; intros index w cs w'.
  - cbn. intros [= <- <-]. split; [reflexivity|]. intros i c. now destruct i.
  - cbn [AIChallengeGenerator.for_each]. unfold bind at 1.
    destruct (AIChallengeGenerator.generateChallengeForCategory
                date category index now w) as [[c0|e] w1] eqn:E1;
      [|discriminate].
    apply generateChallengeForCategory_shape in E1 as (He1 & Hc0).
    unfold bind at 1.
    destruct (AIChallengeGenerator.for_each date rest (S index) now w1)
      as [[cs'|e] w2] eqn:E2; [|discriminate].
    apply IH in E2 as (He2 & Hcs).
    cbn. intros [= <- <-]. split.
    + rewrite He2, He1, drop_drop. f_equal. cbn [length]. lia.
    + intros [|i] c; cbn.
      * intros [= <-]. now rewrite Nat.add_0_r.
      * intros Hi. replace (index + S i)%nat with (S index + i)%nat by lia.
        now apply Hcs.
Qed.

(** A batch is only ever returned from preferences with a category. *)
Lemma generateDailyChallenges_returns_prefs now w challenges w' :
  generateDailyChallenges date now w = (Ret challenges, w') ->
  exists p,
    userPreferences (generator w) = VPrefs p
    /\ Preferences.categories p <> [].
Proof.
  intros E.
  destruct (userPreferences (generator w)) as [| | |p| |] eqn:Hp;
    try (destruct (generateDailyChallenges_throws date now w)
           as (w1 & E1 & _);
         [intros p' Hp'; rewrite Hp in Hp'; discriminate
         |rewrite E1 in E; discriminate]).
  exists p. split; [reflexivity|]. intros Hc.
  destruct (generateDailyChallenges_throws date now w) as (w1 & E1 & _).
  - intros p' Hp'. rewrite Hp in Hp'. now injection Hp' as <-.
  - rewrite E1 in E. discriminate.
Qed.

Lemma generateDailyChallenges_run now w challenges w' :
  generateDailyChallenges date now w = (Ret challenges, w') ->
  entropy w' = drop 9 (entropy w)
  /\ only_entropy w w'
  /\ exists c0 c1 c2,
       challenges = [c0; c1; c2]
       /\ just_generated now 0 c0
       /\ just_generated now 1 c1
       /\ just_generated now 2 c2.
Proof.
  intros E.
  destruct (generateDailyChallenges_returns_prefs now w _ _ E)
    as (p & Hp & Hne).
  destruct (generateDailyChallenges_inv date now w p _ _ Hp Hne E)
    as (Hw & H3 & _).
  revert E.
  unfold generateDailyChallenges, AIChallengeGenerator.generateDailyChallenges.
  unfold bind at 1. rewrite (this_preferences_ok _ _ Hp).
  unfold bind at 1.
  pose proof (selectCategories_entropy (Preferences.categories p) w Hne)
    as He1.
  destruct (selectCategories_spec (Preferences.categories p) w Hne)
    as (selected & w1 & E1 & _ & Hsel).
  rewrite E1 in He1 |- *. cbn [snd] in He1.
  intros E. apply for_each_shape in E as (He2 & Hcs).
  destruct Hsel as (_ & _ & _ & _ & _ & _ & _ & Hl).
  rewrite length_map, Hl in He2.
  split; [rewrite He2, He1, drop_drop; reflexivity|].
  split; [exact Hw|].
  destruct challenges as [|c0 [|c1 [|c2 [|c3 cs]]]]; try discriminate H3.
  exists c0, c1, c2. split; [reflexivity|].
  split; [exact (Hcs 0%nat c0 eq_refl)|].
  split; [exact (Hcs 1%nat c1 eq_refl)|exact (Hcs 2%nat c2 eq_refl)].
Qed.

(** X14. Every batch [generateDailyChallenges] returns has three
    challenges with the ids [challenge_<now>_0], [_1] and [_2], pairwise
    different, each created at [now], not completed, without notes and
    flagged as generated. *)
Theorem generated_batch_shape now w challenges w' :
  generateDailyChallenges date now w = (Ret challenges, w') ->
  NoDup (map Challenge.id challenges)
  /\ exists c0 c1 c2,
       challenges = [c0; c1; c2]
       /\ just_generated now 0 c0
       /\ just_generated now 1 c1
       /\ just_generated now 2 c2.
Proof.
  intros E.
  destruct (generateDailyChallenges_run now w _ _ E)
    as (_ & _ & c0 & c1 & c2 & -> & H0 & H1 & H2).
  split; [|now exists c0, c1, c2].
  destruct H0 as (I0 & _), H1 as (I1 & _), H2 as (I2 & _).
  cbn [map]. rewrite I0, I1, I2.
  assert (forall i j : nat,
            pretty i <> pretty j ->
            "challenge_" +:+ pretty now +:+ "_" +:+ pretty i
            <> "challenge_" +:+ pretty now +:+ "_" +:+ pretty j) as Hd.
  { intros i j Hij H. apply Hij.
    now do 3 apply append_inv_head in H. }
  repeat constructor; rewrite ?elem_of_cons, ?elem_of_nil;
    intros H; repeat destruct H as [H|H]; try tauto;
    revert H; apply Hd; vm_compute; discriminate.
Qed.

(** X15. A batch that is returned has consumed exactly nine random
    numbers (three for the categories, two for each challenge) and
    changed nothing else: the store, the failure schedule, the generator
    and the log are as before. *)
Theorem generateDailyChallenges_nine_draws now w challenges w' :
  generateDailyChallenges date now w = (Ret challenges, w') ->
  entropy w' = drop 9 (entropy w)
  /\ storage w' = storage w
  /\ faults w' = faults w
  /\ generator w' = generator w
  /\ console w' = console w.
Proof.
  intros E.
  destruct (generateDailyChallenges_run now w _ _ E) as (He & Hw & _).
  split; [exact He|]. rewrite Hw. cbn. auto.
Qed.

End ShapeFacts.

Lemma generated_batch_shape_witness :
  NoDup (map Challenge.id first_batch)
  /\ exists c0 c1 c2,
       first_batch = [c0; c1; c2]
       /\ just_generated jan_1_noon 0 c0
       /\ just_generated jan_1_noon 1 c1
       /\ just_generated jan_1_noon 2 c2.
Proof.
  apply (generated_batch_shape utc jan_1_noon (after_call fresh_install)
           first_batch
           (exec (generateDailyChallenges utc jan_1_noon)
                 (after_call fresh_install))).
  vm_compute; reflexivity.
Defined.

Lemma generateDailyChallenges_nine_draws_witness :
  entropy (exec (generateDailyChallenges utc jan_1_noon)
             (prefs_world (health_only "easy")
                [3; 1; 4; 1; 5; 9; 2; 6; 5; 3; 5]))
  = [3; 5].
Proof.
  destruct (generateDailyChallenges_nine_draws utc jan_1_noon
              (prefs_world (health_only "easy")
                 [3; 1; 4; 1; 5; 9; 2; 6; 5; 3; 5])
              (match generateDailyChallenges utc jan_1_noon
                       (prefs_world (health_only "easy")
                          [3; 1; 4; 1; 5; 9; 2; 6; 5; 3; 5]) with
               | (Ret cs, _) => cs
               | _ => []
               end)
              (exec (generateDailyChallenges utc jan_1_noon)
                 (prefs_world (health_only "easy")
                    [3; 1; 4; 1; 5; 9; 2; 6; 5; 3; 5])))
    as (He & _).
  - vm_compute; reflexivity.
  - exact He.
Defined.

(** ** Personalisation factors *)

Lemma assoc_set_same {A} (own : list (string * A)) k a :
  assoc (set_property own k a) k = Some a.
Proof.
  induction own as [|[k0 b] own IH]; cbn.
  - now rewrite String.eqb_refl.
  - destruct (String.eqb k0 k) eqn:E; cbn; rewrite E; [reflexivity|exact IH].
Qed.

Lemma assoc_set_other {A} (own : list (string * A)) k' k a :
  k' <> k -> assoc (set_property own k' a) k = assoc own k.
Proof.
  intros Hne. induction own as [|[k0 b] own IH]; cbn.
  - apply String.eqb_neq in Hne. now rewrite Hne.
  - destruct (String.eqb k0 k') eqn:E; cbn; [|now rewrite IH].
    apply String.eqb_eq in E. subst k0.
    apply String.eqb_neq in Hne. now rewrite Hne.
Qed.

Lemma bump_recorded k' acc k n :
  assoc acc k = recorded k n ->
  assoc (AIChallengeGenerator.bump k' acc) k
  = recorded k (n + if String.eqb k' k then 1 else 0).
Proof.
  intros Hacc. unfold AIChallengeGenerator.bump.
  destruct (String.eqb k' k) eqn:E.
  - apply String.eqb_eq in E. subst k'.
    unfold recorded in *. rewrite Nat.add_1_r. cbn [Nat.eqb orb].
    destruct (String.eqb k "__proto__") eqn:Ep.
    + rewrite orb_true_r in Hacc. exact Hacc.
    + rewrite assoc_set_same. rewrite orb_false_r in Hacc.
      unfold get_property. rewrite Hacc.
      destruct n as [|n]; cbn [Nat.eqb];
        destruct (existsb (String.eqb k) object_prototype_keys);
        reflexivity.
  - rewrite Nat.add_0_r. apply String.eqb_neq in E.
    destruct (String.eqb k' "__proto__"); [exact Hacc|].
    rewrite assoc_set_other by exact E. exact Hacc.
Qed.

Lemma fold_bump_recorded (l : list Challenge.t) k :
  forall acc n,
  assoc acc k = recorded k n ->
  assoc (fold_left (fun acc challenge =>
                      AIChallengeGenerator.bump
                        (Challenge.category challenge) acc) l acc) k
  = recorded k (n + length (filter (fun c => Challenge.category c = k) l)).
Proof.
  induction l as [|c l IH]; intros acc n Hacc; cbn [fold_left].
  - rewrite filter_nil. cbn [length]. rewrite Nat.add_0_r. exact Hacc.
  - rewrite (IH _ _ (bump_recorded (Challenge.category c) acc k n Hacc)).
    rewrite filter_cons. f_equal.
    destruct (decide (Challenge.category c = k)) as [->|Hne].
    + rewrite String.eqb_refl. cbn [length]. lia.
    + apply String.eqb_neq in Hne. rewrite Hne. lia.
Qed.

Lemma filter_none {A} (P : A -> Prop) `{forall x, Decision (P x)}
    (l : list A) :
  Forall (fun x => ~ P x) l -> filter P l = [].
Proof.
  induction 1 as [|x l Hx _ IH]; [apply filter_nil|].
  rewrite filter_cons. now destruct (decide (P x)).
Qed.

Lemma filter_every {A} (P : A -> Prop) `{forall x, Decision (P x)}
    (l : list A) :
  Forall P l -> filter P l = l.
Proof.
  induction 1 as [|x l Hx _ IH]; [apply filter_nil|].
  rewrite filter_cons, IH. now destruct (decide (P x)).
Qed.

(** X16. [getRecentCategories] looks at the last ten entries of the
    history, the entries that close it (all of them when there are fewer).
    Under a category that none of them has nothing is recorded.  Under a
    category that [n > 0] of them have the count [n] is recorded, but for
    the names of [Object.prototype]: nothing is recorded under
    ['__proto__'], and a string, not a count, under the others
    (['constructor'], ['toString'], ...). *)
Theorem getRecentCategories_counts (history : list Challenge.t) k :
  (exists older,
     history = older ++ AIChallengeGenerator.last_10 history)
  /\ length (AIChallengeGenerator.last_10 history)
     = Nat.min 10 (length history)
  /\ assoc (AIChallengeGenerator.getRecentCategories history) k
     = recorded k
         (length (filter (fun c => Challenge.category c = k)
                         (AIChallengeGenerator.last_10 history))).
Proof.
  split; [|split].
  - exists (take (length history - 10) history).
    unfold AIChallengeGenerator.last_10. now rewrite take_drop.
  - unfold AIChallengeGenerator.last_10. rewrite length_drop. lia.
  - unfold AIChallengeGenerator.getRecentCategories.
    apply (fold_bump_recorded _ k [] 0%nat). reflexivity.
Qed.

(** X17. [calculateSuccessRate] is 0.8 on an empty history; on any
    history it lies between 0 and 1, and on a non-empty one it is 0
    exactly when no entry is completed and 1 exactly when every entry
    is. *)
Theorem calculateSuccessRate_range (history : list Challenge.t) :
  (history = [] ->
   AIChallengeGenerator.calculateSuccessRate history = (4 # 5)%Q)
  /\ (0 <= AIChallengeGenerator.calculateSuccessRate history)%Q
  /\ (AIChallengeGenerator.calculateSuccessRate history <= 1)%Q
  /\ (history <> [] ->
      ((AIChallengeGenerator.calculateSuccessRate history == 0)%Q <->
       Forall (fun c => Challenge.completed c <> true) history)
      /\ ((AIChallengeGenerator.calculateSuccessRate history == 1)%Q <->
          Forall (fun c => Challenge.completed c = true) history)).
Proof.
  unfold AIChallengeGenerator.calculateSuccessRate.
  split; [intros ->; reflexivity|].
  destruct history as [|c history]; [repeat split; try easy|].
  pose proof (length_filter (fun c => Challenge.completed c = true)
                (c :: history)) as Hk.
  pose proof (filter_none (fun c => Challenge.completed c = true)
                (c :: history)) as Hnone.
  pose proof (filter_nil_not_elem_of
                (fun c => Challenge.completed c = true) (c :: history))
    as Hnil.
  pose proof (length_filter_lt
                (fun c => Challenge.completed c = true) (c :: history))
    as Hlt.
  pose proof (filter_every (fun c => Challenge.completed c = true)
                (c :: history)) as Hall.
  cbn [length] in Hk, Hlt |- *.
  set (n := length history) in *.
  set (l := c :: history) in *.
  assert (Z.pos (Pos.of_nat (S n)) = Z.of_nat (S n)) as Hp.
  { rewrite <- Pos.of_nat_succ, Zpos_P_of_succ_nat. lia. }
  split; [unfold Qle; cbn; lia|].
  split; [unfold Qle; cbn [Qnum Qden]; rewrite Hp; lia|].
  intros _. unfold Qeq. cbn [Qnum Qden]. rewrite Hp. split; split.
  - intros H. assert (filter (fun c => Challenge.completed c = true) l = [])
      as Hf by (apply length_zero_iff_nil; lia).
    apply Forall_forall. intros x Hx Hc. exact (Hnil x Hf Hc Hx).
  - intros H. rewrite (Hnone H). cbn. lia.
  - intros H. apply Forall_forall. intros x Hx.
    destruct (decide (Challenge.completed x = true)) as [Hc|Hc];
      [exact Hc|].
    specialize (Hlt x Hx Hc). lia.
  - intros H. rewrite (Hall H). unfold l. cbn [length]. lia.
Qed.

Lemma calculateSuccessRate_range_witness :
  AIChallengeGenerator.calculateSuccessRate [] = (4 # 5)%Q
  /\ ((AIChallengeGenerator.calculateSuccessRate first_batch == 0)%Q <->
      Forall (fun c => Challenge.completed c <> true) first_batch).
Proof.
  split.
  - apply (proj1 (calculateSuccessRate_range [])). reflexivity.
  - apply (proj2 (proj2 (proj2 (calculateSuccessRate_range first_batch)))).
    vm_compute; discriminate.
Defined.

(** ** Clearing, then loading *)

(** X27. After a [clearAllData] that storage answered, the three loaders
    find nothing: [loadUserData] answers [null], [loadChallengeHistory]
    the empty array and [loadUserPreferences] the default preferences. *)
Theorem clear_then_load w :
  calm 2 w = true ->
  exists w',
    clearAllData w = (Ret true, w')
    /\ (loadUserData w').1 = Ret VNull
    /\ (loadChallengeHistory w').1 = Ret (VChallenges [])
    /\ (loadUserPreferences w').1 = Ret (VPrefs default_preferences).
Proof.
  intros Hc.
  pose proof (calm_next _ _ Hc) as Hf1.
  pose proof (calm_next _ _ (calm_after _ _ Hc)) as Hf2.
  unfold clearAllData, try_catch, bind, AsyncStorage.multiRemove.
  rewrite Hf1. eexists. split; [reflexivity|].
  unfold loadUserData, loadChallengeHistory, loadUserPreferences,
    try_catch, bind, AsyncStorage.getItem, next_fault in *.
  cbn in Hf2 |- *. rewrite Hf2.
  rewrite lookup_delete_eq.
  rewrite lookup_delete_ne, lookup_delete_eq by discriminate.
  rewrite !lookup_delete_ne, lookup_delete_eq by discriminate.
  repeat split.
Qed.

Lemma clear_then_load_witness :
  exists w',
    clearAllData populated_world = (Ret true, w')
    /\ (loadUserData w').1 = Ret VNull
    /\ (loadChallengeHistory w').1 = Ret (VChallenges [])
    /\ (loadUserPreferences w').1 = Ret (VPrefs default_preferences).
Proof. apply clear_then_load. reflexivity. Defined.

(** * Properties of the screens *)

(** ** Start-up (App.js) *)

(** [initialize] of the generator reads twice and writes nothing. *)
Lemma initialize_frame w :
  exists w',
    initializeAIChallenges w = (Ret tt, w')
    /\ storage w' = storage w
    /\ entropy w' = entropy w
    /\ faults w' = tl (tl (faults w)).
Proof.
  unfold initializeAIChallenges, AIChallengeGenerator.initialize.
  unfold bind at 1.
  assert (exists w1,
            AIChallengeGenerator.loadUserPreferences w = (Ret tt, w1)
            /\ storage w1 = storage w /\ entropy w1 = entropy w
            /\ faults w1 = tl (faults w)) as (w1 & -> & Hs1 & He1 & Hf1).
  { unfold AIChallengeGenerator.loadUserPreferences, try_catch, bind,
      AsyncStorage.getItem.
    destruct (next_fault w); cbn; [eauto|].
    destruct (storage w !! "userPreferences") as [[v| |]|]; cbn; eauto. }
  assert (exists w2,
            AIChallengeGenerator.loadChallengeHistory w1 = (Ret tt, w2)
            /\ storage w2 = storage w1 /\ entropy w2 = entropy w1
            /\ faults w2 = tl (faults w1)) as (w2 & -> & Hs2 & He2 & Hf2).
  { unfold AIChallengeGenerator.loadChallengeHistory, try_catch, bind,
      AsyncStorage.getItem.
    destruct (next_fault w1); cbn; [eauto|].
    destruct (storage w1 !! "challengeHistory") as [[v| |]|]; cbn; eauto. }
  exists w2. split; [reflexivity|]. rewrite Hs2, He2, Hf2, Hf1. auto.
Qed.

Section StartUp.

Context (now : Z) (s : App.state).

Lemma initializeApp_new_user_run w :
  storage w !! "userData" = None ->
  calm 2 w = true ->
  App.initializeApp now s w
  = (Ret tt, App.mkState false (VProfile (App.newUserData now)),
     exec initializeAIChallenges
       (with_profile (App.newUserData now) (after_call (after_call w)))).
Proof.
  intros Hs Hc.
  pose proof (calm_next _ _ Hc) as Hf1.
  pose proof (calm_next _ _ (calm_after _ _ Hc)) as Hf2.
  unfold App.initializeApp, React.try_catch_finally, React.bind,
    React.await, App.setUserData, App.setIsLoading, React.set, React.ret.
  unfold loadUserData, try_catch, bind.
  rewrite (getItem_ok _ _ Hf1), Hs. cbn.
  rewrite (saveUserData_ok _ _ Hf2).
  unfold exec, with_profile.
  match goal with
  | |- context [initializeAIChallenges ?w0] =>
      destruct (initialize_frame w0) as (w' & E & _)
  end.
  cbn in E |- *. rewrite E. reflexivity.
Qed.

(** X18. First launch: with nothing under ['userData'] and the read and
    the write answered, [initializeApp] stores the profile of a new user
    (no completion, streak 0, total 0, joined now), shows it, and ends
    loading. *)
Theorem initializeApp_new_user w :
  storage w !! "userData" = None ->
  calm 2 w = true ->
  exists w',
    App.initializeApp now s w
    = (Ret tt, App.mkState false (VProfile (App.newUserData now)), w')
    /\ stored_profile w' (App.newUserData now)
    /\ UserData.completedChallenges (App.newUserData now) = []
    /\ UserData.currentStreak (App.newUserData now) = 0%Z
    /\ UserData.totalChallenges (App.newUserData now) = 0%Z.
Proof.
  intros Hs Hc. rewrite (initializeApp_new_user_run w Hs Hc).
  eexists. split; [reflexivity|]. split; [|auto].
  unfold exec.
  match goal with
  | |- context [initializeAIChallenges ?w0] =>
      destruct (initialize_frame w0) as (w' & -> & Hs' & _)
  end.
  unfold stored_profile. cbn [snd]. rewrite Hs'. cbn.
  apply lookup_insert_eq.
Qed.

(** X19. Later launches: a stored profile (any truthy value) whose read
    is answered is shown as it is, nothing is written, and loading
    ends. *)
Theorem initializeApp_keeps_profile w v :
  storage w !! "userData" = Some (Json v) ->
  truthy v = true ->
  next_fault w = false ->
  exists w',
    App.initializeApp now s w = (Ret tt, App.mkState false v, w')
    /\ storage w' = storage w.
Proof.
  intros Hs Hv Hf.
  unfold App.initializeApp, React.try_catch_finally, React.bind,
    React.await, App.setUserData, App.setIsLoading, React.set, React.ret.
  rewrite (loadUserData_stored _ _ Hs Hf), Hv.
  destruct (initialize_frame (after_call w)) as (w' & -> & Hs' & _).
  cbn. exists w'. split; [reflexivity|]. now rewrite Hs'.
Qed.

(** X20. A launch whose read of the profile is rejected treats the user
    as new: when the write that follows is answered, the profile of a
    new user is stored in place of whatever was stored. *)
Theorem initializeApp_after_failed_read w :
  next_fault w = true ->
  next_fault (after_call w) = false ->
  exists w',
    App.initializeApp now s w
    = (Ret tt, App.mkState false (VProfile (App.newUserData now)), w')
    /\ stored_profile w' (App.newUserData now).
Proof.
  intros Hf1 Hf2.
  unfold App.initializeApp, React.try_catch_finally, React.bind,
    React.await, App.setUserData, App.setIsLoading, React.set, React.ret.
  unfold loadUserData, try_catch, bind.
  rewrite (getItem_fails _ _ Hf1). cbn.
  unfold saveUserData, try_catch, bind, AsyncStorage.setItem.
  unfold next_fault in *. cbn in *. rewrite Hf2. cbn.
  match goal with
  | |- context [initializeAIChallenges ?w0] =>
      destruct (initialize_frame w0) as (w' & -> & Hs' & _)
  end.
  cbn. exists w'. split; [reflexivity|].
  unfold stored_profile. rewrite Hs'. cbn. apply lookup_insert_eq.
Qed.

(** X21. [initializeApp] never throws and always ends with the loading
    flag cleared, whatever is stored and whichever storage call fails. *)
Theorem initializeApp_ends_loading w :
  exists s' w',
    App.initializeApp now s w = (Ret tt, s', w')
    /\ App.isLoading s' = false.
Proof.
  unfold App.initializeApp, React.try_catch_finally, React.bind,
    React.await, App.setUserData, App.setIsLoading, React.set, React.ret.
  destruct (loadUserData_cases w) as (v & w1 & -> & _).
  destruct (truthy v).
  - destruct (initialize_frame w1) as (w' & -> & _). cbn. eauto.
  - destruct (saveUserData_cases (VProfile (App.newUserData now)) w1)
      as (b & w2 & -> & _).
    destruct (initialize_frame w2) as (w' & -> & _). cbn. eauto.
Qed.

End StartUp.

Lemma initializeApp_new_user_witness :
  exists w',
    App.initializeApp jan_1_2024 App.initial empty_world
    = (Ret tt, App.mkState false (VProfile (App.newUserData jan_1_2024)), w')
    /\ stored_profile w' (App.newUserData jan_1_2024).
Proof.
  destruct (initializeApp_new_user jan_1_2024 App.initial empty_world)
    as (w' & E & H & _).
  - vm_compute; reflexivity.
  - reflexivity.
  - exists w'. split; [exact E|exact H].
Defined.

Lemma initializeApp_keeps_profile_witness :
  exists w',
    App.initializeApp jan_2_morning App.initial sample_world
    = (Ret tt, App.mkState false (VProfile sample_profile), w')
    /\ storage w' = storage sample_world.
Proof.
  apply initializeApp_keeps_profile.
  - vm_compute; reflexivity.
  - reflexivity.
  - reflexivity.
Defined.

Lemma initializeApp_after_failed_read_witness :
  exists w',
    App.initializeApp jan_2_morning App.initial
      (set_faults [true] sample_world)
    = (Ret tt,
       App.mkState false (VProfile (App.newUserData jan_2_morning)), w')
    /\ stored_profile w' (App.newUserData jan_2_morning).
Proof.
  apply initializeApp_after_failed_read; reflexivity.
Defined.

(** ** The home screen (HomeScreen.js) *)

Lemma getTodaysChallenges_never_throws date now :
  never_throws (getTodaysChallenges date now).
Proof.
  unfold getTodaysChallenges, AIChallengeGenerator.getTodaysChallenges.
  guarded.
Qed.

Lemma count_completed_le cs :
  (HomeScreen.count_completed cs <= length cs)%nat.
Proof. apply length_filter. Qed.

Section HomeFacts.

Context (date : DateAPI).

Lemma loadTodaysChallenges_run now s w :
  exists v w',
    getTodaysChallenges date now w = (Ret v, w')
    /\ HomeScreen.loadTodaysChallenges date now s w
       = (Ret tt,
          match v with
          | VChallenges cs =>
              HomeScreen.mkState v false (HomeScreen.refreshing s)
                (HomeScreen.count_completed cs) (HomeScreen.alerts s)
          | _ =>
              HomeScreen.mkState v false (HomeScreen.refreshing s)
                (HomeScreen.completedCount s)
                (HomeScreen.alerts s
                 ++ [("Error", "Failed to load today's challenges")])
          end,
          match v with
          | VChallenges _ => w'
          | _ => exec (console_error "Error loading challenges:") w'
          end).
Proof.
  destruct (getTodaysChallenges_never_throws date now w) as (v & w' & E).
  exists v, w'. split; [exact E|].
  unfold HomeScreen.loadTodaysChallenges, React.try_catch_finally,
    React.bind, React.await, HomeScreen.setLoading, HomeScreen.setChallenges,
    HomeScreen.updateCompletedCount, HomeScreen.setCompletedCount,
    HomeScreen.alert, React.set, React.throw.
  cbn. rewrite E. destruct v; reflexivity.
Qed.

(** X22. The progress the home screen shows always agrees with the
    challenges it shows: initially, after [loadTodaysChallenges], after
    [onRefresh] and after [handleChallengeComplete] the count is the
    number of completed challenges shown and never exceeds their number,
    whatever storage holds or does. *)
Theorem home_progress_consistent now challengeId s w :
  count_shown HomeScreen.initial
  /\ count_shown (state_after (HomeScreen.loadTodaysChallenges date now s w))
  /\ count_shown (state_after (HomeScreen.onRefresh date now s w))
  /\ count_shown
       (state_after (HomeScreen.handleChallengeComplete challengeId now s w)).
Proof.
  unfold count_shown, state_after.
  split; [|split; [|split]].
  - cbn. intros cs [= <-]. split; [reflexivity|]. cbn. lia.
  - destruct (loadTodaysChallenges_run now s w) as (v & w' & _ & ->).
    cbn. destruct v; cbn; intros cs' [= <-].
    split; [reflexivity|apply count_completed_le].
  - unfold HomeScreen.onRefresh, React.bind, HomeScreen.setRefreshing,
      React.set.
    destruct (loadTodaysChallenges_run now
                (HomeScreen.mkState (HomeScreen.challenges s)
                   (HomeScreen.loading s) true (HomeScreen.completedCount s)
                   (HomeScreen.alerts s)) w) as (v & w' & _ & ->).
    cbn. destruct v; cbn; intros cs' [= <-].
    split; [reflexivity|apply count_completed_le].
  - unfold HomeScreen.handleChallengeComplete, React.bind, React.get,
      HomeScreen.setChallenges, HomeScreen.updateCompletedCount,
      HomeScreen.setCompletedCount, React.set, React.throw.
    destruct (HomeScreen.challenges s) eqn:E; cbn;
      try (intros cs' Hcs; rewrite E in Hcs; discriminate).
    intros cs' [= <-]. split; [reflexivity|apply count_completed_le].
Qed.

(** X23. A completion toggled on the home screen is not saved: the
    handler leaves the world as it is, and a refresh on a day with a
    cached batch shows that batch and its count again. *)
Theorem refresh_shows_cached_batch now challengeId now0 s w batch :
  storage w !! AIChallengeGenerator.day_key date now
  = Some (Json (VChallenges batch)) ->
  next_fault w = false ->
  exists r s1 s2 w2,
    HomeScreen.handleChallengeComplete challengeId now0 s w = (r, s1, w)
    /\ HomeScreen.onRefresh date now s1 w = (Ret tt, s2, w2)
    /\ HomeScreen.challenges s2 = VChallenges batch
    /\ HomeScreen.completedCount s2 = HomeScreen.count_completed batch
    /\ HomeScreen.loading s2 = false
    /\ HomeScreen.refreshing s2 = false
    /\ storage w2 = storage w.
Proof.
  intros Hs Hf.
  assert (exists r s1,
            HomeScreen.handleChallengeComplete challengeId now0 s w
            = (r, s1, w)) as (r & s1 & E1).
  { unfold HomeScreen.handleChallengeComplete, React.bind, React.get,
      HomeScreen.setChallenges, HomeScreen.updateCompletedCount,
      HomeScreen.setCompletedCount, React.set, React.throw.
    destruct (HomeScreen.challenges s); cbn; eauto. }
  exists r, s1. rewrite E1.
  unfold HomeScreen.onRefresh, React.bind, HomeScreen.setRefreshing,
    React.set.
  destruct (loadTodaysChallenges_run now
              (HomeScreen.mkState (HomeScreen.challenges s1)
                 (HomeScreen.loading s1) true (HomeScreen.completedCount s1)
                 (HomeScreen.alerts s1)) w) as (v & w' & Ev & ->).
  rewrite (getTodaysChallenges_cached_run date now w _ Hs Hf) in Ev.
  injection Ev as <- <-.
  cbn. eexists _, _. split; [reflexivity|]. split; [reflexivity|].
  cbn. auto 10.
Qed.

Lemma toggle_toggle challengeId now1 now2 c :
  uncompleted c ->
  HomeScreen.toggle challengeId now2 (HomeScreen.toggle challengeId now1 c)
  = c.
Proof.
  intros [Hc Ha]. unfold HomeScreen.toggle.
  destruct (String.eqb (Challenge.id c) challengeId) eqn:E; cbn;
    rewrite E; [|reflexivity].
  destruct c; cbn in *. subst. reflexivity.
Qed.

Lemma count_completed_uncompleted cs :
  Forall uncompleted cs -> HomeScreen.count_completed cs = 0%nat.
Proof.
  intros H. unfold HomeScreen.count_completed.
  rewrite filter_none; [reflexivity|].
  eapply Forall_impl; [exact H|].
  intros c [Hc _]. rewrite Hc. discriminate.
Qed.

Lemma count_completed_toggled challengeId now cs :
  Forall uncompleted cs ->
  HomeScreen.count_completed (map (HomeScreen.toggle challengeId now) cs)
  = length (filter (fun c => Challenge.id c = challengeId) cs).
Proof.
  unfold HomeScreen.count_completed.
  induction 1 as [|c cs [Hc _] _ IH]; [reflexivity|].
  cbn [map]. rewrite !filter_cons.
  assert (Challenge.completed (HomeScreen.toggle challengeId now c) = true
          <-> Challenge.id c = challengeId) as Hiff.
  { unfold HomeScreen.toggle.
    destruct (String.eqb (Challenge.id c) challengeId) eqn:E; cbn.
    - apply String.eqb_eq in E. rewrite Hc. cbn. tauto.
    - apply String.eqb_neq in E. rewrite Hc. split; [discriminate|tauto]. }
  destruct (decide (Challenge.completed
                      (HomeScreen.toggle challengeId now c) = true));
    destruct (decide (Challenge.id c = challengeId));
    try tauto; cbn [length]; now rewrite IH.
Qed.

Lemma handleChallengeComplete_run challengeId now s w cs :
  HomeScreen.challenges s = VChallenges cs ->
  HomeScreen.handleChallengeComplete challengeId now s w
  = (Ret tt,
     HomeScreen.mkState
       (VChallenges (map (HomeScreen.toggle challengeId now) cs))
       (HomeScreen.loading s) (HomeScreen.refreshing s)
       (HomeScreen.count_completed
          (map (HomeScreen.toggle challengeId now) cs))
       (HomeScreen.alerts s),
     w).
Proof.
  intros Hs.
  unfold HomeScreen.handleChallengeComplete, React.bind, React.get,
    HomeScreen.setChallenges, HomeScreen.updateCompletedCount,
    HomeScreen.setCompletedCount, React.set, React.throw.
  rewrite Hs. reflexivity.
Qed.

(** X24. On a screen showing challenges nobody has completed, tapping
    "complete" on an id marks the challenges with that id (the count
    becomes their number, the others are untouched), and tapping it again
    restores the list and a count of zero. *)
Theorem handleChallengeComplete_twice challengeId now1 now2 s w cs :
  HomeScreen.challenges s = VChallenges cs ->
  Forall uncompleted cs ->
  exists s1 s2,
    HomeScreen.handleChallengeComplete challengeId now1 s w = (Ret tt, s1, w)
    /\ HomeScreen.challenges s1
       = VChallenges (map (HomeScreen.toggle challengeId now1) cs)
    /\ HomeScreen.completedCount s1
       = length (filter (fun c => Challenge.id c = challengeId) cs)
    /\ HomeScreen.handleChallengeComplete challengeId now2 s1 w
       = (Ret tt, s2, w)
    /\ HomeScreen.challenges s2 = VChallenges cs
    /\ HomeScreen.completedCount s2 = 0%nat.
Proof.
  intros Hs Hu.
  assert (forall l, Forall uncompleted l ->
            map (HomeScreen.toggle challengeId now2)
                (map (HomeScreen.toggle challengeId now1) l) = l) as Hback.
  { intros l Hl. induction Hl as [|c l Hc _ IH]; [reflexivity|].
    cbn [map]. rewrite toggle_toggle by exact Hc. now rewrite IH. }
  eexists _, _.
  split; [apply handleChallengeComplete_run; exact Hs|].
  split; [reflexivity|].
  split; [cbn [HomeScreen.completedCount];
          now apply count_completed_toggled|].
  split; [now apply handleChallengeComplete_run|].
  cbn [HomeScreen.challenges HomeScreen.completedCount].
  rewrite (Hback cs Hu). split; [reflexivity|].
  now apply count_completed_uncompleted.
Qed.

End HomeFacts.

Lemma refresh_shows_cached_batch_witness :
  exists r s1 s2 w2,
    HomeScreen.handleChallengeComplete "challenge_1704110400000_0"
      jan_1_noon home_first_day first_day = (r, s1, first_day)
    /\ HomeScreen.onRefresh utc jan_1_noon s1 first_day = (Ret tt, s2, w2)
    /\ HomeScreen.challenges s2 = VChallenges first_batch
    /\ HomeScreen.completedCount s2 = HomeScreen.count_completed first_batch
    /\ HomeScreen.loading s2 = false
    /\ HomeScreen.refreshing s2 = false
    /\ storage w2 = storage first_day.
Proof.
  apply refresh_shows_cached_batch.
  - vm_compute; reflexivity.
  - reflexivity.
Defined.

Lemma handleChallengeComplete_twice_witness :
  exists s1 s2,
    HomeScreen.handleChallengeComplete "challenge_1704110400000_0"
      jan_1_noon home_first_day first_day = (Ret tt, s1, first_day)
    /\ HomeScreen.completedCount s1 = 1%nat
    /\ HomeScreen.handleChallengeComplete "challenge_1704110400000_0"
         (jan_1_noon + 60000)%Z s1 first_day = (Ret tt, s2, first_day)
    /\ HomeScreen.challenges s2 = VChallenges first_batch
    /\ HomeScreen.completedCount s2 = 0%nat.
Proof.
  destruct (handleChallengeComplete_twice "challenge_1704110400000_0"
              jan_1_noon (jan_1_noon + 60000)%Z home_first_day first_day
              first_batch)
    as (s1 & s2 & E1 & _ & H1 & E2 & H2 & H3).
  - vm_compute; reflexivity.
  - repeat constructor.
  - exists s1, s2. split; [exact E1|]. split; [|auto].
    rewrite H1. vm_compute. reflexivity.
Defined.

(** * From launch to the first batch *)

Lemma initialize_run w :
  calm 2 w = true ->
  exists w',
    initializeAIChallenges w = (Ret tt, w')
    /\ generator w'
       = mkGenerator
           (loaded_or w "userPreferences"
              (VPrefs AIChallengeGenerator.default_preferences)
              (userPreferences (generator w)))
           (loaded_or w "challengeHistory" (VChallenges [])
              (challengeHistory (generator w)))
    /\ storage w' = storage w
    /\ entropy w' = entropy w
    /\ faults w' = tl (tl (faults w)).
Proof.
  intros Hc.
  pose proof (calm_next _ _ Hc) as Hf1.
  pose proof (calm_next _ _ (calm_after _ _ Hc)) as Hf2.
  unfold next_fault in Hf1, Hf2. cbn in Hf2.
  unfold initializeAIChallenges, AIChallengeGenerator.initialize,
    AIChallengeGenerator.loadUserPreferences,
    AIChallengeGenerator.loadChallengeHistory, try_catch, bind,
    AsyncStorage.getItem, next_fault, loaded_or.
  rewrite Hf1.
  destruct (storage w !! "userPreferences") as [[v1| |]|] eqn:E1;
    cbn; rewrite Hf2;
    destruct (storage w !! "challengeHistory") as [[v2| |]|] eqn:E2;
    cbn; eexists; (split; [reflexivity|]); cbn;
    destruct (generator w); auto.
Qed.

(** X25. [initialize] fills the generator from the store and writes
    nothing: with both reads answered each field is the stored value, the
    default (medium difficulty with the three categories; an empty
    history) when its key is missing or empty, and what it was before
    when the text is not JSON; a field whose read is rejected also stays
    what it was, [null] on a new generator, not the default. *)
Theorem initialize_loads w :
  (calm 2 w = true ->
   exists w',
     initializeAIChallenges w = (Ret tt, w')
     /\ userPreferences (generator w')
        = loaded_or w "userPreferences"
            (VPrefs AIChallengeGenerator.default_preferences)
            (userPreferences (generator w))
     /\ challengeHistory (generator w')
        = loaded_or w "challengeHistory" (VChallenges [])
            (challengeHistory (generator w))
     /\ storage w' = storage w)
  /\ (next_fault w = true ->
      userPreferences (generator (exec initializeAIChallenges w))
      = userPreferences (generator w)).
Proof.
  split.
  - intros Hc. destruct (initialize_run w Hc) as (w' & E & Hg & Hs & _).
    exists w'. rewrite Hg. auto.
  - intros Hf.
    unfold exec, initializeAIChallenges, AIChallengeGenerator.initialize,
      AIChallengeGenerator.loadUserPreferences,
      AIChallengeGenerator.loadChallengeHistory, try_catch, bind,
      AsyncStorage.getItem.
    rewrite Hf. cbn.
    match goal with
    | |- context [if ?b then _ else _] => destruct b
    end; cbn; [reflexivity|].
    destruct (storage w !! "challengeHistory") as [[v| |]|]; reflexivity.
Qed.

Lemma initialize_loads_witness :
  exists w',
    initializeAIChallenges empty_world = (Ret tt, w')
    /\ userPreferences (generator w')
       = VPrefs AIChallengeGenerator.default_preferences
    /\ challengeHistory (generator w') = VChallenges []
    /\ storage w' = storage empty_world.
Proof.
  apply (proj1 (initialize_loads empty_world)). reflexivity.
Defined.

Lemma default_preferences_supported :
  supported AIChallengeGenerator.default_preferences.
Proof.
  split.
  - repeat constructor; unfold has_templates; cbn; eauto.
  - unfold has_modifiers. cbn. discriminate.
Qed.

Section FirstBatch.

Context (date : DateAPI).

Lemma saveChallenges_run now w h challenges :
  challengeHistory (generator w) = VChallenges h ->
  calm 2 w = true ->
  saveChallenges date challenges now w
  = (Ret true,
     mkWorld
       (<["challengeHistory" := Json (VChallenges (h ++ challenges))]>
          (<[AIChallengeGenerator.day_key date now
               := Json (VChallenges challenges)]> (storage w)))
       (tl (tl (faults w))) (entropy w)
       (mkGenerator (userPreferences (generator w))
                    (VChallenges (h ++ challenges)))
       (console w)).
Proof.
  intros Hg Hc.
  pose proof (calm_next _ _ Hc) as Hf1.
  pose proof (calm_next _ _ (calm_after _ _ Hc)) as Hf2.
  unfold saveChallenges, AIChallengeGenerator.saveChallenges,
    try_catch, bind.
  rewrite (setItem_ok _ _ _ Hf1).
  unfold this_history, get_generator, bind. simpl. rewrite Hg. simpl.
  unfold put_generator.
  match goal with
  | |- context [AsyncStorage.setItem ?k ?t ?w0] =>
      rewrite (setItem_ok k t w0 Hf2)
  end.
  reflexivity.
Qed.

(** The first call of a day: a batch is generated, cached and appended to
    the history; no other key changes. *)
Lemma getTodaysChallenges_generates now w p h :
  ready w p h ->
  Preferences.categories p <> [] ->
  supported p ->
  storage w !! AIChallengeGenerator.day_key date now = None ->
  calm 3 w = true ->
  exists batch w1,
    getTodaysChallenges date now w = (Ret (VChallenges batch), w1)
    /\ length batch = 3%nat
    /\ Forall uncompleted batch
    /\ storage w1
       = <["challengeHistory" := Json (VChallenges (h ++ batch))]>
           (<[AIChallengeGenerator.day_key date now
                := Json (VChallenges batch)]> (storage w))
    /\ console w1 = console w.
Proof.
  intros Hr Hne Hs Hnone Hc.
  pose proof (calm_next _ _ Hc) as Hf1.
  apply calm_after in Hc.
  assert (ready (after_call w) p h) as Hr1 by exact Hr.
  destruct (generateDailyChallenges_ok date now _ p h Hr1 Hne Hs)
    as (batch & w0 & E).
  destruct (generateDailyChallenges_run date now _ _ _ E)
    as (_ & Hw0 & c0 & c1 & c2 & -> & H0 & H1 & H2).
  pose proof (ready_only_entropy _ _ _ _ Hw0 Hr1) as [_ Hh0].
  rewrite <- (only_entropy_calm _ _ _ Hw0) in Hc.
  exists [c0; c1; c2]. eexists. split; [|split; [reflexivity|split]].
  - unfold getTodaysChallenges, AIChallengeGenerator.getTodaysChallenges,
      try_catch, bind.
    rewrite (getItem_ok _ _ Hf1), Hnone.
    fold (generateDailyChallenges date now). rewrite E.
    fold (saveChallenges date [c0; c1; c2] now).
    rewrite (saveChallenges_run now w0 h _ Hh0 Hc). reflexivity.
  - repeat constructor;
      first [apply H0|apply H1|apply H2].
  - cbn. rewrite Hw0. cbn. auto.
Qed.

(** X26. First launch end to end: from an empty store that never fails
    and a new generator, [initializeApp] followed by the home screen's
    [loadTodaysChallenges] shows three uncompleted challenges with a
    count of zero and no alert, whatever the random numbers, the instant
    and the time zone; the batch is cached under the day's key, it is the
    whole history, and the new profile is stored. *)
Theorem first_launch_shows_three now w :
  storage w = ∅ ->
  faults w = [] ->
  generator w = new_generator ->
  exists w1 w2 batch,
    App.initializeApp now App.initial w
    = (Ret tt, App.mkState false (VProfile (App.newUserData now)), w1)
    /\ HomeScreen.loadTodaysChallenges date now HomeScreen.initial w1
       = (Ret tt, HomeScreen.mkState (VChallenges batch) false false 0 [], w2)
    /\ length batch = 3%nat
    /\ Forall uncompleted batch
    /\ storage w2 !! AIChallengeGenerator.day_key date now
       = Some (Json (VChallenges batch))
    /\ history_log w2 = batch
    /\ stored_profile w2 (App.newUserData now).
Proof.
  intros Hs Hf Hg.
  assert (storage w !! "userData" = None) as Hnone
    by (rewrite Hs; apply lookup_empty).
  rewrite (initializeApp_new_user_run now App.initial w Hnone
             (calm_no_faults 2 w Hf)).
  set (w0 := with_profile (App.newUserData now) (after_call (after_call w))).
  assert (faults w0 = []) as Hf0 by (unfold w0; cbn; now rewrite Hf).
  destruct (initialize_run w0 (calm_no_faults 2 w0 Hf0))
    as (w1 & E1 & Hg1 & Hs1 & _ & Hf1).
  unfold exec. rewrite E1. cbn [snd].
  assert (storage w1
          = <["userData" := Json (VProfile (App.newUserData now))]> ∅)
    as Hst1 by (rewrite Hs1; unfold w0; cbn; now rewrite Hs).
  assert (ready w1 AIChallengeGenerator.default_preferences []) as Hr1.
  { unfold ready. rewrite Hg1. unfold loaded_or.
    unfold w0. cbn. rewrite Hs.
    rewrite !lookup_insert_ne by discriminate.
    rewrite !lookup_empty. auto. }
  assert (faults w1 = []) as Hfw1 by (rewrite Hf1, Hf0; reflexivity).
  destruct (getTodaysChallenges_generates now w1
              AIChallengeGenerator.default_preferences [] Hr1
              ltac:(discriminate) default_preferences_supported)
    as (batch & w2 & E2 & H3 & Hu & Hst2 & _).
  { rewrite Hst1.
    rewrite lookup_insert_ne, lookup_empty; [reflexivity|].
    unfold AIChallengeGenerator.day_key. cbn. discriminate. }
  { now apply calm_no_faults. }
  exists w1, w2, batch. split; [reflexivity|].
  destruct (loadTodaysChallenges_run date now HomeScreen.initial w1)
    as (v & w2' & Ev & ->).
  rewrite E2 in Ev. injection Ev as <- <-. cbv iota.
  rewrite (count_completed_uncompleted batch Hu).
  split; [reflexivity|]. split; [exact H3|]. split; [exact Hu|].
  rewrite Hst2, Hst1. cbn [app]. split; [|split].
  - rewrite lookup_insert_ne, lookup_insert_eq; [reflexivity|].
    unfold AIChallengeGenerator.day_key. cbn. discriminate.
  - unfold history_log. rewrite Hst2, lookup_insert_eq. reflexivity.
  - unfold stored_profile. rewrite Hst2, Hst1.
    rewrite lookup_insert_ne by discriminate.
    rewrite lookup_insert_ne; [apply lookup_insert_eq|].
    unfold AIChallengeGenerator.day_key. cbn. discriminate.
Qed.

End FirstBatch.

Lemma first_launch_shows_three_witness :
  exists w1 w2 batch,
    App.initializeApp jan_1_noon App.initial empty_world
    = (Ret tt, App.mkState false (VProfile (App.newUserData jan_1_noon)), w1)
    /\ HomeScreen.loadTodaysChallenges utc jan_1_noon HomeScreen.initial w1
       = (Ret tt, HomeScreen.mkState (VChallenges batch) false false 0 [], w2)
    /\ length batch = 3%nat
    /\ Forall uncompleted batch
    /\ storage w2 !! AIChallengeGenerator.day_key utc jan_1_noon
       = Some (Json (VChallenges batch))
    /\ history_log w2 = batch
    /\ stored_profile w2 (App.newUserData jan_1_noon).
Proof. apply first_launch_shows_three; reflexivity. Defined.
